(** * nifty50-stocks-analysis-etl: the three ingestion jobs

    A shallow embedding of
      - [history_data_generation/fed_interets.py]                  (module [FedInterets]),
      - [history_data_generation/macroeconomics_data_fetcher.py]   (module [Macroeconomics]),
      - [history_data_generation/nifty50_history_data_fetcher.py]  (module [Nifty50]),
    over a small model of the Python values and library calls they use
    (module [Py]).  Effects are explicit: every handler is a function of
    a [World] (what the environment, the network, the clock and the object
    store answer) and threads a [state] holding the trace of observable
    events. *)

From Stdlib Require Import String Ascii List ZArith Lia Bool Arith Permutation DecimalString.
Import ListNotations.
Open Scope string_scope.
Set Warnings "-register-all".

Module Py.

(** ** Strings (ASCII) *)

Definition ascii_lower (c : ascii) : ascii :=
  let n := nat_of_ascii c in
  if ((65 <=? n) && (n <=? 90))%nat then ascii_of_nat (n + 32) else c.

Definition ascii_upper (c : ascii) : ascii :=
  let n := nat_of_ascii c in
  if ((97 <=? n) && (n <=? 122))%nat then ascii_of_nat (n - 32) else c.

Fixpoint str_map (f : ascii -> ascii) (s : string) : string :=
  match s with
  | EmptyString => EmptyString
  | String c t => String (f c) (str_map f t)
  end.

Fixpoint str_forall (p : ascii -> bool) (s : string) : bool :=
  match s with
  | EmptyString => true
  | String c t => p c && str_forall p t
  end.

(** A character of ASCII text. *)
Definition is_ascii (c : ascii) : bool := Nat.ltb (nat_of_ascii c) 128.

(** [str.lower()] and [str.upper()] on ASCII text: the letters A-Z and a-z
    are mapped and every other character is left as it is.  The symbols,
    column labels and URLs of these jobs are ASCII text; the case mapping
    of any other character, which can change the length of a string, is not
    modelled, and a statement that depends on it is made for ASCII text
    only. *)
Definition lower : string -> string := str_map ascii_lower.
Definition upper : string -> string := str_map ascii_upper.

(** [s.replace(old, new)] for a non-empty [old]: every non-overlapping
    occurrence, left to right.  [skip] counts the characters of a match
    that are still to be dropped. *)
Fixpoint replace_from (old new : string) (skip : nat) (s : string) : string :=
  match s with
  | EmptyString => EmptyString
  | String c t =>
      match skip with
      | S k => replace_from old new k t
      | O =>
          if prefix old s
          then new ++ replace_from old new (String.length old - 1) t
          else String c (replace_from old new 0 t)
      end
  end.

Definition replace (s old new : string) : string := replace_from old new 0 s.

(** [sub in s] on two strings. *)
Definition contains (s sub : string) : bool :=
  match index 0 sub s with Some _ => true | None => false end.

Definition str_of_nat (n : nat) : string := NilEmpty.string_of_uint (Nat.to_uint n).

Definition digit (n : Z) : string :=
  String (ascii_of_nat (48 + Z.to_nat (n mod 10))) EmptyString.

Fixpoint mem (x : string) (l : list string) : bool :=
  match l with
  | [] => false
  | y :: t => (x =? y) || mem x t
  end.

(** ** Exceptions

    Every class below derives from [Exception]; [isinstance] against the
    classes named in the [except] clauses of the sources is decided by
    [is_RequestException] and [is_ValueError_or_TypeError]
    ([requests.exceptions.JSONDecodeError] derives from both
    [RequestException] and [ValueError]). *)

Inductive exn_class :=
| RequestException | HTTPError | ConnectionError | ReadTimeout | JSONDecodeError
| ValueError | TypeError | KeyError | AttributeError | InvalidIndexError
| OtherException.

Record exn := mkExn { exn_cls : exn_class; exn_arg : string }.

Definition is_RequestException (e : exn) : bool :=
  match exn_cls e with
  | RequestException | HTTPError | ConnectionError | ReadTimeout | JSONDecodeError => true
  | _ => false
  end.

Definition is_ValueError_or_TypeError (e : exn) : bool :=
  match exn_cls e with
  | ValueError | JSONDecodeError | TypeError => true
  | _ => false
  end.

Definition class_name (c : exn_class) : string :=
  match c with
  | RequestException => "RequestException" | HTTPError => "HTTPError"
  | ConnectionError => "ConnectionError" | ReadTimeout => "ReadTimeout"
  | JSONDecodeError => "JSONDecodeError" | ValueError => "ValueError"
  | TypeError => "TypeError" | KeyError => "KeyError"
  | AttributeError => "AttributeError" | InvalidIndexError => "InvalidIndexError"
  | OtherException => "Exception"
  end.

(** [str(e)] and [repr(e)] of an exception built from one string. *)
Definition str_exn (e : exn) : string :=
  match exn_cls e with
  | KeyError => "'" ++ exn_arg e ++ "'"
  | _ => exn_arg e
  end.

Definition repr_exn (e : exn) : string :=
  class_name (exn_cls e) ++ "('" ++ exn_arg e ++ "')".

Inductive result (A : Type) :=
| Ok (a : A)
| Raise (e : exn).
Arguments Ok {A} a.
Arguments Raise {A} e.

(** ** Python values: what [json] decoding yields, and the cells of a frame *)

Inductive scalar :=
| SNone
| SBool (b : bool)
| SInt (z : Z)
| SFloat (m e : Z)          (* m * 10^e *)
| SNaN
| SStr (s : string).

Inductive json :=
| JAtom (a : scalar)
| JArr (l : list json)
| JObj (kv : list (string * json)).

Definition NaN : json := JAtom SNaN.
Definition JStr (s : string) : json := JAtom (SStr s).

(** [bool(x)]. *)
Definition truthy (j : json) : bool :=
  match j with
  | JAtom SNone => false
  | JAtom (SBool b) => b
  | JAtom (SInt z) => negb (z =? 0)%Z
  | JAtom (SFloat m _) => negb (m =? 0)%Z
  | JAtom SNaN => true
  | JAtom (SStr s) => negb (s =? EmptyString)
  | JArr l => negb (Nat.eqb (List.length l) 0)
  | JObj kv => negb (Nat.eqb (List.length kv) 0)
  end.

Definition is_atom (j : json) : bool :=
  match j with JAtom _ => true | _ => false end.

Definition is_dict (j : json) : bool :=
  match j with JObj _ => true | _ => false end.

(** A decoded value that pandas stores as it is, whatever else its column
    holds: a string or a float.  An int, a bool or [None] may be converted
    when the column is given its dtype (an int next to a float or to a
    missing entry becomes a float, [None] in a numeric column becomes
    NaN). *)
Definition kept_as_decoded (j : json) : bool :=
  match j with
  | JAtom (SStr _) | JAtom (SFloat _ _) | JAtom SNaN => true
  | _ => false
  end.

(** Lookup in a [dict] with string keys. *)
Fixpoint dict_lookup (kv : list (string * json)) (k : string) : option json :=
  match kv with
  | [] => None
  | (k', v) :: t => if k =? k' then Some v else dict_lookup t k
  end.

(** [d.get(k)]: [None] when the key is absent. *)
Definition dict_get (kv : list (string * json)) (k : string) : json :=
  match dict_lookup kv k with Some v => v | None => JAtom SNone end.

(** ** pandas.DataFrame

    A frame is its index (name and one label per row) and its column
    labels, with one list of cells per row. *)

Record DataFrame := mkDF {
  index_name : option string;
  columns : list string;
  rows : list (json * list json)
}.

(** [pd.DataFrame()]. *)
Definition DataFrame_new : DataFrame := mkDF None [] [].

(** [len(df)]. *)
Definition len (df : DataFrame) : nat := List.length (rows df).

(** [df.empty]: some axis has length 0. *)
Definition empty (df : DataFrame) : bool :=
  Nat.eqb (len df) 0 || Nat.eqb (List.length (columns df)) 0.

Definition range_index (n : nat) : list json :=
  map (fun i => JAtom (SInt (Z.of_nat i))) (seq 0 n).

Definition with_range_index (cells : list (list json)) : list (json * list json) :=
  combine (range_index (List.length cells)) cells.

Fixpoint position (key : string) (cols : list string) : option nat :=
  match cols with
  | [] => None
  | c :: t =>
      if key =? c then Some 0
      else match position key t with Some i => Some (S i) | None => None end
  end.

(** One row after [df[key] = v] when [key] is already a column: every cell
    under that label is overwritten. *)
Fixpoint set_where (key : string) (v : json) (cols : list string) (cells : list json)
  : list json :=
  match cols, cells with
  | c :: cols', x :: cells' =>
      (if key =? c then v else x) :: set_where key v cols' cells'
  | _, _ => cells
  end.

(** [df[key] = v] for a scalar [v]: broadcast to every row; a new label is
    appended as the last column. *)
Definition setitem (df : DataFrame) (key : string) (v : scalar) : DataFrame :=
  if mem key (columns df)
  then mkDF (index_name df) (columns df)
            (map (fun r => (fst r, set_where key (JAtom v) (columns df) (snd r))) (rows df))
  else mkDF (index_name df) (columns df ++ [key])%list
            (map (fun r => (fst r, (snd r ++ [JAtom v])%list)) (rows df)).

(** Labels in order of first appearance. *)
Fixpoint dedup (seen : list string) (l : list string) : list string :=
  match l with
  | [] => []
  | x :: t => if mem x seen then dedup seen t else x :: dedup (x :: seen) t
  end.

Definition union_columns (frames : list DataFrame) : list string :=
  dedup [] (List.concat (map columns frames)).

Definition has_duplicates (l : list string) : bool :=
  negb (Nat.eqb (List.length (dedup [] l)) (List.length l)).

Fixpoint list_eqb (a b : list string) : bool :=
  match a, b with
  | [], [] => true
  | x :: a', y :: b' => (x =? y) && list_eqb a' b'
  | _, _ => false
  end.

(** The cells of a row laid out under the labels [dst]; a label the row's
    frame does not have is filled with NaN. *)
Definition relayout (src dst : list string) (cells : list json) : list json :=
  map (fun c => match position c src with
                | Some i => nth i cells NaN
                | None => NaN
                end) dst.

Definition option_string_eqb (a b : option string) : bool :=
  match a, b with
  | None, None => true
  | Some x, Some y => x =? y
  | _, _ => false
  end.

(** The name of the concatenated index: kept when all frames agree. *)
Definition common_index_name (first : DataFrame) (frames : list DataFrame) : option string :=
  if forallb (fun df => option_string_eqb (index_name df) (index_name first)) frames
  then index_name first else None.

(** [pd.concat(frames, ignore_index=...)] along the rows, outer join on the
    columns, [sort=False].  Frames that all carry the same labels are
    stacked as they are; otherwise the rows are laid out under the union of
    the labels, which pandas refuses when a frame repeats a label.

    This is the layout of the result: its labels, its index and, for each
    cell, the cell of a frame it is taken from.  Where pandas brings a
    column to one dtype across the frames (ints next to floats or to
    missing entries are written as floats), the cell here is the value
    before that conversion; strings and floats are not converted. *)
Definition concat (frames : list DataFrame) (ignore_index : bool) : result DataFrame :=
  match frames with
  | [] => Raise (mkExn ValueError "No objects to concatenate")
  | first :: _ =>
      let finish cols rs :=
        if ignore_index
        then mkDF None cols (with_range_index (map snd rs))
        else mkDF (common_index_name first frames) cols rs in
      if forallb (fun df => list_eqb (columns df) (columns first)) frames
      then Ok (finish (columns first) (flat_map rows frames))
      else if existsb (fun df => has_duplicates (columns df)) frames
      then Raise (mkExn InvalidIndexError
                    "Reindexing only valid with uniquely valued Index objects")
      else
        let cols := union_columns frames in
        Ok (finish cols
              (flat_map (fun df =>
                           map (fun r => (fst r, relayout (columns df) cols (snd r)))
                               (rows df)) frames))
  end.

(** [df.reset_index(inplace=True)]: the index becomes the first column,
    under the index's name or ["index"] (["level_0"] when ["index"] is
    taken); a label that already exists is refused. *)
Definition reset_index (df : DataFrame) : result DataFrame :=
  let name :=
    match index_name df with
    | Some n => n
    | None => if mem "index" (columns df) then "level_0" else "index"
    end in
  if mem name (columns df)
  then Raise (mkExn ValueError ("cannot insert " ++ name ++ ", already exists"))
  else Ok (mkDF None (name :: columns df)
             (with_range_index (map (fun r => fst r :: snd r) (rows df)))).

(** [pd.Series(labels).str.lower().str.replace(" ", "_", regex=True)] on one label. *)
Definition normalize_label (s : string) : string :=
  str_map (fun c => if Ascii.eqb c " "%char then "_"%char else c) (lower s).

(** [df.columns = ...] with as many labels as before. *)
Definition set_columns (df : DataFrame) (cols : list string) : DataFrame :=
  mkDF (index_name df) cols (rows df).

(** [pd.DataFrame(records)] for a list of dicts whose values pandas keeps
    as decoded ([kept_as_decoded]): the labels are the keys in order of
    first appearance, a key a record lacks gives NaN. *)
Definition record_keys (j : json) : list string :=
  match j with JObj kv => map fst kv | _ => [] end.

Definition record_values (j : json) : list json :=
  match j with JObj kv => map snd kv | _ => [] end.

Definition record_row (cols : list string) (j : json) : list json :=
  match j with
  | JObj kv => map (fun c => match dict_lookup kv c with Some v => v | None => NaN end) cols
  | _ => []
  end.

Definition DataFrame_of_records (records : list json) : DataFrame :=
  let cols := dedup [] (List.concat (map record_keys records)) in
  mkDF None cols (with_range_index (map (record_row cols) records)).

(** The body written by [df.to_csv(buffer, index=False)]: the header and
    one record per row, index dropped. *)
Record csv := mkCsv { header : list string; records : list (list json) }.

Definition to_csv (df : DataFrame) : csv := mkCsv (columns df) (map snd (rows df)).

(** [type(x).__name__], as it appears in the messages of [AttributeError]
    and [TypeError]. *)
Definition type_name (j : json) : string :=
  match j with
  | JAtom SNone => "NoneType"
  | JAtom (SBool _) => "bool"
  | JAtom (SInt _) => "int"
  | JAtom (SFloat _ _) => "float"
  | JAtom SNaN => "float"
  | JAtom (SStr _) => "str"
  | JArr _ => "list"
  | JObj _ => "dict"
  end.

(** [k in d] for a dict [d] decoded from JSON (its keys are strings). *)
Definition dict_contains (kv : list (string * json)) (k : json) : result bool :=
  match k with
  | JAtom (SStr s) => Ok (match dict_lookup kv s with Some _ => true | None => false end)
  | JAtom _ => Ok false
  | _ => Raise (mkExn TypeError ("unhashable type: '" ++ type_name k ++ "'"))
  end.

(** [d[k]] for a dict [d] decoded from JSON. *)
Definition dict_getitem (kv : list (string * json)) (k : json) : result json :=
  match k with
  | JAtom (SStr s) =>
      match dict_lookup kv s with
      | Some v => Ok v
      | None => Raise (mkExn KeyError s)
      end
  | JAtom _ => Raise (mkExn KeyError (type_name k))
  | _ => Raise (mkExn TypeError ("unhashable type: '" ++ type_name k ++ "'"))
  end.

(** [s in x] for a string [s]. *)
Definition str_in (s : string) (x : json) : result bool :=
  match x with
  | JObj kv => Ok (match dict_lookup kv s with Some _ => true | None => false end)
  | JArr l => Ok (existsb (fun y => match y with JAtom (SStr t) => s =? t | _ => false end) l)
  | JAtom (SStr t) => Ok (contains t s)
  | JAtom _ =>
      Raise (mkExn TypeError ("argument of type '" ++ type_name x ++ "' is not iterable"))
  end.

(** [x[s]] for a string [s]. *)
Definition getitem_str (x : json) (s : string) : result json :=
  match x with
  | JObj kv =>
      match dict_lookup kv s with
      | Some v => Ok v
      | None => Raise (mkExn KeyError s)
      end
  | JArr _ => Raise (mkExn TypeError "list indices must be integers or slices, not str")
  | JAtom (SStr _) => Raise (mkExn TypeError "string indices must be integers, not 'str'")
  | JAtom _ =>
      Raise (mkExn TypeError ("'" ++ type_name x ++ "' object is not subscriptable"))
  end.

(** ** Calendar: [datetime.today()] and [strftime] *)

Record datetime := mkDate { year : Z; month : Z; day : Z }.

(** The civil date of a day number counted from 1970-01-01. *)
Definition civil_from_days (days : Z) : datetime :=
  let z := (days + 719468)%Z in
  let era := (z / 146097)%Z in
  let doe := (z - era * 146097)%Z in
  let yoe := ((doe - doe / 1460 + doe / 36524 - doe / 146096) / 365)%Z in
  let doy := (doe - (365 * yoe + yoe / 4 - yoe / 100))%Z in
  let mp := ((5 * doy + 2) / 153)%Z in
  let d := (doy - (153 * mp + 2) / 5 + 1)%Z in
  let m := (if mp <? 10 then mp + 3 else mp - 9)%Z in
  let y := (yoe + era * 400 + (if m <=? 2 then 1 else 0))%Z in
  mkDate y m d.

(** [datetime.fromtimestamp(t)] with the zone taken as its offset east of
    UTC, in seconds; only the date fields are kept. *)
Definition fromtimestamp (t utc_offset : Z) : datetime :=
  civil_from_days ((t + utc_offset) / 86400).

Definition utcfromtimestamp (t : Z) : datetime := fromtimestamp t 0.

(** [strftime('%Y')], [strftime('%m')], [strftime('%d')]. *)
Definition strftime_Y (d : datetime) : string :=
  digit (year d / 1000) ++ digit (year d / 100) ++ digit (year d / 10) ++ digit (year d).
Definition strftime_m (d : datetime) : string := digit (month d / 10) ++ digit (month d).
Definition strftime_d (d : datetime) : string := digit (day d / 10) ++ digit (day d).

(** ** Observable events *)

Inductive level := INFO | WARNING | ERROR.

Inductive event :=
| ELog (lvl : level) (msg : string)
| ERequestsGet (url : string) (timeout : option Z)
| EYfTicker (symbol : string)
| EYfHistory (symbol start end_ : string) (timeout : option Z)
| EYfInfo (symbol : string)
| EInvoke_s3_upload (data_frame : DataFrame)
| EBoto3Client (service : string)
| EUploadFileobj (body : csv) (bucket key content_type : string).

(** ** What the surroundings answer *)

Inductive http_reply :=
| GetRaises (e : exn)
| Response (status_code : Z) (json_body : result json).

Record World := mkWorld {
  (* os.environ, json.loads *)
  environ : string -> option string;
  json_loads : string -> result json;
  (* requests.get: the reply to the n-th request of the invocation *)
  requests_get : nat -> string -> http_reply;
  (* time.time() at the n-th reading of the clock, and the local zone *)
  time_time : nat -> Z;
  utc_offset : Z;
  (* boto3.client("s3") and s3.upload_fileobj *)
  boto3_client : option exn;
  upload_fileobj : string -> string -> csv -> option exn;
  (* nifty50_stock_names.json: open, json.load and ["stock_names"] *)
  stock_names_file : result (list string);
  (* module-level start_date and end_date of the stock job *)
  start_date : string;
  end_date : string;
  (* yfinance, per submitted task: Ticker(), .history(), the n-th read of .info *)
  yf_Ticker : nat -> string -> option exn;
  yf_history : nat -> string -> string -> string -> result DataFrame;
  yf_info : nat -> string -> nat -> result json;
  (* concurrent.futures.as_completed: the order in which the tasks finish *)
  as_completed : list (nat * string) -> list (nat * string);
  (* library behaviour left open: f-string formatting of a non-string,
     DataFrame(...) on other shapes of argument and on values whose stored
     form depends on the dtype of their column, df[key] = value on other
     shapes of argument *)
  format_value : json -> string;
  DataFrame_other : json -> result DataFrame;
  setitem_other : DataFrame -> string -> json -> result DataFrame
}.

(** ** The effect monad: a trace of events, two counters, exceptions *)

Record state := mkState {
  trace : list event;
  requests_made : nat;
  clock_reads : nat
}.

Definition initial : state := mkState [] 0 0.

Definition M (A : Type) : Type := state -> result A * state.

Definition ret {A} (a : A) : M A := fun s => (Ok a, s).

Definition raise {A} (e : exn) : M A := fun s => (Raise e, s).

Definition bind {A B} (m : M A) (k : A -> M B) : M B :=
  fun s =>
    match m s with
    | (Ok a, s') => k a s'
    | (Raise e, s') => (Raise e, s')
    end.

Notation "x <- c1 ;; c2" := (bind c1 (fun x => c2))
  (at level 61, c1 at next level, right associativity).
Notation "c1 ;; c2" := (bind c1 (fun _ => c2))
  (at level 61, right associativity).

(** [try: m  except Exception as e: h e]. *)
Definition try_except {A} (m : M A) (h : exn -> M A) : M A :=
  fun s =>
    match m s with
    | (Ok a, s') => (Ok a, s')
    | (Raise e, s') => h e s'
    end.

Definition lift {A} (r : result A) : M A :=
  match r with Ok a => ret a | Raise e => raise e end.

Definition emit (e : event) : M unit :=
  fun s => (Ok tt, mkState (trace s ++ [e]) (requests_made s) (clock_reads s)).

(** [logger.info], [logger.warning], [logger.error]. *)
Definition log (lvl : level) (msg : string) : M unit := emit (ELog lvl msg).

(** [os.environ[k]]. *)
Definition environ_get (W : World) (k : string) : M string :=
  match environ W k with
  | Some v => ret v
  | None => raise (mkExn KeyError k)
  end.

(** [requests.get(url, timeout=t)]. *)
Definition get (W : World) (url : string) (t : Z) : M http_reply :=
  fun s =>
    match requests_get W (requests_made s) url with
    | GetRaises e =>
        (Raise e, mkState (trace s ++ [ERequestsGet url (Some t)])
                          (S (requests_made s)) (clock_reads s))
    | r =>
        (Ok r, mkState (trace s ++ [ERequestsGet url (Some t)])
                       (S (requests_made s)) (clock_reads s))
    end.

(** [response.raise_for_status()]. *)
Definition raise_for_status (r : http_reply) : M unit :=
  match r with
  | Response code _ =>
      if ((400 <=? code) && (code <? 600))%Z
      then raise (mkExn HTTPError "Client or Server Error")
      else ret tt
  | GetRaises e => raise e
  end.

(** [response.json()]. *)
Definition response_json (r : http_reply) : M json :=
  match r with
  | Response _ body => lift body
  | GetRaises e => raise e
  end.

(** [datetime.today()]: one reading of the clock, in local time. *)
Definition today (W : World) : M datetime :=
  fun s =>
    (Ok (fromtimestamp (time_time W (clock_reads s)) (utc_offset W)),
     mkState (trace s) (requests_made s) (S (clock_reads s))).

(** The key f-string of the three [s3_upload] bodies, with its literal
    first and last segments as parameters:
    [f"<prefix>/year={datetime.today().strftime('%Y')}/month={datetime.today().strftime('%m')}/day={datetime.today().strftime('%d')}/<filename>"]. *)
Definition partition_key (W : World) (prefix filename : string) : M string :=
  y <- today W ;;
  m <- today W ;;
  d <- today W ;;
  ret (prefix ++ "/year=" ++ strftime_Y y ++ "/month=" ++ strftime_m m
              ++ "/day=" ++ strftime_d d ++ "/" ++ filename).

(** [boto3.client(service)]. *)
Definition client (W : World) (service : string) : M unit :=
  emit (EBoto3Client service) ;;
  match boto3_client W with
  | Some e => raise e
  | None => ret tt
  end.

(** [s3.upload_fileobj(body, bucket, key, ExtraArgs={'ContentType': ct})]. *)
Definition s3_upload_fileobj (W : World) (body : csv) (bucket key ct : string) : M unit :=
  emit (EUploadFileobj body bucket key ct) ;;
  match upload_fileobj W bucket key body with
  | Some e => raise e
  | None => ret tt
  end.

(** What a handler hands back to the Lambda runtime. *)
Inductive retval :=
| RetNone
| RetDict (kv : list (string * string)).

End Py.

(** * fed_interets.py *)

Module FedInterets.
Import Py.

(** [s3_upload(data_frame)]. *)
Definition s3_upload (W : World) (data_frame : DataFrame) : M unit :=
  emit (EInvoke_s3_upload data_frame) ;;
  try_except
    (if empty data_frame
     then log WARNING "No data to upload. DataFrame is empty."
     else
       log INFO "Uploading data to S3" ;;
       let bucket_name := "nifty50-raw-layer" in
       client W "s3" ;;
       let csv_buffer := to_csv data_frame in
       s3_key <- partition_key W "us_fed_rates" "us_fed_rates.csv" ;;
       s3_upload_fileobj W csv_buffer bucket_name s3_key "text/csv" ;;
       log INFO ("Uploaded us_fed_rates.csv to S3 at " ++ s3_key))
    (fun e =>
       log ERROR ("Error uploading to S3: " ++ str_exn e) ;;
       raise e).

(** [pd.DataFrame(observations)].  The frame is spelled out for a list of
    dicts of strings and floats, which is what the provider sends; with
    other values the dtype pandas gives a column decides what is stored,
    and the frame is left to the world. *)
Definition DataFrame_of (W : World) (observations : json) : result DataFrame :=
  match observations with
  | JArr l =>
      if forallb is_dict l && forallb kept_as_decoded (flat_map record_values l)
      then Ok (DataFrame_of_records l)
      else DataFrame_other W observations
  | _ => DataFrame_other W observations
  end.

(** [data.get("observations", [])]. *)
Definition get_observations (data : json) : result json :=
  match data with
  | JObj kv =>
      Ok (match dict_lookup kv "observations" with Some v => v | None => JArr [] end)
  | _ =>
      Raise (mkExn AttributeError
               ("'" ++ type_name data ++ "' object has no attribute 'get'"))
  end.

(** The first [try] block of the handler, from the request on.  The two
    [os.environ] lookups before it can only raise [KeyError], which neither
    [except] clause catches, so they are sequenced in front of it. *)
Definition fetch (W : World) (api_url : string) : M json :=
  try_except
    (log INFO ("Fetching data from " ++ api_url) ;;
     response <- get W api_url 10 ;;
     raise_for_status response ;;
     response_json response)
    (fun e =>
       if is_RequestException e then
         log ERROR ("HTTP request failed for " ++ api_url ++ " with error --> " ++ repr_exn e) ;;
         raise e
       else if is_ValueError_or_TypeError e then
         log ERROR ("Invalid JSON response from " ++ api_url ++ " with error --> " ++ repr_exn e) ;;
         raise e
       else raise e).

(** [lambda_handler(event, context)]. *)
Definition lambda_handler (W : World) : M retval :=
  api_key <- environ_get W "API_KEY" ;;
  url_template <- environ_get W "URL" ;;
  let api_url := replace url_template "{API_KEY}" api_key in
  data <- fetch W api_url ;;
  try_except
    (observations <- lift (get_observations data) ;;
     if negb (truthy observations) then
       log WARNING "No observations found in API response." ;;
       ret RetNone
     else
       df <- lift (DataFrame_of W observations) ;;
       log INFO ("Fetched " ++ str_of_nat (len df) ++ " records.") ;;
       s3_upload W df ;;
       log INFO "Lambda execution completed successfully." ;;
       ret RetNone)
    (fun e =>
       log ERROR ("Error processing data in lambda_handler: " ++ str_exn e) ;;
       raise e).

End FedInterets.

(** * macroeconomics_data_fetcher.py *)

Module Macroeconomics.
Import Py.

(** [s3_upload(data_frame)]. *)
Definition s3_upload (W : World) (data_frame : DataFrame) : M unit :=
  emit (EInvoke_s3_upload data_frame) ;;
  try_except
    (log INFO "Uploading data to S3" ;;
     let bucket_name := "nifty50-raw-layer" in
     client W "s3" ;;
     let csv_buffer := to_csv data_frame in
     key <- partition_key W "macroeconimics" "macroeconomic_metrics.csv" ;;
     s3_upload_fileobj W csv_buffer bucket_name key "text/csv" ;;
     log INFO "Uploaded macroeconomic_metrics.csv to S3")
    (fun e =>
       log ERROR ("Error uploading macroeconomic_metrics.csv to S3 in s3_upload method with error --> "
                    ++ str_exn e) ;;
       raise e).

(** [f"{x}"] for a decoded JSON value. *)
Definition format (W : World) (x : json) : string :=
  match x with
  | JAtom (SStr s) => s
  | _ => format_value W x
  end.

(** [pd.DataFrame({"indicator_name": indicator_name,
                   "year": values_dict.keys(), "value": values_dict.values()})].
    The frame is spelled out when the data points are strings or floats;
    with other values (an int next to a float, a [null]) the dtype of the
    value column decides what is stored, and the frame is left to the
    world. *)
Definition indicator_frame (W : World) (indicator_name : string)
    (values_dict : list (string * json)) : result DataFrame :=
  if forallb kept_as_decoded (map snd values_dict)
  then Ok (mkDF None ["indicator_name"; "year"; "value"]
             (with_range_index
                (map (fun kv => [JStr indicator_name; JStr (fst kv); snd kv]) values_dict)))
  else DataFrame_other W
         (JObj [("indicator_name", JStr indicator_name);
                ("year", JArr (map (fun kv => JStr (fst kv)) values_dict));
                ("value", JArr (map snd values_dict))]).

(** The second inner [try] block of the loop body: from [data.get("values")]
    to the frame of one indicator.  The three single-condition checks after
    the first [raise KeyError] repeat its disjuncts and never fire. *)
Definition extract (W : World) (indicator_name : string) (indicator_id : json)
    (country_code : string) (data : json) : result DataFrame :=
  match data with
  | JObj top =>
      let malformed :=
        Raise (mkExn KeyError ("Missing or malformed data for " ++ indicator_name)) in
      match dict_get top "values" with
      | JObj values =>
          match dict_contains values indicator_id with
          | Raise e => Raise e
          | Ok false => malformed
          | Ok true =>
              match dict_getitem values indicator_id with
              | Raise e => Raise e
              | Ok by_country =>
                  match str_in country_code by_country with
                  | Raise e => Raise e
                  | Ok false => malformed
                  | Ok true =>
                      match getitem_str by_country country_code with
                      | Raise e => Raise e
                      | Ok (JObj values_dict) =>
                          indicator_frame W indicator_name values_dict
                      | Ok other =>
                          Raise (mkExn AttributeError
                                   ("'" ++ type_name other
                                        ++ "' object has no attribute 'keys'"))
                      end
                  end
              end
          end
      | _ => malformed
      end
  | _ =>
      Raise (mkExn AttributeError
               ("'" ++ type_name data ++ "' object has no attribute 'get'"))
  end.

(** One iteration of the [for] loop, up to the frame it appends. *)
Definition fetch_indicator (W : World) (base_url country_code : string)
    (indicator_name : string) (indicator_id : json) : M DataFrame :=
  let api_url := base_url ++ format W indicator_id ++ "/" ++ country_code in
  log INFO ("Fetching data for " ++ indicator_name ++ " from " ++ api_url) ;;
  data <- try_except
            (response <- get W api_url 10 ;;
             raise_for_status response ;;
             response_json response)
            (fun e =>
               if is_RequestException e then
                 log ERROR ("HTTP request failed for " ++ indicator_name ++ " ("
                              ++ format W indicator_id ++ ") --> " ++ repr_exn e) ;;
                 raise e
               else if is_ValueError_or_TypeError e then
                 log ERROR ("Invalid JSON response for " ++ indicator_name ++ " ("
                              ++ format W indicator_id ++ ") --> " ++ repr_exn e) ;;
                 raise e
               else raise e) ;;
  try_except
    (lift (extract W indicator_name indicator_id country_code data))
    (fun e =>
       log ERROR ("Error extracting data for " ++ indicator_name ++ " --> " ++ repr_exn e) ;;
       raise e).

(** [for indicator_name, indicator_id in indicators.items(): ...], with
    [all_data] as the accumulator. *)
Fixpoint for_indicators (W : World) (base_url country_code : string)
    (items : list (string * json)) (all_data : list DataFrame) : M (list DataFrame) :=
  match items with
  | [] => ret all_data
  | (indicator_name, indicator_id) :: rest =>
      df <- fetch_indicator W base_url country_code indicator_name indicator_id ;;
      for_indicators W base_url country_code rest (all_data ++ [df])%list
  end.

(** [indicators.items()]. *)
Definition items (indicators : json) : result (list (string * json)) :=
  match indicators with
  | JObj kv => Ok kv
  | _ =>
      Raise (mkExn AttributeError
               ("'" ++ type_name indicators ++ "' object has no attribute 'items'"))
  end.

(** [lambda_handler(event, context)]. *)
Definition lambda_handler (W : World) : M retval :=
  log INFO "Lambda Execution Started" ;;
  try_except
    (country_code <- environ_get W "COUNTRY_CODE" ;;
     base_url <- environ_get W "BASE_URL" ;;
     text <- environ_get W "INDICATORS" ;;
     indicators <- lift (json_loads W text) ;;
     (if negb (truthy indicators)
      then raise (mkExn ValueError "INDICATORS is empty in environment variables")
      else ret tt) ;;
     pairs <- lift (items indicators) ;;
     all_data <- for_indicators W base_url country_code pairs [] ;;
     match all_data with
     | _ :: _ =>
         combined_df <- lift (concat all_data true) ;;
         s3_upload W combined_df ;;
         log INFO "Lambda Execution Completed" ;;
         ret RetNone
     | [] =>
         log WARNING "No data fetched for any indicator" ;;
         raise (mkExn ValueError "No data fetched for any indicator")
     end)
    (fun e =>
       log ERROR ("Lambda Execution Failed with error --> " ++ repr_exn e) ;;
       raise e).

End Macroeconomics.

(** * nifty50_history_data_fetcher.py *)

Module Nifty50.
Import Py.

(** The [metadata] dict of [fetch_stock_price] after ["stock_name"]: each
    column label with the key of [stock.info] it is read from. *)
Definition metadata_keys : list (string * string) :=
  [ ("market_cap", "marketCap");
    ("beta", "beta");
    ("pe_ratio", "trailingPE");
    ("dividend_yield", "dividendYield");
    ("roe", "returnOnEquity");
    ("roce", "returnOnCapitalEmployed");
    ("debt_to_equity", "debtToEquity");
    ("interest_coverage", "interestCoverage");
    ("pledged_percentage", "pledgeRatio");
    ("book_value", "bookValue");
    ("price_to_book", "priceToBook");
    ("price_to_earnings", "trailingPE");
    ("forward_pe", "forwardPE");
    ("enterprise_value", "enterpriseValue");
    ("ev_to_revenue", "enterpriseToRevenue");
    ("ev_to_ebitda", "enterpriseToEbitda") ].

(** [metadata = {"stock_name": stock_name, "market_cap": stock_info.get("marketCap"), ...}]. *)
Definition metadata (stock_name : string) (stock_info : json)
  : result (list (string * json)) :=
  match stock_info with
  | JObj info =>
      Ok (("stock_name", JStr stock_name)
            :: map (fun kk => (fst kk, dict_get info (snd kk))) metadata_keys)
  | _ =>
      Raise (mkExn AttributeError
               ("'" ++ type_name stock_info ++ "' object has no attribute 'get'"))
  end.

(** [data[key] = value]. *)
Definition assign (W : World) (data : DataFrame) (key : string) (value : json)
  : result DataFrame :=
  match value with
  | JAtom v => Ok (setitem data key v)
  | _ => setitem_other W data key value
  end.

(** [for key, value in metadata.items(): data[key] = value]. *)
Fixpoint assign_all (W : World) (data : DataFrame) (md : list (string * json))
  : result DataFrame :=
  match md with
  | [] => Ok data
  | (key, value) :: rest =>
      match assign W data key value with
      | Ok data' => assign_all W data' rest
      | Raise e => Raise e
      end
  end.

(** [stock.history(start=start_date, end=end_date)] of the task [task]. *)
Definition history (W : World) (task : nat) (symbol : string) : M DataFrame :=
  emit (EYfHistory symbol (start_date W) (end_date W) None) ;;
  lift (yf_history W task symbol (start_date W) (end_date W)).

(** The [n]-th read of the property [stock.info]. *)
Definition info (W : World) (task : nat) (symbol : string) (n : nat) : M json :=
  emit (EYfInfo symbol) ;;
  lift (yf_info W task symbol n).

(** [yf.Ticker(symbol)]. *)
Definition Ticker (W : World) (task : nat) (symbol : string) : M unit :=
  emit (EYfTicker symbol) ;;
  match yf_Ticker W task symbol with
  | Some e => raise e
  | None => ret tt
  end.

(** The [try] block of [fetch_stock_price]. *)
Definition fetch_stock_price_try (W : World) (task : nat) (stock_name : string)
  : M DataFrame :=
  log INFO ("Fetching data for " ++ stock_name ++ "...") ;;
  let symbol := upper stock_name ++ ".NS" in
  Ticker W task symbol ;;
  data <- history W task symbol ;;
  first <- info W task symbol 0 ;;
  stock_info <- (if truthy first then info W task symbol 1 else ret (JObj [])) ;;
  if negb (truthy stock_info) then
    log WARNING ("No stock info found for " ++ stock_name) ;;
    ret DataFrame_new
  else
    md <- lift (metadata stock_name stock_info) ;;
    if negb (empty data)
    then lift (assign_all W data md)
    else ret data.

(** [fetch_stock_price(stock_name)], run as the task number [task] of the
    pool. *)
Definition fetch_stock_price (W : World) (task : nat) (stock_name : string) : M DataFrame :=
  try_except
    (fetch_stock_price_try W task stock_name)
    (fun e =>
       log ERROR ("Error fetching " ++ stock_name ++ ": " ++ str_exn e) ;;
       ret DataFrame_new).

(** [s3_upload(data_frame)]. *)
Definition s3_upload (W : World) (data_frame : DataFrame) : M unit :=
  emit (EInvoke_s3_upload data_frame) ;;
  try_except
    (log INFO "Uploading data to S3" ;;
     let bucket_name := "nifty50-raw-layer" in
     client W "s3" ;;
     let csv_buffer := to_csv data_frame in
     key <- partition_key W "stocks_data/history" "nifty50_stock_history_data.csv" ;;
     s3_upload_fileobj W csv_buffer bucket_name key "text/csv" ;;
     log INFO "Uploaded nifty50_stock_history_data.csv to S3")
    (fun e =>
       log ERROR ("Error uploading to S3 in s3_upload method with error --> " ++ str_exn e) ;;
       raise e).

(** [for future in as_completed(futures): ...]: the tasks in the order in
    which they finish, each with the events of its run; [main_df_list] is
    the accumulator. *)
Fixpoint collect (W : World) (completed : list (nat * string))
    (main_df_list : list DataFrame) : M (list DataFrame) :=
  match completed with
  | [] => ret main_df_list
  | (task, stock) :: rest =>
      result <- fetch_stock_price W task stock ;;
      if negb (empty result)
      then collect W rest (main_df_list ++ [result])%list
      else collect W rest main_df_list
  end.

(** The futures dict: one task per submitted symbol, numbered in
    submission order. *)
Definition submit_all (symbols : list string) : list (nat * string) :=
  combine (seq 0 (List.length symbols)) symbols.

(** [lambda_handler(event, context)]. *)
Definition lambda_handler (W : World) : M retval :=
  try_except
    (log INFO "Lambda execution  started" ;;
     nifty_50_symbols <- lift (stock_names_file W) ;;
     let futures := submit_all nifty_50_symbols in
     main_df_list <- collect W (as_completed W futures) [] ;;
     match main_df_list with
     | _ :: _ =>
         main_df <- lift (concat main_df_list false) ;;
         main_df <- lift (reset_index main_df) ;;
         let main_df := set_columns main_df (map normalize_label (columns main_df)) in
         s3_upload W main_df ;;
         ret RetNone
     | [] => ret (RetDict [("message", "No data retrieved")])
     end)
    (fun e =>
       log ERROR ("Error in lambda_handler method with error --> " ++ str_exn e) ;;
       raise e).

End Nifty50.

(** * The three jobs side by side: batches, units and what is observed *)

Module Batch.
Import Py.

Inductive job := InterestRates | MacroIndicators | StockHistory.

Definition handler (j : job) : World -> M retval :=
  match j with
  | InterestRates => FedInterets.lambda_handler
  | MacroIndicators => Macroeconomics.lambda_handler
  | StockHistory => Nifty50.lambda_handler
  end.

(** One invocation, from a fresh state. *)
Definition outcome {A} (m : M A) : result A := fst (m initial).
Definition events {A} (m : M A) : list event := trace (snd (m initial)).

Definition is_ok {A} (r : result A) : bool :=
  match r with Ok _ => true | Raise _ => false end.

(** *** Observations on a trace *)

Definition is_invocation (e : event) : bool :=
  match e with EInvoke_s3_upload _ => true | _ => false end.

Definition is_storage_write (e : event) : bool :=
  match e with EUploadFileobj _ _ _ _ => true | _ => false end.

Definition publisher_invoked (t : list event) : bool := existsb is_invocation t.

Definition storage_writes (t : list event) : list event := filter is_storage_write t.

Definition warnings (t : list event) : list string :=
  flat_map (fun e => match e with ELog WARNING msg => [msg] | _ => [] end) t.

(** *** The scheduler of the pool hands back every task exactly once. *)
Definition fair_schedule (W : World) : Prop :=
  forall tasks, Permutation (as_completed W tasks) tasks.

(** *** Units and their fetch results *)

(** Interest rates: the single unit succeeds when the request and the
    decoding go through and there are observations. *)
Definition fed_observations (W : World) : option json :=
  match environ W "API_KEY", environ W "URL" with
  | Some api_key, Some url_template =>
      match outcome (FedInterets.fetch W (replace url_template "{API_KEY}" api_key)) with
      | Ok data =>
          match FedInterets.get_observations data with
          | Ok observations => if truthy observations then Some observations else None
          | Raise _ => None
          end
      | Raise _ => None
      end
  | _, _ => None
  end.

(** Macro indicators: the configuration the handler reads, and the result
    of the [k]-th indicator when it is fetched with the [k]-th request. *)
Definition macro_config (W : World) : option (string * string * list (string * json)) :=
  match environ W "COUNTRY_CODE", environ W "BASE_URL", environ W "INDICATORS" with
  | Some country_code, Some base_url, Some text =>
      match json_loads W text with
      | Ok (JObj pairs) => Some (country_code, base_url, pairs)
      | _ => None
      end
  | _, _, _ => None
  end.

Definition unit_result (W : World) (base_url country_code : string) (k : nat)
    (item : string * json) : result DataFrame :=
  fst (Macroeconomics.fetch_indicator W base_url country_code (fst item) (snd item)
         (mkState [] k 0)).

Definition macro_units (W : World) : list (result DataFrame) :=
  match macro_config W with
  | Some (country_code, base_url, pairs) =>
      map (fun ki => unit_result W base_url country_code (fst ki) (snd ki))
          (combine (seq 0 (List.length pairs)) pairs)
  | None => []
  end.

(** Stock history: the frame a task's [fetch_stock_price] hands back; a
    unit counts as successful when that frame is not empty, which is how
    the handler sorts them. *)
Definition fetched (W : World) (task : nat * string) : DataFrame :=
  match outcome (Nifty50.fetch_stock_price W (fst task) (snd task)) with
  | Ok df => df
  | Raise _ => DataFrame_new
  end.

(** [main_df_list]: the frames the collection loop keeps. *)
Definition nonempty_frames (frames : list DataFrame) : list DataFrame :=
  filter (fun df => negb (empty df)) frames.

Definition stock_units (W : World) : list DataFrame :=
  match stock_names_file W with
  | Ok symbols => map (fetched W) (Nifty50.submit_all symbols)
  | Raise _ => []
  end.


(** The fetch results with data, counted alike in the three jobs: the
    response with observations, the indicators whose frame is not empty,
    the stocks whose frame is not empty. *)
Definition gave_data (r : result DataFrame) : bool :=
  match r with
  | Ok df => negb (empty df)
  | Raise _ => false
  end.

Definition fetches_with_data (j : job) (W : World) : nat :=
  match j with
  | InterestRates => match fed_observations W with Some _ => 1 | None => 0 end
  | MacroIndicators => List.length (filter gave_data (macro_units W))
  | StockHistory => List.length (nonempty_frames (stock_units W))
  end.

(** The rows one unit adds to the merged frame of the stock job. *)
Definition contribution (result : DataFrame) : list (json * list json) :=
  if empty result then [] else rows result.

(** *** The partition key as the specification words it *)
Definition spec_partition_key (prefix filename : string) (date : datetime) : string :=
  prefix ++ "/year=" ++ strftime_Y date ++ "/month=" ++ strftime_m date
         ++ "/day=" ++ strftime_d date ++ "/" ++ filename.

(** *** The aggregation as the specification words it: the labels of each
    unit's frame are normalized first, the frames are merged afterwards *)
Definition spec_normalize_then_merge (frames : list DataFrame) : result DataFrame :=
  concat (map (fun df => set_columns df (map normalize_label (columns df))) frames) false.

(** *** A normalized column label: no upper-case letter, no space *)
Definition normal_char (c : ascii) : bool :=
  let n := nat_of_ascii c in
  negb ((65 <=? n) && (n <=? 90))%nat && negb (Ascii.eqb c " "%char).

Definition normalized (label : string) : bool := str_forall normal_char label.

(** *** Trace invariants

    [emits P m]: whatever the state, running [m] only appends events, and
    every event it appends satisfies [P]. *)
Definition emits (P : event -> Prop) {A} (m : M A) : Prop :=
  forall s, exists evs, trace (snd (m s)) = (trace s ++ evs)%list /\ Forall P evs.

(** An event that is neither an invocation of [s3_upload] nor a write. *)
Definition fetch_only (e : event) : Prop :=
  is_invocation e = false /\ is_storage_write e = false.

(** An event of a publisher that was entered with [df]: no further
    invocation, and whatever is written is the body made from [df]. *)
Definition written_from (df : DataFrame) (e : event) : Prop :=
  match e with
  | EInvoke_s3_upload _ => False
  | EUploadFileobj body _ _ _ => body = to_csv df
  | _ => True
  end.

(** The time-out each call site passes: 10 for [requests.get], none for
    [Ticker.history]. *)
Definition timeout_as_written (e : event) : Prop :=
  match e with
  | ERequestsGet _ t => t = Some 10%Z
  | EYfHistory _ _ _ t => t = None
  | _ => True
  end.

End Batch.

(** * Concrete worlds, used to run the jobs on explicit inputs *)

Module Examples.
Import Py Batch.

Definition env_of (kv : list (string * string)) : string -> option string :=
  fun k =>
    match find (fun p => fst p =? k) kv with
    | Some p => Some (snd p)
    | None => None
    end.

Definition unreachable : exn := mkExn ConnectionError "Max retries exceeded".
Definition timed_out : exn := mkExn ReadTimeout "Read timed out. (read timeout=10)".

(** A world given by the answers that vary from one example to the next;
    the object store accepts every write. *)
Definition world
    (env : string -> option string)
    (loads : string -> result json)
    (http : nat -> string -> http_reply)
    (clock : nat -> Z) (offset : Z)
    (names : result (list string))
    (hist : nat -> string -> string -> string -> result DataFrame)
    (info : nat -> string -> nat -> result json)
    (schedule : list (nat * string) -> list (nat * string)) : World :=
  {| environ := env;
     json_loads := loads;
     requests_get := http;
     time_time := clock;
     utc_offset := offset;
     boto3_client := None;
     upload_fileobj := fun _ _ _ => None;
     stock_names_file := names;
     start_date := "2015-01-03";
     end_date := "2025-01-01";
     yf_Ticker := fun _ _ => None;
     yf_history := hist;
     yf_info := info;
     as_completed := schedule;
     format_value := fun _ => "None";
     DataFrame_other :=
       fun _ => Raise (mkExn ValueError "DataFrame constructor not properly called!");
     setitem_other :=
       fun _ _ _ => Raise (mkExn ValueError "Length of values does not match length of index")
  |}.

Definition no_loads : string -> result json :=
  fun _ => Raise (mkExn JSONDecodeError "Expecting value").
Definition no_http : nat -> string -> http_reply := fun _ _ => GetRaises unreachable.
Definition no_names : result (list string) := Raise (mkExn OtherException "No such file").
Definition no_history : nat -> string -> string -> string -> result DataFrame :=
  fun _ _ _ _ => Raise unreachable.
Definition no_info : nat -> string -> nat -> result json := fun _ _ _ => Raise unreachable.
Definition in_order : list (nat * string) -> list (nat * string) := fun l => l.

(** 2024-12-31 20:00:00 UTC, and Indian Standard Time (UTC+05:30). *)
Definition new_years_eve : Z := 1735675200.
Definition ist : Z := 19800.

(** **** Interest rates *)

Definition fed_env : string -> option string :=
  env_of [("API_KEY", "k3y");
          ("URL", "https://api.stlouisfed.org/fred/series/observations?series_id=FEDFUNDS&api_key={API_KEY}&file_type=json")].

Definition fed_world (observations : json) : World :=
  world fed_env no_loads
        (fun _ _ => Response 200 (Ok (JObj [("observations", observations)])))
        (fun _ => new_years_eve) 0 no_names no_history no_info in_order.

(** No observation at all. *)
Definition fed_no_observations : World := fed_world (JArr []).

(** One observation whose keys carry capitals and a space. *)
Definition fed_spaced_keys : World :=
  fed_world (JArr [JObj [("Realtime Start", JStr "2024-12-01"); ("Value", JStr "4.48")]]).

(** **** Macro indicators *)

Definition quoted (s : string) : string :=
  String (ascii_of_nat 34) s ++ String (ascii_of_nat 34) EmptyString.

Definition macro_env (text : string) : string -> option string :=
  env_of [("COUNTRY_CODE", "IN");
          ("BASE_URL", "https://www.imf.org/external/datamapper/api/v1/");
          ("INDICATORS", text)].

(** [INDICATORS] holds [text], which decodes to [indicators]. *)
Definition macro_world (text : string) (indicators : json)
    (http : nat -> string -> http_reply) : World :=
  world (macro_env text)
        (fun t => if t =? text then Ok indicators
                  else Raise (mkExn JSONDecodeError "Expecting value"))
        http (fun _ => new_years_eve) 0 no_names no_history no_info in_order.

Definition gdp_reply (values_dict : list (string * json)) : http_reply :=
  Response 200 (Ok (JObj [("values", JObj [("NGDPD", JObj [("IN", JObj values_dict)])])])).

Definition gdp_values : list (string * json) :=
  [("2022", JAtom (SFloat 3353 0)); ("2023", JAtom (SFloat 3568 0))].

(** Two indicators: the first is answered, the second request times out. *)
Definition macro_second_fails : World :=
  macro_world
    ("{" ++ quoted "gdp" ++ ": " ++ quoted "NGDPD" ++ ", "
         ++ quoted "cpi" ++ ": " ++ quoted "PCPIPCH" ++ "}")
    (JObj [("gdp", JStr "NGDPD"); ("cpi", JStr "PCPIPCH")])
    (fun n _ => match n with O => gdp_reply gdp_values | _ => GetRaises timed_out end).

(** An empty mapping of indicators. *)
Definition macro_no_indicators : World := macro_world "{}" (JObj []) no_http.

(** One indicator, answered with no data point for the country. *)
Definition macro_empty_values : World :=
  macro_world ("{" ++ quoted "gdp" ++ ": " ++ quoted "NGDPD" ++ "}")
              (JObj [("gdp", JStr "NGDPD")])
              (fun _ _ => gdp_reply []).

(** **** Stock history *)

Definition two_days : DataFrame :=
  mkDF (Some "Date") ["Open"; "Close"; "Stock Splits"]
       [ (JStr "2024-12-30", [JAtom (SFloat 41025 (-1)); JAtom (SFloat 41170 (-1)); JAtom (SFloat 0 0)]);
         (JStr "2024-12-31", [JAtom (SFloat 41170 (-1)); JAtom (SFloat 40950 (-1)); JAtom (SFloat 0 0)]) ].

Definition some_info : json :=
  JObj [("marketCap", JAtom (SInt 14800000000000)); ("beta", JAtom (SFloat 52 (-2)));
        ("trailingPE", JAtom (SFloat 3012 (-2)))].

(** Symbols A and B: the history of A cannot be fetched, B has two rows. *)
Definition stock_a_fails_b_two_rows : World :=
  world (fun _ => None) no_loads no_http (fun _ => new_years_eve) 0
        (Ok ["A"; "B"])
        (fun task _ _ _ => match task with O => Raise unreachable | _ => Ok two_days end)
        (fun _ _ _ => Ok some_info)
        (fun l => rev l).

(** One symbol, and nothing can be fetched. *)
Definition stock_all_fail : World :=
  world (fun _ => None) no_loads no_http (fun _ => new_years_eve) 0
        (Ok ["TCS"]) no_history no_info in_order.

(** The frames of that batch after [pd.concat] and after [reset_index]. *)
Definition a_b_merged : DataFrame :=
  Eval vm_compute in
    match concat (nonempty_frames
                    (map (fetched stock_a_fails_b_two_rows)
                         (as_completed stock_a_fails_b_two_rows
                            (Nifty50.submit_all ["A"; "B"])))) false with
    | Ok merged => merged
    | Raise _ => DataFrame_new
    end.

Definition a_b_reset : DataFrame :=
  Eval vm_compute in
    match reset_index a_b_merged with
    | Ok reset => reset
    | Raise _ => DataFrame_new
    end.

(** Symbols A and B whose histories spell the same column differently. *)
Definition one_day (label : string) : DataFrame :=
  mkDF (Some "Date") [label] [ (JStr "2024-12-31", [JAtom (SFloat 40950 (-1))]) ].

Definition stock_mixed_case : World :=
  world (fun _ => None) no_loads no_http (fun _ => new_years_eve) 0
        (Ok ["A"; "B"])
        (fun task _ _ _ => match task with O => Ok (one_day "Close") | _ => Ok (one_day "close") end)
        (fun _ _ _ => Ok some_info)
        in_order.

(** **** Clocks *)

(** A process in Indian Standard Time on new year's eve, 20:00 UTC. *)
Definition ist_clock : World :=
  world (fun _ => None) no_loads no_http (fun _ => new_years_eve) ist
        no_names no_history no_info in_order.

End Examples.
(** * More to observe on a run: calls, keys, cells *)

Module Observed.
Import Py Batch.

(** The events a computation appends when it is run from [s]. *)
Definition new_events {A} (m : M A) (s : state) : list event :=
  skipn (List.length (trace s)) (trace (snd (m s))).

(** The state after some more events. *)
Definition after (s : state) (evs : list event) : state :=
  mkState (trace s ++ evs) (requests_made s) (clock_reads s).

(** The URLs requested, in order. *)
Definition requested_urls (t : list event) : list string :=
  flat_map (fun e => match e with ERequestsGet url _ => [url] | _ => [] end) t.

(** The calls to the data providers, as opposed to logging and publishing. *)
Definition is_fetch_call (e : event) : bool :=
  match e with
  | ERequestsGet _ _ | EYfTicker _ | EYfHistory _ _ _ _ | EYfInfo _ => true
  | _ => false
  end.

Definition fetch_calls (t : list event) : list event := filter is_fetch_call t.

Definition error_logs (t : list event) : list string :=
  flat_map (fun e => match e with ELog ERROR msg => [msg] | _ => [] end) t.

(** The events of the publisher: its invocation, the client, the write. *)
Definition is_publishing (e : event) : bool :=
  match e with
  | EInvoke_s3_upload _ | EBoto3Client _ | EUploadFileobj _ _ _ _ => true
  | _ => false
  end.

Definition publishing (t : list event) : list event := filter is_publishing t.

(** The local calendar date at the [n]-th reading of the clock. *)
Definition local_date (W : World) (n : nat) : datetime :=
  fromtimestamp (time_time W n) (utc_offset W).

(** The key built from three consecutive readings of the clock, the first
    of which is the [n]-th. *)
Definition key_at (W : World) (prefix filename : string) (n : nat) : string :=
  prefix ++ "/year=" ++ strftime_Y (local_date W n)
         ++ "/month=" ++ strftime_m (local_date W (S n))
         ++ "/day=" ++ strftime_d (local_date W (S (S n))) ++ "/" ++ filename.

(** The literal first and last segments of each job's key. *)
Definition job_prefix (j : job) : string :=
  match j with
  | InterestRates => "us_fed_rates"
  | MacroIndicators => "macroeconimics"
  | StockHistory => "stocks_data/history"
  end.

Definition job_filename (j : job) : string :=
  match j with
  | InterestRates => "us_fed_rates.csv"
  | MacroIndicators => "macroeconomic_metrics.csv"
  | StockHistory => "nifty50_stock_history_data.csv"
  end.

(** The write a job performs for [df] when its key is built from the
    [n]-th reading on. *)
Definition job_write (j : job) (W : World) (df : DataFrame) (n : nat) : event :=
  EUploadFileobj (to_csv df) "nifty50-raw-layer"
                 (key_at W (job_prefix j) (job_filename j) n) "text/csv".

(** What the three [s3_upload] bodies share after their first line: the
    [try] block from [logger.info("Uploading data to S3")] on, and the
    [except] clause. *)
Definition upload_block (W : World) (df : DataFrame) (prefix filename : string)
    (uploaded : string -> string) (failed : exn -> string) : M unit :=
  try_except
    (log INFO "Uploading data to S3" ;;
     client W "s3" ;;
     key <- partition_key W prefix filename ;;
     s3_upload_fileobj W (to_csv df) "nifty50-raw-layer" key "text/csv" ;;
     log INFO (uploaded key))
    (fun e => log ERROR (failed e) ;; raise e).

(** The [s3_upload] of each job. *)
Definition publisher (j : job) : World -> DataFrame -> M unit :=
  match j with
  | InterestRates => FedInterets.s3_upload
  | MacroIndicators => Macroeconomics.s3_upload
  | StockHistory => Nifty50.s3_upload
  end.

(** What can follow the entry of a publisher with [df], when its key is
    built from the [n]-th reading of the clock on: the events [post] and the
    result [r].  Either the frame is empty and the job is the one with the
    guard; or the client cannot be created; or the write is made, and the
    result is what the store answers. *)
Definition publisher_outcome (j : job) (W : World) (df : DataFrame) (n : nat)
    (post : list event) (r : result unit) : Prop :=
  fetch_calls post = [] /\
  ((j = InterestRates /\ empty df = true /\ publishing post = [] /\ r = Ok tt /\
    warnings post = ["No data to upload. DataFrame is empty."])
   \/
   (exists e, boto3_client W = Some e /\ publishing post = [EBoto3Client "s3"] /\
              r = Raise e /\ warnings post = [])
   \/
   (boto3_client W = None /\
    publishing post = [EBoto3Client "s3"; job_write j W df n] /\
    warnings post = [] /\
    r = match upload_fileobj W "nifty50-raw-layer"
                (key_at W (job_prefix j) (job_filename j) n) (to_csv df) with
        | Some e => Raise e
        | None => Ok tt
        end /\
    (j = InterestRates -> empty df = false))).

(** The last line the macro and the stock handler log before they re-raise. *)
Definition macro_failed (e : exn) : event :=
  ELog ERROR ("Lambda Execution Failed with error --> " ++ repr_exn e).

Definition stock_failed (e : exn) : event :=
  ELog ERROR ("Error in lambda_handler method with error --> " ++ str_exn e).

(** A frame whose rows all have one cell per column. *)
Definition rectangular (df : DataFrame) : Prop :=
  Forall (fun r => List.length (snd r) = List.length (columns df)) (rows df).

(** The cell of a row under a label. *)
Definition cell (cols : list string) (cells : list json) (label : string) : option json :=
  match position label cols with
  | Some i => nth_error cells i
  | None => None
  end.

(** The Yahoo symbol of a stock name. *)
Definition symbol_of (stock_name : string) : string := upper stock_name ++ ".NS".

(** The symbols for which a [Ticker] was made, in order. *)
Definition tickers (t : list event) : list string :=
  flat_map (fun e => match e with EYfTicker symbol => [symbol] | _ => [] end) t.

(** The URL of an indicator. *)
Definition indicator_url (W : World) (base_url country_code : string)
    (item : string * json) : string :=
  base_url ++ Macroeconomics.format W (snd item) ++ "/" ++ country_code.

(** The frame of an indicator with the data points [points]. *)
Definition points_frame (indicator_name : string) (points : list (string * json))
  : DataFrame :=
  mkDF None ["indicator_name"; "year"; "value"]
       (with_range_index
          (map (fun kv => [JStr indicator_name; JStr (fst kv); snd kv]) points)).

(** Month and day of [civil_from_days], as functions of the day of the
    400-year era alone. *)
Definition month_day_of_era_day (doe : Z) : Z * Z :=
  let yoe := ((doe - doe / 1460 + doe / 36524 - doe / 146096) / 365)%Z in
  let doy := (doe - (365 * yoe + yoe / 4 - yoe / 100))%Z in
  let mp := ((5 * doy + 2) / 153)%Z in
  ((if mp <? 10 then mp + 3 else mp - 9)%Z, (doy - (153 * mp + 2) / 5 + 1)%Z).

Definition month_day_in_range (md : Z * Z) : bool :=
  ((1 <=? fst md) && (fst md <=? 12) && (1 <=? snd md) && (snd md <=? 31))%Z.

(** [p] on the [n] integers from [z] on. *)
Fixpoint holds_from (p : Z -> bool) (n : nat) (z : Z) : bool :=
  match n with
  | O => true
  | S k => if p z then holds_from p k (z + 1)%Z else false
  end.

(** A date [strftime] prints with four, two and two digits. *)
Definition printable (d : datetime) : Prop :=
  (0 <= year d < 10000 /\ 0 <= month d < 100 /\ 0 <= day d < 100)%Z.

(** A body whose records all have one cell per column of the header. *)
Definition csv_rectangular (body : csv) : Prop :=
  Forall (fun r => List.length r = List.length (header body)) (records body).

End Observed.

(** * More concrete worlds *)

Module Scenarios.
Import Py Batch Examples.

(** [W] with another object store: [client] is what [boto3.client] raises,
    [store] what [upload_fileobj] answers. *)
Definition with_store (W : World) (client : option exn)
    (store : string -> string -> csv -> option exn) : World :=
  {| environ := environ W;
     json_loads := json_loads W;
     requests_get := requests_get W;
     time_time := time_time W;
     utc_offset := utc_offset W;
     boto3_client := client;
     upload_fileobj := store;
     stock_names_file := stock_names_file W;
     start_date := start_date W;
     end_date := end_date W;
     yf_Ticker := yf_Ticker W;
     yf_history := yf_history W;
     yf_info := yf_info W;
     as_completed := as_completed W;
     format_value := format_value W;
     DataFrame_other := DataFrame_other W;
     setitem_other := setitem_other W |}.

Definition access_denied : exn := mkExn OtherException "An error occurred (AccessDenied)".
Definition no_credentials : exn := mkExn OtherException "Unable to locate credentials".

(** The stock batch of symbols A and B, with a store that refuses every write. *)
Definition stock_store_refuses : World :=
  with_store stock_a_fails_b_two_rows None (fun _ _ _ => Some access_denied).

(** The interest-rate job with two observations and a working store. *)
Definition fed_two_observations : World :=
  fed_world (JArr [JObj [("date", JStr "2024-11-01"); ("value", JStr "4.64")];
                   JObj [("date", JStr "2024-12-01"); ("value", JStr "4.48");
                         ("realtime_start", JStr "2024-12-31")]]).

(** The same job when no client can be made. *)
Definition fed_no_client : World :=
  with_store fed_two_observations (Some no_credentials) (fun _ _ _ => None).



(** One indicator, answered for another country only. *)
Definition macro_other_country : World :=
  macro_world ("{" ++ quoted "gdp" ++ ": " ++ quoted "NGDPD" ++ "}")
              (JObj [("gdp", JStr "NGDPD")])
              (fun _ _ =>
                 Response 200
                   (Ok (JObj [("values",
                               JObj [("NGDPD", JObj [("US", JObj gdp_values)])])]))).

End Scenarios.

(** * Properties *)

Import Py Batch.

(** ** The jobs on the example worlds *)

Example fed_no_observations_run_ok :
  outcome (handler InterestRates Examples.fed_no_observations) = Ok RetNone
  /\ storage_writes (events (handler InterestRates Examples.fed_no_observations)) = [].
Proof. split; vm_compute; reflexivity. Qed.

Example macro_second_fails_run :
  outcome (handler MacroIndicators Examples.macro_second_fails) = Raise Examples.timed_out
  /\ storage_writes (events (handler MacroIndicators Examples.macro_second_fails)) = [].
Proof. split; vm_compute; reflexivity. Qed.

Example stock_a_b_run :
  outcome (handler StockHistory Examples.stock_a_fails_b_two_rows) = Ok RetNone
  /\ map (fun e => match e with
                   | EUploadFileobj body _ key _ => (List.length (records body), key)
                   | _ => (0, EmptyString)
                   end)
         (storage_writes (events (handler StockHistory Examples.stock_a_fails_b_two_rows)))
     = [(2, "stocks_data/history/year=2024/month=12/day=31/nifty50_stock_history_data.csv")].
Proof. split; vm_compute; reflexivity. Qed.

Example normalize_label_stock_splits : normalize_label "Stock Splits" = "stock_splits".
Proof. reflexivity. Qed.

Example replace_api_key :
  replace "https://host/obs?api_key={API_KEY}&file_type=json" "{API_KEY}" "k3y"
  = "https://host/obs?api_key=k3y&file_type=json".
Proof. reflexivity. Qed.

Example leap_day : fromtimestamp 1709164800 0 = mkDate 2024 2 29.
Proof. reflexivity. Qed.

(** ** How the primitives extend the trace *)

Section Emits.
Context (P : event -> Prop).

Lemma emits_ret {A} (a : A) : emits P (ret a).
Proof. intro s. exists []. simpl. rewrite app_nil_r. auto. Qed.

Lemma emits_raise {A} (e : exn) : emits P (@raise A e).
Proof. intro s. exists []. simpl. rewrite app_nil_r. auto. Qed.

Lemma emits_lift {A} (r : result A) : emits P (lift r).
Proof. destruct r; [apply emits_ret | apply emits_raise]. Qed.

Lemma emits_bind {A B} (m : M A) (k : A -> M B) :
  emits P m -> (forall a, emits P (k a)) -> emits P (bind m k).
Proof.
  intros Hm Hk s. unfold bind.
  destruct (Hm s) as [evs [Ht Hf]].
  destruct (m s) as [[a|e] s1]; simpl in *.
  - destruct (Hk a s1) as [evs' [Ht' Hf']].
    exists (evs ++ evs')%list. rewrite Ht', Ht, app_assoc. split; auto.
    apply Forall_app; auto.
  - exists evs. auto.
Qed.

Lemma emits_try_except {A} (m : M A) (h : exn -> M A) :
  emits P m -> (forall e, emits P (h e)) -> emits P (try_except m h).
Proof.
  intros Hm Hh s. unfold try_except.
  destruct (Hm s) as [evs [Ht Hf]].
  destruct (m s) as [[a|e] s1]; simpl in *.
  - exists evs. auto.
  - destruct (Hh e s1) as [evs' [Ht' Hf']].
    exists (evs ++ evs')%list. rewrite Ht', Ht, app_assoc. split; auto.
    apply Forall_app; auto.
Qed.

Lemma emits_emit (e : event) : P e -> emits P (emit e).
Proof. intros He s. exists [e]. simpl. auto. Qed.

Lemma emits_environ_get (W : World) (k : string) : emits P (environ_get W k).
Proof.
  unfold environ_get. destruct (environ W k); [apply emits_ret | apply emits_raise].
Qed.

Lemma emits_get (W : World) (url : string) (t : Z) :
  P (ERequestsGet url (Some t)) -> emits P (get W url t).
Proof.
  intros He s. exists [ERequestsGet url (Some t)]. unfold get.
  destruct (requests_get W (requests_made s) url); simpl; auto.
Qed.

Lemma emits_raise_for_status (r : http_reply) : emits P (raise_for_status r).
Proof.
  destruct r as [e|code body]; simpl; [apply emits_raise|].
  destruct ((400 <=? code)%Z && (code <? 600)%Z); [apply emits_raise | apply emits_ret].
Qed.

Lemma emits_response_json (r : http_reply) : emits P (response_json r).
Proof. destruct r; simpl; [apply emits_raise | apply emits_lift]. Qed.

Lemma emits_today (W : World) : emits P (today W).
Proof. intro s. exists []. simpl. rewrite app_nil_r. auto. Qed.

Lemma emits_partition_key (W : World) (prefix filename : string) :
  emits P (partition_key W prefix filename).
Proof.
  unfold partition_key.
  repeat (apply emits_bind; [apply emits_today | intro]). apply emits_ret.
Qed.

End Emits.

Create HintDb emits.

#[local] Hint Resolve emits_ret emits_raise emits_lift emits_environ_get
  emits_raise_for_status emits_response_json emits_today emits_partition_key : emits.

(** Walks through a computation built from the monad's operations; what is
    left are the side conditions on the events it emits. *)
Ltac emits_walk :=
  repeat first
    [ apply emits_bind; [ | intro ]
    | apply emits_try_except; [ | intro ]
    | solve [ auto with emits ]
    | apply emits_emit
    | apply emits_get
    | match goal with
      | |- emits _ (if ?b then _ else _) => destruct b
      | |- emits _ (match ?x with _ => _ end) => destruct x
      | |- emits _ (let _ := _ in _) => cbv zeta
      end ].

(** Finds an event in an evaluated trace. *)
Ltac find_event := repeat first [ left; reflexivity | right ].

Section EmitsJobs.
Context (P : event -> Prop).
Context (Plog : forall lvl msg, P (ELog lvl msg)).
Context (Pget : forall url, P (ERequestsGet url (Some 10%Z))).
Context (Pticker : forall symbol, P (EYfTicker symbol)).
Context (Phistory : forall symbol a b, P (EYfHistory symbol a b None)).
Context (Pinfo : forall symbol, P (EYfInfo symbol)).

Lemma emits_log lvl msg : emits P (log lvl msg).
Proof. apply emits_emit, Plog. Qed.

Lemma emits_fed_fetch W url : emits P (FedInterets.fetch W url).
Proof.
  unfold FedInterets.fetch. emits_walk; auto using emits_log.
Qed.

Lemma emits_fetch_indicator W base_url country_code name id :
  emits P (Macroeconomics.fetch_indicator W base_url country_code name id).
Proof.
  unfold Macroeconomics.fetch_indicator. emits_walk; auto using emits_log.
Qed.

Lemma emits_for_indicators W base_url country_code pairs :
  forall all_data,
    emits P (Macroeconomics.for_indicators W base_url country_code pairs all_data).
Proof.
  induction pairs as [|[name id] rest IH]; intro all_data; simpl.
  - apply emits_ret.
  - apply emits_bind; [apply emits_fetch_indicator | intro; apply IH].
Qed.

Lemma emits_fetch_stock_price W task stock_name :
  emits P (Nifty50.fetch_stock_price W task stock_name).
Proof.
  unfold Nifty50.fetch_stock_price, Nifty50.fetch_stock_price_try,
    Nifty50.Ticker, Nifty50.history, Nifty50.info.
  emits_walk; auto using emits_log.
Qed.

Lemma emits_collect W completed :
  forall main_df_list, emits P (Nifty50.collect W completed main_df_list).
Proof.
  induction completed as [|[task stock] rest IH]; intro acc; simpl.
  - apply emits_ret.
  - apply emits_bind; [apply emits_fetch_stock_price | intro r].
    destruct (negb (empty r)); apply IH.
Qed.

Context (Pinvoke : forall df, P (EInvoke_s3_upload df)).
Context (Pclient : forall service, P (EBoto3Client service)).
Context (Pwrite : forall body bucket key ct, P (EUploadFileobj body bucket key ct)).

Lemma emits_fed_s3_upload W df : emits P (FedInterets.s3_upload W df).
Proof.
  unfold FedInterets.s3_upload, client, s3_upload_fileobj.
  emits_walk; auto using emits_log.
Qed.

Lemma emits_macro_s3_upload W df : emits P (Macroeconomics.s3_upload W df).
Proof.
  unfold Macroeconomics.s3_upload, client, s3_upload_fileobj.
  emits_walk; auto using emits_log.
Qed.

Lemma emits_stock_s3_upload W df : emits P (Nifty50.s3_upload W df).
Proof.
  unfold Nifty50.s3_upload, client, s3_upload_fileobj.
  emits_walk; auto using emits_log.
Qed.

Lemma emits_handler j W : emits P (handler j W).
Proof.
  destruct j; simpl.
  - unfold FedInterets.lambda_handler.
    emits_walk; auto using emits_log, emits_fed_fetch, emits_fed_s3_upload.
  - unfold Macroeconomics.lambda_handler.
    emits_walk; auto using emits_log, emits_for_indicators, emits_macro_s3_upload.
  - unfold Nifty50.lambda_handler.
    emits_walk; auto using emits_log, emits_collect, emits_stock_s3_upload.
Qed.

End EmitsJobs.

(** ** Reading a trace *)

Lemma publisher_invoked_app (t evs : list event) :
  Forall fetch_only evs ->
  publisher_invoked (t ++ evs) = publisher_invoked t.
Proof.
  intro H. unfold publisher_invoked. rewrite existsb_app.
  replace (existsb is_invocation evs) with false; [apply orb_false_r|].
  symmetry. induction H as [|e l [He _] _ IH]; simpl; [reflexivity|].
  now rewrite He, IH.
Qed.

Lemma storage_writes_app (t evs : list event) :
  Forall fetch_only evs ->
  storage_writes (t ++ evs) = storage_writes t.
Proof.
  intro H. unfold storage_writes. rewrite filter_app.
  replace (filter is_storage_write evs) with (@nil event); [apply app_nil_r|].
  symmetry. induction H as [|e l [_ He] _ IH]; simpl; [reflexivity|].
  now rewrite He, IH.
Qed.

Lemma fetch_only_log lvl msg : fetch_only (ELog lvl msg).
Proof. split; reflexivity. Qed.

(** From [emits] to one run. *)
Lemma emits_run (P : event -> Prop) {A} (m : M A) (s : state) r s' :
  emits P m -> m s = (r, s') ->
  exists evs, trace s' = (trace s ++ evs)%list /\ Forall P evs.
Proof. intros H E. specialize (H s). now rewrite E in H. Qed.

Ltac fetch_only_tac := intros; split; reflexivity.

Lemma fed_fetch_fetch_only W url : emits fetch_only (FedInterets.fetch W url).
Proof. apply emits_fed_fetch; fetch_only_tac. Qed.

Lemma fetch_indicator_fetch_only W b c n i :
  emits fetch_only (Macroeconomics.fetch_indicator W b c n i).
Proof. apply emits_fetch_indicator; fetch_only_tac. Qed.

Lemma for_indicators_fetch_only W b c pairs acc :
  emits fetch_only (Macroeconomics.for_indicators W b c pairs acc).
Proof. apply emits_for_indicators; fetch_only_tac. Qed.

Lemma collect_fetch_only W completed acc :
  emits fetch_only (Nifty50.collect W completed acc).
Proof. apply emits_collect; fetch_only_tac. Qed.

(** ** The time-out of the fetch calls *)

(** X20.  What the call sites pass: in every run of every job, each
    [requests.get] is called with [timeout=10], and each [Ticker.history]
    call of the stock job is written without a time-out argument, so that
    the bound on that call is the library's own. *)
Theorem timeouts_as_written :
  forall (j : job) (W : World) (e : event),
    In e (events (handler j W)) -> timeout_as_written e.
Proof.
  intros j W e Hin.
  destruct (emits_handler timeout_as_written) with (j := j) (W := W) (s := initial)
    as [evs [Ht Hf]]; try (intros; exact I); try (intros; reflexivity).
  unfold events in Hin. rewrite Ht in Hin. simpl in Hin.
  rewrite Forall_forall in Hf. auto.
Qed.

Lemma timeouts_as_written_witness :
  In (EYfHistory "TCS.NS" "2015-01-03" "2025-01-01" None)
     (events (handler StockHistory Examples.stock_all_fail))
  /\ timeout_as_written (EYfHistory "TCS.NS" "2015-01-03" "2025-01-01" None).
Proof.
  assert (H : In (EYfHistory "TCS.NS" "2015-01-03" "2025-01-01" None)
                 (events (handler StockHistory Examples.stock_all_fail))).
  { vm_compute. find_event. }
  split; [exact H|].
  exact (timeouts_as_written StockHistory Examples.stock_all_fail _ H).
Defined.

(** ** One unit of the macro job *)

(** A unit's result depends on the state only through the number of the
    request it makes; it makes exactly one request, and neither invokes the
    publisher nor writes. *)
Lemma fetch_indicator_run W base_url country_code name id (s : state) :
  exists evs,
    Macroeconomics.fetch_indicator W base_url country_code name id s
    = (unit_result W base_url country_code (requests_made s) (name, id),
       mkState (trace s ++ evs) (S (requests_made s)) (clock_reads s))
    /\ Forall fetch_only evs.
Proof.
  unfold unit_result, Macroeconomics.fetch_indicator, bind, try_except, log, emit, get.
  cbn [fst snd trace requests_made clock_reads].
  destruct (requests_get W (requests_made s) _) as [e|code body].
  - destruct (is_RequestException e); [|destruct (is_ValueError_or_TypeError e)];
      cbn; rewrite <- ?app_assoc; cbn;
      eexists; (split; [reflexivity|]); repeat constructor.
  - unfold raise_for_status.
    destruct ((400 <=? code)%Z && (code <? 600)%Z);
      cbn; rewrite <- ?app_assoc; cbn.
    + eexists; (split; [reflexivity|]); repeat constructor.
    + destruct body as [data|e]; cbn.
      * destruct (Macroeconomics.extract W name id country_code data);
          cbn; rewrite <- ?app_assoc; cbn;
          eexists; (split; [reflexivity|]); repeat constructor.
      * destruct (is_RequestException e); [|destruct (is_ValueError_or_TypeError e)];
          cbn; rewrite <- ?app_assoc; cbn;
          eexists; (split; [reflexivity|]); repeat constructor.
Qed.

(** The loop of the macro job stops at the first unit that fails: the
    units before it have each made one request, the units after it make
    none, and nothing is published inside the loop. *)
Lemma for_indicators_first_failure W base_url country_code :
  forall pairs all_data s k item e,
    nth_error pairs k = Some item ->
    unit_result W base_url country_code (requests_made s + k) item = Raise e ->
    (forall j item', j < k -> nth_error pairs j = Some item' ->
        is_ok (unit_result W base_url country_code (requests_made s + j) item') = true) ->
    exists evs,
      Macroeconomics.for_indicators W base_url country_code pairs all_data s
      = (Raise e, mkState (trace s ++ evs) (requests_made s + S k) (clock_reads s))
      /\ Forall fetch_only evs.
Proof.
  induction pairs as [|[name id] rest IH]; intros all_data s k item e Hnth Hfail Hbefore.
  - destruct k; discriminate Hnth.
  - cbn [Macroeconomics.for_indicators]. unfold bind.
    destruct (fetch_indicator_run W base_url country_code name id s) as [evs [Hrun Hevs]].
    rewrite Hrun. destruct k as [|k].
    + injection Hnth as <-. rewrite Nat.add_0_r in Hfail. rewrite Hfail.
      exists evs. split; [|assumption]. do 2 f_equal. lia.
    + assert (H0 : is_ok (unit_result W base_url country_code (requests_made s + 0) (name, id))
                   = true) by (apply Hbefore; [lia | reflexivity]).
      rewrite Nat.add_0_r in H0.
      destruct (unit_result W base_url country_code (requests_made s) (name, id))
        as [df|e0]; [|discriminate H0].
      set (s1 := mkState (trace s ++ evs) (S (requests_made s)) (clock_reads s)).
      destruct (IH (all_data ++ [df])%list s1 k item e) as [evs' [Hrun' Hevs']].
      * exact Hnth.
      * cbn [s1 requests_made]. rewrite <- Hfail. f_equal. lia.
      * intros j item' Hj Hn. cbn [s1 requests_made].
        replace (S (requests_made s) + j) with (requests_made s + S j) by lia.
        apply Hbefore; [lia | exact Hn].
      * rewrite Hrun'. cbn [s1 trace requests_made clock_reads].
        exists (evs ++ evs')%list. rewrite app_assoc. split.
        -- do 2 f_equal. lia.
        -- apply Forall_app; auto.
Qed.

(** What [macro_config] says about the environment. *)
Lemma macro_config_some W country_code base_url pairs :
  macro_config W = Some (country_code, base_url, pairs) ->
  exists text,
    environ W "COUNTRY_CODE" = Some country_code /\
    environ W "BASE_URL" = Some base_url /\
    environ W "INDICATORS" = Some text /\
    json_loads W text = Ok (JObj pairs).
Proof.
  unfold macro_config.
  destruct (environ W "COUNTRY_CODE") as [cc|]; [|discriminate].
  destruct (environ W "BASE_URL") as [b|]; [|discriminate].
  destruct (environ W "INDICATORS") as [t|]; [|discriminate].
  destruct (json_loads W t) as [[a|l|kv]|e] eqn:E; try discriminate.
  intro H. injection H as -> -> ->. exists t. auto.
Qed.

(** The macro handler on a batch whose [k]-th unit is the first to fail. *)
Lemma macro_first_failure W country_code base_url pairs k item e :
  macro_config W = Some (country_code, base_url, pairs) ->
  nth_error pairs k = Some item ->
  unit_result W base_url country_code k item = Raise e ->
  (forall j item', j < k -> nth_error pairs j = Some item' ->
      is_ok (unit_result W base_url country_code j item') = true) ->
  exists evs,
    Macroeconomics.lambda_handler W initial
    = (Raise e, mkState evs (S k) 0)
    /\ Forall fetch_only evs.
Proof.
  intros Hcfg Hnth Hfail Hbefore.
  destruct (macro_config_some _ _ _ _ Hcfg) as [text [Hcc [Hb [Ht Hj]]]].
  unfold Macroeconomics.lambda_handler, bind, try_except, environ_get, log, emit.
  cbn [initial trace requests_made clock_reads app].
  rewrite Hcc, Hb, Ht. cbn. rewrite Hj. cbn.
  assert (Hne : negb (Nat.eqb (List.length pairs) 0) = true).
  { destruct pairs; [destruct k; discriminate Hnth | reflexivity]. }
  rewrite Hne. cbn.
  set (s0 := mkState [ELog INFO "Lambda Execution Started"] 0 0).
  destruct (for_indicators_first_failure W base_url country_code pairs [] s0 k item e)
    as [evs [Hrun Hevs]]; auto.
  rewrite Hrun. subst s0. cbn.
  eexists. split; [reflexivity|].
  constructor; [apply fetch_only_log|].
  apply Forall_app. split; [assumption | repeat constructor].
Qed.

(** The least index at which a boolean test fails. *)
Lemma least_failure (f : nat -> bool) :
  forall k0, f k0 = false ->
  exists k, k <= k0 /\ f k = false /\ forall j, j < k -> f j = true.
Proof.
  induction k0 as [k0 IH] using lt_wf_ind. intro Hk0.
  destruct (forallb f (seq 0 k0)) eqn:Hall.
  - exists k0. repeat split; auto.
    intros j Hj. rewrite forallb_forall in Hall. apply Hall, in_seq. lia.
  - assert (Hex : exists j, j < k0 /\ f j = false).
    { clear IH Hk0. induction k0 as [|n IHn]; [discriminate Hall|].
      rewrite seq_S, forallb_app in Hall. cbn in Hall.
      destruct (forallb f (seq 0 n)).
      - exists n. split; [lia|]. destruct (f n); [discriminate Hall | reflexivity].
      - destruct IHn as [j [Hj Hf]]; [reflexivity|]. exists j. split; [lia | exact Hf]. }
    destruct Hex as [j [Hj Hf]].
    destruct (IH j Hj Hf) as [k [Hk [Hfk Hbefore]]].
    exists k. repeat split; auto. lia.
Qed.

(** ** Strict policy *)

(** C2.  In the macro-indicator job, whenever some indicator of the batch
    fails, the handler raises the error of the first indicator that fails,
    the indicators after it are not requested, and the run neither invokes
    [s3_upload] nor writes to the store, whatever the other indicators
    would have returned. *)
Theorem strict_first_failure_aborts :
  forall (W : World) (country_code base_url : string) (pairs : list (string * json))
         (k0 : nat) (item0 : string * json),
    macro_config W = Some (country_code, base_url, pairs) ->
    nth_error pairs k0 = Some item0 ->
    is_ok (unit_result W base_url country_code k0 item0) = false ->
    exists k item e,
      k <= k0 /\
      nth_error pairs k = Some item /\
      unit_result W base_url country_code k item = Raise e /\
      (forall j item', j < k -> nth_error pairs j = Some item' ->
          is_ok (unit_result W base_url country_code j item') = true) /\
      outcome (handler MacroIndicators W) = Raise e /\
      publisher_invoked (events (handler MacroIndicators W)) = false /\
      storage_writes (events (handler MacroIndicators W)) = [] /\
      requests_made (snd (handler MacroIndicators W initial)) = S k.
Proof.
  intros W cc base pairs k0 item0 Hcfg Hnth0 Hfail0.
  set (f := fun j => match nth_error pairs j with
                     | Some item => is_ok (unit_result W base cc j item)
                     | None => true
                     end).
  destruct (least_failure f k0) as [k [Hle [Hfk Hbefore]]].
  { unfold f. now rewrite Hnth0. }
  unfold f in Hfk.
  destruct (nth_error pairs k) as [item|] eqn:Hnth; [|discriminate Hfk].
  destruct (unit_result W base cc k item) as [df|e] eqn:Hres; [discriminate Hfk|].
  assert (Hok : forall j item', j < k -> nth_error pairs j = Some item' ->
                  is_ok (unit_result W base cc j item') = true).
  { intros j item' Hj Hn. specialize (Hbefore j Hj). unfold f in Hbefore.
    now rewrite Hn in Hbefore. }
  destruct (macro_first_failure W cc base pairs k item e Hcfg Hnth Hres Hok)
    as [evs [Hrun Hevs]].
  exists k, item, e. unfold outcome, events, handler. rewrite Hrun.
  cbn [fst snd trace requests_made].
  repeat split; auto.
  - apply (publisher_invoked_app [] evs Hevs).
  - apply (storage_writes_app [] evs Hevs).
Qed.

Lemma strict_first_failure_aborts_witness :
  exists k item e,
    k <= 1 /\
    nth_error [("gdp", JStr "NGDPD"); ("cpi", JStr "PCPIPCH")] k = Some item /\
    unit_result Examples.macro_second_fails
      "https://www.imf.org/external/datamapper/api/v1/" "IN" k item = Raise e /\
    (forall j item', j < k ->
        nth_error [("gdp", JStr "NGDPD"); ("cpi", JStr "PCPIPCH")] j = Some item' ->
        is_ok (unit_result Examples.macro_second_fails
                 "https://www.imf.org/external/datamapper/api/v1/" "IN" j item') = true) /\
    outcome (handler MacroIndicators Examples.macro_second_fails) = Raise e /\
    publisher_invoked (events (handler MacroIndicators Examples.macro_second_fails)) = false /\
    storage_writes (events (handler MacroIndicators Examples.macro_second_fails)) = [] /\
    requests_made (snd (handler MacroIndicators Examples.macro_second_fails initial)) = S k.
Proof.
  apply (strict_first_failure_aborts Examples.macro_second_fails "IN"
           "https://www.imf.org/external/datamapper/api/v1/"
           [("gdp", JStr "NGDPD"); ("cpi", JStr "PCPIPCH")] 1 ("cpi", JStr "PCPIPCH")).
  - vm_compute; reflexivity.
  - reflexivity.
  - vm_compute; reflexivity.
Defined.

(** ** One task of the stock job *)

Ltac case_split :=
  match goal with
  | |- context [match ?x with _ => _ end] =>
      lazymatch x with
      | context [match _ with _ => _ end] => fail
      | _ => destruct x eqn:?
      end
  end.

(** A task always hands back a frame; the frame does not depend on the
    state it is run from, and the run only appends fetch events. *)
Lemma fetch_stock_price_run W task stock_name (s : state) :
  exists evs,
    Nifty50.fetch_stock_price W task stock_name s
    = (Ok (fetched W (task, stock_name)),
       mkState (trace s ++ evs) (requests_made s) (clock_reads s))
    /\ Forall fetch_only evs.
Proof.
  unfold fetched, outcome, Nifty50.fetch_stock_price, Nifty50.fetch_stock_price_try,
    Nifty50.Ticker, Nifty50.history, Nifty50.info, bind, try_except, log, emit, lift,
    ret, raise.
  cbn [fst snd trace requests_made clock_reads initial app].
  repeat (case_split; cbn [fst snd trace requests_made clock_reads initial app]);
    try discriminate;
    rewrite <- ?app_assoc; cbn [app];
    eexists; (split; [reflexivity|]); repeat constructor.
Qed.

(** The collection loop keeps, in completion order, the frames that are not
    empty. *)
Lemma collect_run W :
  forall completed main_df_list s,
  exists evs,
    Nifty50.collect W completed main_df_list s
    = (Ok (main_df_list ++ nonempty_frames (map (fetched W) completed))%list,
       mkState (trace s ++ evs) (requests_made s) (clock_reads s))
    /\ Forall fetch_only evs.
Proof.
  induction completed as [|[task stock] rest IH]; intros acc s.
  - exists []. cbn. rewrite !app_nil_r. destruct s; auto.
  - cbn [Nifty50.collect map nonempty_frames filter]. unfold bind.
    destruct (fetch_stock_price_run W task stock s) as [evs [Hrun Hevs]].
    rewrite Hrun. fold (nonempty_frames (map (fetched W) rest)).
    set (s1 := mkState (trace s ++ evs) (requests_made s) (clock_reads s)).
    destruct (negb (empty (fetched W (task, stock)))).
    + destruct (IH (acc ++ [fetched W (task, stock)])%list s1) as [evs' [Hrun' Hevs']].
      rewrite Hrun'. exists (evs ++ evs')%list.
      cbn [s1 trace requests_made clock_reads].
      rewrite <- !app_assoc. split; [reflexivity | apply Forall_app; auto].
    + destruct (IH acc s1) as [evs' [Hrun' Hevs']].
      rewrite Hrun'. exists (evs ++ evs')%list.
      cbn [s1 trace requests_made clock_reads].
      rewrite <- !app_assoc. split; [reflexivity | apply Forall_app; auto].
Qed.

Lemma nonempty_frames_nil_perm {A} (g : A -> DataFrame) (l l' : list A) :
  Permutation l' l ->
  nonempty_frames (map g l) = [] -> nonempty_frames (map g l') = [].
Proof.
  intros Hp Hnil.
  assert (Hall : Forall (fun x => negb (empty (g x)) = false) l).
  { clear Hp. induction l as [|x l IH]; [constructor|].
    cbn in Hnil. destruct (negb (empty (g x))) eqn:E; [discriminate Hnil|].
    constructor; auto. }
  apply Permutation_sym in Hp.
  apply (Permutation_Forall Hp) in Hall.
  clear Hp Hnil. induction Hall as [|x t Hx _ IH]; [reflexivity|].
  cbn. rewrite Hx. exact IH.
Qed.

(** The stock handler when no task hands back a non-empty frame. *)
Lemma stock_no_data W symbols :
  stock_names_file W = Ok symbols ->
  nonempty_frames (map (fetched W) (as_completed W (Nifty50.submit_all symbols))) = [] ->
  exists evs,
    Nifty50.lambda_handler W initial
    = (Ok (RetDict [("message", "No data retrieved")]), mkState evs 0 0)
    /\ Forall fetch_only evs.
Proof.
  intros Hfile Hnil.
  unfold Nifty50.lambda_handler, bind, try_except, log, emit.
  cbn [initial trace requests_made clock_reads app]. rewrite Hfile. cbn [lift ret].
  set (s0 := mkState [ELog INFO "Lambda execution  started"] 0 0).
  destruct (collect_run W (as_completed W (Nifty50.submit_all symbols)) [] s0)
    as [evs [Hrun Hevs]].
  rewrite Hrun, Hnil. subst s0. cbn.
  eexists. split; [reflexivity|].
  constructor; [apply fetch_only_log | assumption].
Qed.

(** The interest-rate handler when its single fetch is not a success. *)
Lemma fed_no_data W :
  fed_observations W = None ->
  exists r s,
    FedInterets.lambda_handler W initial = (r, s) /\ Forall fetch_only (trace s).
Proof.
  unfold fed_observations, outcome, FedInterets.lambda_handler, bind, try_except,
    environ_get.
  destruct (environ W "API_KEY") as [api_key|];
    [|intros _; do 2 eexists; split; [reflexivity | constructor]].
  destruct (environ W "URL") as [url_template|];
    [|intros _; do 2 eexists; split; [reflexivity | constructor]].
  cbn [ret raise].
  destruct (FedInterets.fetch W (replace url_template "{API_KEY}" api_key) initial)
    as [[data|e] s1] eqn:Hfetch.
  - destruct (emits_run fetch_only _ _ _ _ (fed_fetch_fetch_only W _) Hfetch)
      as [evs [Ht Hevs]].
    cbn [initial trace app] in Ht. cbn [fst].
    destruct (FedInterets.get_observations data) as [obs|e]; cbn [lift ret raise].
    + destruct (truthy obs); [discriminate|]. intros _. cbn.
      do 2 eexists. split; [reflexivity|]. cbn. rewrite Ht.
      apply Forall_app. split; [assumption | repeat constructor].
    + intros _. cbn. do 2 eexists. split; [reflexivity|]. cbn. rewrite Ht.
      apply Forall_app. split; [assumption | repeat constructor].
  - destruct (emits_run fetch_only _ _ _ _ (fed_fetch_fetch_only W _) Hfetch)
      as [evs [Ht Hevs]].
    intros _. do 2 eexists. split; [reflexivity|]. now rewrite Ht.
Qed.


(** ** No data, no publication *)

(** X21.  In the interest-rate job and in the stock-history job, a batch
    in which no fetch gives data never invokes [s3_upload]: the first tests
    the observations, the second keeps only the frames that are not
    empty. *)
Theorem no_data_no_invocation :
  forall (j : job) (W : World),
    j <> MacroIndicators ->
    fair_schedule W ->
    fetches_with_data j W = 0 ->
    publisher_invoked (events (handler j W)) = false.
Proof.
  intros j W Hjob Hfair Hzero. unfold events.
  destruct j; cbn [handler fetches_with_data] in *.
  - destruct (fed_observations W) eqn:Hobs; [discriminate Hzero|].
    destruct (fed_no_data W Hobs) as [r [s [Hrun Hevs]]]. rewrite Hrun. cbn [snd].
    apply (publisher_invoked_app [] _ Hevs).
  - now contradiction Hjob.
  - unfold stock_units in Hzero.
    destruct (stock_names_file W) as [symbols|e] eqn:Hfile.
    + apply length_zero_iff_nil in Hzero.
      destruct (stock_no_data W symbols Hfile) as [evs [Hrun Hevs]].
      { eapply nonempty_frames_nil_perm; [apply Hfair | exact Hzero]. }
      rewrite Hrun. apply (publisher_invoked_app [] _ Hevs).
    + unfold Nifty50.lambda_handler, bind, try_except, log, emit.
      cbn [initial trace requests_made clock_reads app]. rewrite Hfile. reflexivity.
Qed.

Lemma in_order_fair : forall tasks : list (nat * string),
  Permutation (Examples.in_order tasks) tasks.
Proof. intro tasks. apply Permutation_refl. Defined.

Lemma no_data_no_invocation_witness :
  fetches_with_data StockHistory Examples.stock_all_fail = 0
  /\ publisher_invoked (events (handler StockHistory Examples.stock_all_fail)) = false.
Proof.
  assert (Hzero : fetches_with_data StockHistory Examples.stock_all_fail = 0)
    by (vm_compute; reflexivity).
  split; [exact Hzero|].
  apply (no_data_no_invocation StockHistory Examples.stock_all_fail);
    [discriminate | exact in_order_fair | exact Hzero].
Defined.

(** C1 fails on the macro-indicator job.  One indicator is answered with no
    data point for the country: no fetch of the batch gives data, its one
    frame has no row, and yet the handler enters [s3_upload] with that
    frame and one write is made.  The handler tests the list [all_data],
    which holds the empty frame, and not the data. *)
Theorem macro_invokes_publisher_without_data :
  let W := Examples.macro_empty_values in
  fetches_with_data MacroIndicators W = 0 /\
  map (fun r => match r with Ok df => Some (len df) | Raise _ => None end) (macro_units W)
  = [Some 0] /\
  publisher_invoked (events (handler MacroIndicators W)) = true /\
  List.length (storage_writes (events (handler MacroIndicators W))) = 1.
Proof.
  cbv zeta. repeat split; vm_compute; reflexivity.
Qed.

(** ** Total fetch of one stock *)

(** C10.  [fetch_stock_price] always returns a frame, whatever the
    collaborator does: it never raises, and it returns the empty frame
    [pd.DataFrame()] whenever its [try] block raises and whenever
    [stock.info] is read as [None] or as an empty dict. *)
Theorem fetch_stock_price_total :
  forall (W : World) (task : nat) (stock_name : string) (s : state),
  exists df,
    fst (Nifty50.fetch_stock_price W task stock_name s) = Ok df /\
    (forall e, fst (Nifty50.fetch_stock_price_try W task stock_name s) = Raise e ->
               df = DataFrame_new) /\
    (forall data first,
        yf_Ticker W task (upper stock_name ++ ".NS") = None ->
        yf_history W task (upper stock_name ++ ".NS") (start_date W) (end_date W) = Ok data ->
        yf_info W task (upper stock_name ++ ".NS") 0 = Ok first ->
        truthy first = false ->
        df = DataFrame_new) /\
    (forall data first second,
        yf_Ticker W task (upper stock_name ++ ".NS") = None ->
        yf_history W task (upper stock_name ++ ".NS") (start_date W) (end_date W) = Ok data ->
        yf_info W task (upper stock_name ++ ".NS") 0 = Ok first ->
        truthy first = true ->
        yf_info W task (upper stock_name ++ ".NS") 1 = Ok second ->
        truthy second = false ->
        df = DataFrame_new).
Proof.
  intros W task stock_name s.
  destruct (fetch_stock_price_run W task stock_name s) as [evs [Hrun _]].
  exists (fetched W (task, stock_name)). rewrite Hrun. split; [reflexivity|].
  revert Hrun. unfold Nifty50.fetch_stock_price, try_except.
  destruct (Nifty50.fetch_stock_price_try W task stock_name s) as [[df|e] s1] eqn:Htry.
  - intro Hrun. injection Hrun as Hdf _. rewrite <- Hdf. clear Hdf.
    split; [discriminate|].
    unfold Nifty50.fetch_stock_price_try, Nifty50.Ticker, Nifty50.history, Nifty50.info,
      bind, log, emit, lift, ret, raise in Htry.
    cbn [fst snd trace requests_made clock_reads] in Htry.
    split.
    + intros data first HT HH HI Hf. rewrite HT, HH, HI, Hf in Htry.
      cbn in Htry. now injection Htry as <- _.
    + intros data first second HT HH HI Hf HI2 Hf2.
      rewrite HT, HH, HI, Hf, HI2, Hf2 in Htry.
      cbn in Htry. now injection Htry as <- _.
  - unfold bind, log, emit, ret. intro Hrun. injection Hrun as Hdf _. rewrite <- Hdf.
    split; [reflexivity|].
    split; intros; reflexivity.
Qed.

Lemma fetch_stock_price_total_witness :
  fst (Nifty50.fetch_stock_price_try Examples.stock_all_fail 0 "TCS" initial)
  = Raise Examples.unreachable
  /\ fst (Nifty50.fetch_stock_price Examples.stock_all_fail 0 "TCS" initial)
     = Ok DataFrame_new.
Proof.
  destruct (fetch_stock_price_total Examples.stock_all_fail 0 "TCS" initial)
    as [df [Hok [Hraise _]]].
  assert (Htry : fst (Nifty50.fetch_stock_price_try Examples.stock_all_fail 0 "TCS" initial)
                 = Raise Examples.unreachable) by (vm_compute; reflexivity).
  split; [exact Htry|].
  rewrite Hok. f_equal. exact (Hraise _ Htry).
Defined.

(** ** Frames: rows through [concat], [reset_index] and [to_csv] *)

Lemma map_snd_combine {A B} (l1 : list A) (l2 : list B) :
  List.length l1 = List.length l2 -> map snd (combine l1 l2) = l2.
Proof.
  revert l2. induction l1 as [|a l1 IH]; intros [|b l2] H; try discriminate H.
  - reflexivity.
  - cbn. f_equal. apply IH. now injection H.
Qed.

Lemma cells_with_range_index (cells : list (list json)) :
  map snd (with_range_index cells) = cells.
Proof.
  unfold with_range_index, range_index. apply map_snd_combine.
  now rewrite length_map, length_seq.
Qed.

Lemma flat_map_rows_eta (frames : list DataFrame) :
  flat_map rows frames
  = flat_map (fun df => map (fun r => (fst r, snd r)) (rows df)) frames.
Proof.
  induction frames as [|df l IH]; [reflexivity|].
  cbn [flat_map]. rewrite <- IH. f_equal.
  induction (rows df) as [|[i c] t IHt]; [reflexivity|]. cbn. now rewrite <- IHt.
Qed.

(** Along the rows, [concat] stacks the frames in order: every row keeps
    its index label, and its cells are laid out again frame by frame. *)
Lemma concat_rows (frames : list DataFrame) (merged : DataFrame) :
  concat frames false = Ok merged ->
  exists layout : DataFrame -> list json -> list json,
    rows merged
    = flat_map (fun df => map (fun r => (fst r, layout df (snd r))) (rows df)) frames.
Proof.
  unfold concat. destruct frames as [|first rest]; [discriminate|].
  destruct (forallb _ (first :: rest)).
  - intro H. injection H as <-. exists (fun _ cells => cells). cbn [rows].
    exact (flat_map_rows_eta (first :: rest)).
  - destruct (existsb _ (first :: rest)); [discriminate|].
    intro H. injection H as <-.
    exists (fun df cells => relayout (columns df) (union_columns (first :: rest)) cells).
    reflexivity.
Qed.

(** The records of the body written from a frame after [reset_index]:
    the index label, then the cells. *)
Lemma reset_index_records (merged reset : DataFrame) (cols : list string) :
  reset_index merged = Ok reset ->
  map snd (rows (set_columns reset cols)) = map (fun r => fst r :: snd r) (rows merged).
Proof.
  unfold reset_index. destruct (mem _ (columns merged)); [discriminate|].
  intro H. injection H as <-. cbn [set_columns rows]. apply cells_with_range_index.
Qed.

(** The blocks of records of the units, one per task in completion order. *)
Lemma blocks_of_units (W : World) (layout : DataFrame -> list json -> list json) :
  forall completed,
  exists blocks,
    map (fun r => fst r :: snd r)
        (flat_map (fun df => map (fun r => (fst r, layout df (snd r))) (rows df))
                  (nonempty_frames (map (fetched W) completed)))
    = List.concat blocks /\
    Forall2 (fun task block =>
               List.length block = List.length (contribution (fetched W task)) /\
               map (hd NaN) block = map fst (contribution (fetched W task)))
            completed blocks.
Proof.
  induction completed as [|task rest [blocks [Hcat Hall]]].
  - exists []. split; [reflexivity | constructor].
  - cbn [map nonempty_frames filter]. fold (nonempty_frames (map (fetched W) rest)).
    unfold contribution at 1 2.
    destruct (empty (fetched W task)) eqn:Hempty; cbn [negb].
    + exists ([] :: blocks). split; [exact Hcat|].
      constructor; [|exact Hall].
      unfold contribution. rewrite Hempty. split; reflexivity.
    + exists (map (fun r => fst r :: layout (fetched W task) (snd r)) (rows (fetched W task))
                :: blocks).
      split.
      * cbn [flat_map List.concat]. rewrite map_app, Hcat, map_map. reflexivity.
      * constructor; [|exact Hall].
        unfold contribution. rewrite Hempty, length_map, map_map. split; reflexivity.
Qed.

Lemma list_sum_perm {A} (f : A -> nat) (l l' : list A) :
  Permutation l l' -> list_sum (map f l) = list_sum (map f l').
Proof.
  induction 1 as [|x l l' _ IH|x y l|l l' l'' _ IH1 _ IH2].
  - reflexivity.
  - cbn [map list_sum fold_right]. unfold list_sum in IH. now rewrite IH.
  - cbn [map list_sum fold_right]. lia.
  - now rewrite IH1.
Qed.

Lemma length_concat_blocks {A B} (R : A -> list B -> Prop) (f : A -> nat) :
  forall (l : list A) (blocks : list (list B)),
    Forall2 (fun a b => List.length b = f a /\ R a b) l blocks ->
    List.length (List.concat blocks) = list_sum (map f l).
Proof.
  induction 1 as [|a b l blocks [Hlen _] _ IH]; [reflexivity|].
  cbn. rewrite length_app, Hlen, IH. reflexivity.
Qed.

(** ** The publisher is entered with the frame it is given *)

Lemma bind_emit {A} (e : event) (k : M A) (s : state) :
  (emit e ;; k) s = k (mkState (trace s ++ [e]) (requests_made s) (clock_reads s)).
Proof. reflexivity. Qed.

Lemma stock_s3_upload_enters W df (s : state) :
  exists evs,
    trace (snd (Nifty50.s3_upload W df s)) = (trace s ++ EInvoke_s3_upload df :: evs)%list
    /\ Forall (written_from df) evs.
Proof.
  unfold Nifty50.s3_upload. rewrite bind_emit.
  match goal with
  | |- context [try_except ?m ?h] =>
      assert (H : emits (written_from df) (try_except m h))
  end.
  { unfold client, s3_upload_fileobj, log. emits_walk; cbn; auto. }
  match goal with
  | |- context [snd (_ ?s1)] => destruct (H s1) as [evs [Ht Hevs]]
  end.
  exists evs. rewrite Ht. cbn [trace]. now rewrite <- app_assoc.
Qed.

(** The trace of the stock handler, by the outcome of the aggregation. *)
Lemma stock_handler_trace W symbols :
  stock_names_file W = Ok symbols ->
  exists pre,
    Forall fetch_only pre /\
    match nonempty_frames (map (fetched W) (as_completed W (Nifty50.submit_all symbols))) with
    | [] => events (Nifty50.lambda_handler W) = pre
    | frames =>
        match concat frames false with
        | Raise _ => exists msg, events (Nifty50.lambda_handler W) = (pre ++ [ELog ERROR msg])%list
        | Ok merged =>
            match reset_index merged with
            | Raise _ =>
                exists msg, events (Nifty50.lambda_handler W) = (pre ++ [ELog ERROR msg])%list
            | Ok reset =>
                let main_df := set_columns reset (map normalize_label (columns reset)) in
                exists post,
                  events (Nifty50.lambda_handler W)
                  = (pre ++ EInvoke_s3_upload main_df :: post)%list
                  /\ Forall (written_from main_df) post
            end
        end
    end.
Proof.
  intro Hfile.
  unfold events, Nifty50.lambda_handler, bind, try_except, log, emit.
  cbn [initial trace requests_made clock_reads app]. rewrite Hfile. cbn [lift ret].
  set (s0 := mkState [ELog INFO "Lambda execution  started"] 0 0).
  destruct (collect_run W (as_completed W (Nifty50.submit_all symbols)) [] s0)
    as [evs [Hrun Hevs]].
  rewrite Hrun. cbn [app].
  exists (ELog INFO "Lambda execution  started" :: evs).
  split; [constructor; [apply fetch_only_log | assumption]|].
  destruct (nonempty_frames _) as [|df l]; [reflexivity|].
  destruct (concat (df :: l) false) as [merged|e]; cbn [lift ret raise];
    [|eexists; reflexivity].
  destruct (reset_index merged) as [reset|e]; cbn [lift ret raise];
    [|eexists; reflexivity].
  set (main_df := set_columns reset (map normalize_label (columns reset))).
  set (s1 := mkState (trace s0 ++ evs) (requests_made s0) (clock_reads s0)).
  destruct (stock_s3_upload_enters W main_df s1) as [post [Ht Hpost]].
  destruct (Nifty50.s3_upload W main_df s1) as [[u|e] s2]; cbn [snd] in Ht.
  - exists post. split; [exact Ht | exact Hpost].
  - exists (post ++ [ELog ERROR ("Error in lambda_handler method with error --> "
                                  ++ str_exn e)])%list.
    cbn [snd trace]. rewrite Ht. subst s1 s0. cbn [trace app].
    rewrite <- app_assoc. split; [reflexivity|].
    apply Forall_app. split; [exact Hpost | repeat constructor].
Qed.

(** A task whose [try] block raises hands back the empty frame. *)
Lemma fetched_after_raise W task e :
  fst (Nifty50.fetch_stock_price_try W (fst task) (snd task) initial) = Raise e ->
  fetched W task = DataFrame_new.
Proof.
  unfold fetched, outcome, Nifty50.fetch_stock_price, try_except.
  destruct (Nifty50.fetch_stock_price_try W (fst task) (snd task) initial) as [[df|e0] s1].
  - discriminate.
  - intros _. reflexivity.
Qed.

(** ** Tolerant policy *)

(** C3.  In the stock-history job, when the aggregation goes through, the
    frame handed to [s3_upload] is made of one block of rows per task, in
    completion order: the block of a task whose fetch gave a non-empty
    frame has exactly the rows of that frame (same number, same index
    labels, same order), and the block of a task that failed is empty.
    Hence the number of rows is the sum, over the submitted units, of the
    rows each successful fetch produced; a unit's share is the length of
    its frame as soon as the frame has a column. *)
Theorem tolerant_contributions :
  forall (W : World) (symbols : list string) (merged reset : DataFrame),
    fair_schedule W ->
    stock_names_file W = Ok symbols ->
    concat (nonempty_frames
              (map (fetched W) (as_completed W (Nifty50.submit_all symbols)))) false
    = Ok merged ->
    reset_index merged = Ok reset ->
    let main_df := set_columns reset (map normalize_label (columns reset)) in
    In (EInvoke_s3_upload main_df) (events (handler StockHistory W)) /\
    (exists blocks,
        records (to_csv main_df) = List.concat blocks /\
        Forall2 (fun task block =>
                   List.length block = List.length (contribution (fetched W task)) /\
                   map (hd NaN) block = map fst (contribution (fetched W task)))
                (as_completed W (Nifty50.submit_all symbols)) blocks) /\
    len main_df
    = list_sum (map (fun task => List.length (contribution (fetched W task)))
                    (Nifty50.submit_all symbols)) /\
    (forall task,
        columns (fetched W task) <> [] ->
        List.length (contribution (fetched W task)) = len (fetched W task)) /\
    (forall task e,
        fst (Nifty50.fetch_stock_price_try W (fst task) (snd task) initial) = Raise e ->
        contribution (fetched W task) = []).
Proof.
  intros W symbols merged reset Hfair Hfile Hconcat Hreset main_df.
  assert (Hblocks :
            exists blocks,
              records (to_csv main_df) = List.concat blocks /\
              Forall2 (fun task block =>
                         List.length block = List.length (contribution (fetched W task)) /\
                         map (hd NaN) block = map fst (contribution (fetched W task)))
                      (as_completed W (Nifty50.submit_all symbols)) blocks).
  { destruct (concat_rows _ _ Hconcat) as [layout Hrows].
    destruct (blocks_of_units W layout (as_completed W (Nifty50.submit_all symbols)))
      as [blocks [Hcat Hall]].
    exists blocks. split; [|exact Hall].
    unfold to_csv. cbn [records]. subst main_df.
    rewrite (reset_index_records merged reset _ Hreset), Hrows. exact Hcat. }
  split; [|split; [exact Hblocks|split; [|split]]].
  - destruct (stock_handler_trace W symbols Hfile) as [pre [_ Htrace]].
    destruct (nonempty_frames _) as [|df l]; [discriminate Hconcat|].
    rewrite Hconcat, Hreset in Htrace. destruct Htrace as [post [Ht _]].
    cbn [handler]. rewrite Ht. apply in_or_app. right. left. reflexivity.
  - destruct Hblocks as [blocks [Hcat Hall]].
    unfold len. rewrite <- (length_map snd). change (map snd (rows main_df))
      with (records (to_csv main_df)). rewrite Hcat.
    rewrite (length_concat_blocks _ _ _ _ Hall).
    apply list_sum_perm, Hfair.
  - intros task Hcols. unfold contribution, empty, len.
    destruct (columns (fetched W task)); [contradiction|].
    destruct (rows (fetched W task)); reflexivity.
  - intros task e Hraise. rewrite (fetched_after_raise W task e Hraise). reflexivity.
Qed.

Lemma reversed_fair : forall tasks : list (nat * string), Permutation (rev tasks) tasks.
Proof. intro tasks. apply Permutation_sym, Permutation_rev. Defined.

Lemma tolerant_contributions_witness :
  len (set_columns Examples.a_b_reset (map normalize_label (columns Examples.a_b_reset)))
  = list_sum (map (fun task =>
                     List.length (contribution (fetched Examples.stock_a_fails_b_two_rows task)))
                  (Nifty50.submit_all ["A"; "B"])).
Proof.
  apply (tolerant_contributions Examples.stock_a_fails_b_two_rows ["A"; "B"]
           Examples.a_b_merged Examples.a_b_reset).
  - exact reversed_fair.
  - reflexivity.
  - vm_compute; reflexivity.
  - vm_compute; reflexivity.
Defined.

(** ** Column labels *)

Lemma normal_char_normalize (c : ascii) :
  normal_char (if Ascii.eqb (ascii_lower c) " "%char then "_"%char else ascii_lower c) = true.
Proof.
  destruct c as [[] [] [] [] [] [] [] []]; vm_compute; reflexivity.
Qed.

Lemma normalized_normalize_label (label : string) :
  normalized (normalize_label label) = true.
Proof.
  unfold normalized, normalize_label, lower.
  induction label as [|c t IH]; [reflexivity|].
  cbn [str_map str_forall]. rewrite normal_char_normalize. exact IH.
Qed.

Lemma fetch_only_not_write (evs : list event) body bucket key ct :
  Forall fetch_only evs -> ~ In (EUploadFileobj body bucket key ct) evs.
Proof.
  intros Hall Hin. rewrite Forall_forall in Hall.
  destruct (Hall _ Hin) as [_ Hw]. discriminate Hw.
Qed.

(** C8 (as amended).  In the stock-history job, every column label of the
    body that is written is lower-case and free of spaces: the labels are
    those of the frame obtained by merging the per-unit frames and
    resetting the index, normalized once after the merge. *)
Theorem stock_labels_normalized_after_merge :
  forall (W : World) (body : csv) (bucket key ct : string),
    In (EUploadFileobj body bucket key ct) (events (handler StockHistory W)) ->
    Forall (fun label => normalized label = true) (header body) /\
    exists symbols merged reset,
      stock_names_file W = Ok symbols /\
      concat (nonempty_frames
                (map (fetched W) (as_completed W (Nifty50.submit_all symbols)))) false
      = Ok merged /\
      reset_index merged = Ok reset /\
      header body = map normalize_label (columns reset).
Proof.
  intros W body bucket key ct Hin. cbn [handler] in Hin.
  destruct (stock_names_file W) as [symbols|e] eqn:Hfile.
  - destruct (stock_handler_trace W symbols Hfile) as [pre [Hpre Htrace]].
    destruct (nonempty_frames _) as [|df l] eqn:Hframes.
    { rewrite Htrace in Hin. now apply fetch_only_not_write in Hin. }
    destruct (concat (df :: l) false) as [merged|e] eqn:Hconcat.
    2:{ destruct Htrace as [msg Ht]. rewrite Ht in Hin.
        apply in_app_or in Hin. destruct Hin as [Hin|[Hin|[]]]; [|discriminate Hin].
        now apply fetch_only_not_write in Hin. }
    destruct (reset_index merged) as [reset|e] eqn:Hreset.
    2:{ destruct Htrace as [msg Ht]. rewrite Ht in Hin.
        apply in_app_or in Hin. destruct Hin as [Hin|[Hin|[]]]; [|discriminate Hin].
        now apply fetch_only_not_write in Hin. }
    destruct Htrace as [post [Ht Hpost]]. rewrite Ht in Hin.
    apply in_app_or in Hin. destruct Hin as [Hin|[Hin|Hin]].
    + now apply fetch_only_not_write in Hin.
    + discriminate Hin.
    + rewrite Forall_forall in Hpost. specialize (Hpost _ Hin). cbn in Hpost.
      subst body. cbn [to_csv header set_columns columns]. split.
      * apply Forall_forall. intros label Hl. apply in_map_iff in Hl.
        destruct Hl as [c [<- _]]. apply normalized_normalize_label.
      * exists symbols, merged, reset. rewrite Hframes. auto.
  - exfalso. revert Hin.
    unfold events, Nifty50.lambda_handler, bind, try_except, log, emit.
    cbn [initial trace requests_made clock_reads app]. rewrite Hfile. cbn.
    intros [H|[H|[]]]; discriminate H.
Qed.

Lemma stock_labels_normalized_after_merge_witness :
  Forall (fun label => normalized label = true)
         (map normalize_label (columns Examples.a_b_reset)).
Proof.
  assert (Hin : In (EUploadFileobj
                      (to_csv (set_columns Examples.a_b_reset
                                 (map normalize_label (columns Examples.a_b_reset))))
                      "nifty50-raw-layer"
                      "stocks_data/history/year=2024/month=12/day=31/nifty50_stock_history_data.csv"
                      "text/csv")
                   (events (handler StockHistory Examples.stock_a_fails_b_two_rows))).
  { vm_compute. find_event. }
  exact (proj1 (stock_labels_normalized_after_merge _ _ _ _ _ Hin)).
Defined.

(** C8 (as stated) fails twice over.  The interest-rate job writes the keys
    of the observations as they arrive, capitals and spaces included; and
    in the stock job the labels are normalized after the merge, so two
    units that spell a label differently end up as two columns, where
    normalizing before the merge would give one. *)
Lemma labels_not_normalized_before_merge :
  (exists body bucket key ct,
      In (EUploadFileobj body bucket key ct)
         (events (handler InterestRates Examples.fed_spaced_keys)) /\
      header body = ["Realtime Start"; "Value"] /\
      forallb normalized (header body) = false)
  /\
  (exists body bucket key ct merged,
      In (EUploadFileobj body bucket key ct)
         (events (handler StockHistory Examples.stock_mixed_case)) /\
      spec_normalize_then_merge
        (nonempty_frames
           (map (fetched Examples.stock_mixed_case)
                (as_completed Examples.stock_mixed_case (Nifty50.submit_all ["A"; "B"]))))
      = Ok merged /\
      List.length (filter (String.eqb "close") (header body)) = 2 /\
      List.length (filter (String.eqb "close") (columns merged)) = 1).
Proof.
  split.
  - do 4 eexists. split; [|split].
    + vm_compute. find_event.
    + reflexivity.
    + reflexivity.
  - do 5 eexists. split; [|split; [|split]].
    + vm_compute. find_event.
    + vm_compute. reflexivity.
    + reflexivity.
    + reflexivity.
Qed.

(** ** The partition key *)

(** C4 (as amended).  Built while the clock stays on one local calendar
    date, the key is [prefix/year=YYYY/month=MM/day=DD/filename] for that
    date, the date of the process's own time zone; so two builds with the
    same prefix, file name and local date give the same key. *)
Theorem partition_key_of_local_date :
  forall (W : World) (prefix filename : string) (s : state) (date : datetime),
    (forall i, i < 3 ->
       fromtimestamp (time_time W (clock_reads s + i)) (utc_offset W) = date) ->
    fst (partition_key W prefix filename s) = Ok (spec_partition_key prefix filename date) /\
    forall (W' : World) (s' : state),
      (forall i, i < 3 ->
         fromtimestamp (time_time W' (clock_reads s' + i)) (utc_offset W') = date) ->
      fst (partition_key W' prefix filename s') = fst (partition_key W prefix filename s).
Proof.
  assert (Hkey : forall (W : World) prefix filename s date,
             (forall i, i < 3 ->
                fromtimestamp (time_time W (clock_reads s + i)) (utc_offset W) = date) ->
             fst (partition_key W prefix filename s)
             = Ok (spec_partition_key prefix filename date)).
  { intros W prefix filename s date Hsame.
    unfold partition_key, bind, today, ret. cbn [fst snd clock_reads].
    pose proof (Hsame 0) as H0. pose proof (Hsame 1) as H1. pose proof (Hsame 2) as H2.
    rewrite Nat.add_0_r in H0.
    replace (clock_reads s + 1) with (S (clock_reads s)) in H1 by lia.
    replace (clock_reads s + 2) with (S (S (clock_reads s))) in H2 by lia.
    rewrite H0, H1, H2 by lia. reflexivity. }
  intros W prefix filename s date Hsame. split.
  - now apply Hkey.
  - intros W' s' Hsame'. now rewrite (Hkey W' _ _ s' date), (Hkey W _ _ s date).
Qed.

Lemma partition_key_of_local_date_witness :
  fst (partition_key Examples.ist_clock "us_fed_rates" "us_fed_rates.csv" initial)
  = Ok (spec_partition_key "us_fed_rates" "us_fed_rates.csv" (mkDate 2025 1 1)).
Proof.
  assert (Hsame : forall i, i < 3 ->
            fromtimestamp (time_time Examples.ist_clock (clock_reads initial + i))
                          (utc_offset Examples.ist_clock) = mkDate 2025 1 1).
  { intros i Hi. vm_compute. reflexivity. }
  exact (proj1 (partition_key_of_local_date Examples.ist_clock "us_fed_rates"
                  "us_fed_rates.csv" initial (mkDate 2025 1 1) Hsame)).
Defined.

(** C4 (as stated) fails: the date in the key is the local one.  At
    2024-12-31 20:00 UTC, a process in UTC+05:30 builds the key of
    2025-01-01, not that of the UTC date. *)
Lemma partition_key_not_utc :
  utcfromtimestamp (time_time Examples.ist_clock 0) = mkDate 2024 12 31 /\
  outcome (partition_key Examples.ist_clock "us_fed_rates" "us_fed_rates.csv")
  = Ok "us_fed_rates/year=2025/month=01/day=01/us_fed_rates.csv" /\
  outcome (partition_key Examples.ist_clock "us_fed_rates" "us_fed_rates.csv")
  <> Ok (spec_partition_key "us_fed_rates" "us_fed_rates.csv"
           (utcfromtimestamp (time_time Examples.ist_clock 0))).
Proof.
  split; [|split].
  - vm_compute. reflexivity.
  - vm_compute. reflexivity.
  - vm_compute. discriminate.
Qed.

(** ** The publisher on an empty frame *)

(** The guard of the interest-rate job: an empty frame is logged and
    nothing is written. *)
Lemma fed_s3_upload_empty W df (s : state) :
  empty df = true ->
  FedInterets.s3_upload W df s
  = (Ok tt,
     mkState (trace s ++ [EInvoke_s3_upload df;
                          ELog WARNING "No data to upload. DataFrame is empty."])
             (requests_made s) (clock_reads s)).
Proof.
  intro Hempty. unfold FedInterets.s3_upload. rewrite bind_emit.
  unfold try_except. rewrite Hempty. cbn. now rewrite <- app_assoc.
Qed.

(** The publishers of the other two jobs have no such guard: where the
    store accepts the write, an empty frame is written like any other. *)
Lemma macro_s3_upload_writes_any W df (s : state) :
  boto3_client W = None ->
  (forall bucket key body, upload_fileobj W bucket key body = None) ->
  exists key,
    fst (Macroeconomics.s3_upload W df s) = Ok tt /\
    storage_writes (trace (snd (Macroeconomics.s3_upload W df s)))
    = (storage_writes (trace s)
         ++ [EUploadFileobj (to_csv df) "nifty50-raw-layer" key "text/csv"])%list.
Proof.
  intros Hclient Hstore.
  unfold Macroeconomics.s3_upload, client, s3_upload_fileobj, partition_key, today,
    try_except, bind, log, emit, ret.
  cbn [fst snd trace requests_made clock_reads]. rewrite Hclient, Hstore.
  cbn [fst snd trace requests_made clock_reads ret].
  eexists. split; [reflexivity|].
  unfold storage_writes. rewrite !filter_app. cbn. rewrite !app_nil_r. reflexivity.
Qed.

(** C5 fails on the macro-indicator job.  One indicator answered with no
    data point for the country: the handler builds a frame without rows,
    enters [s3_upload] with it, and a header-only body is written; no
    warning is logged and the handler returns normally. *)
Theorem macro_publishes_empty_frame :
  let run := handler MacroIndicators Examples.macro_empty_values in
  let df := mkDF None ["indicator_name"; "year"; "value"] [] in
  outcome run = Ok RetNone /\
  empty df = true /\
  In (EInvoke_s3_upload df) (events run) /\
  storage_writes (events run)
  = [EUploadFileobj (to_csv df) "nifty50-raw-layer"
       "macroeconimics/year=2024/month=12/day=31/macroeconomic_metrics.csv" "text/csv"] /\
  warnings (events run) = [].
Proof.
  cbv zeta. repeat split; try (vm_compute; reflexivity).
  vm_compute. find_event.
Qed.

(** ** A batch without data *)





(** * Further properties of the three jobs *)

Import Observed.

(** ** Events appended by a run *)

Lemma new_events_app {A} (m : M A) (s : state) (evs : list event) :
  trace (snd (m s)) = (trace s ++ evs)%list -> new_events m s = evs.
Proof.
  intro H. unfold new_events. rewrite H.
  rewrite skipn_app, skipn_all, Nat.sub_diag. reflexivity.
Qed.

(** ** The publisher, step by step *)

Lemma partition_key_run W prefix filename (s : state) :
  partition_key W prefix filename s
  = (Ok (key_at W prefix filename (clock_reads s)),
     mkState (trace s) (requests_made s) (S (S (S (clock_reads s))))).
Proof. reflexivity. Qed.

(** The shared block: it raises what the client or the store raises, and
    writes once exactly when the client could be created. *)
Lemma upload_block_run W df prefix filename uploaded failed (s : state) :
  upload_block W df prefix filename uploaded failed s
  = let key := key_at W prefix filename (clock_reads s) in
    let w := EUploadFileobj (to_csv df) "nifty50-raw-layer" key "text/csv" in
    let start := [ELog INFO "Uploading data to S3"; EBoto3Client "s3"] in
    match boto3_client W with
    | Some e =>
        (Raise e,
         mkState (trace s ++ start ++ [ELog ERROR (failed e)])
                 (requests_made s) (clock_reads s))
    | None =>
        match upload_fileobj W "nifty50-raw-layer" key (to_csv df) with
        | Some e =>
            (Raise e,
             mkState (trace s ++ start ++ [w; ELog ERROR (failed e)])
                     (requests_made s) (S (S (S (clock_reads s)))))
        | None =>
            (Ok tt,
             mkState (trace s ++ start ++ [w; ELog INFO (uploaded key)])
                     (requests_made s) (S (S (S (clock_reads s)))))
        end
    end.
Proof.
  unfold upload_block, client, s3_upload_fileobj, partition_key, today, try_except,
    bind, log, emit, ret, raise.
  cbn [fst snd trace requests_made clock_reads].
  destruct (boto3_client W) as [e|]; cbn [fst snd trace requests_made clock_reads].
  - rewrite <- !app_assoc. reflexivity.
  - fold (local_date W (clock_reads s)) (local_date W (S (clock_reads s)))
         (local_date W (S (S (clock_reads s)))).
    fold (key_at W prefix filename (clock_reads s)).
    destruct (upload_fileobj W _ _ _) as [e|];
      cbn [fst snd trace requests_made clock_reads]; rewrite <- !app_assoc; reflexivity.
Qed.

Lemma fed_s3_upload_unfold W df :
  FedInterets.s3_upload W df
  = (emit (EInvoke_s3_upload df) ;;
     try_except
       (if empty df
        then log WARNING "No data to upload. DataFrame is empty."
        else
          log INFO "Uploading data to S3" ;;
          client W "s3" ;;
          s3_key <- partition_key W "us_fed_rates" "us_fed_rates.csv" ;;
          s3_upload_fileobj W (to_csv df) "nifty50-raw-layer" s3_key "text/csv" ;;
          log INFO ("Uploaded us_fed_rates.csv to S3 at " ++ s3_key))
       (fun e => log ERROR ("Error uploading to S3: " ++ str_exn e) ;; raise e)).
Proof. reflexivity. Qed.

Lemma macro_s3_upload_block W df :
  Macroeconomics.s3_upload W df
  = (emit (EInvoke_s3_upload df) ;;
     upload_block W df "macroeconimics" "macroeconomic_metrics.csv"
       (fun _ => "Uploaded macroeconomic_metrics.csv to S3")
       (fun e => "Error uploading macroeconomic_metrics.csv to S3 in s3_upload method with error --> "
                   ++ str_exn e)).
Proof. reflexivity. Qed.

Lemma stock_s3_upload_block W df :
  Nifty50.s3_upload W df
  = (emit (EInvoke_s3_upload df) ;;
     upload_block W df "stocks_data/history" "nifty50_stock_history_data.csv"
       (fun _ => "Uploaded nifty50_stock_history_data.csv to S3")
       (fun e => "Error uploading to S3 in s3_upload method with error --> " ++ str_exn e)).
Proof. reflexivity. Qed.

Lemma fed_s3_upload_block W df (s : state) :
  empty df = false ->
  FedInterets.s3_upload W df s
  = (emit (EInvoke_s3_upload df) ;;
     upload_block W df "us_fed_rates" "us_fed_rates.csv"
       (fun key => "Uploaded us_fed_rates.csv to S3 at " ++ key)
       (fun e => "Error uploading to S3: " ++ str_exn e)) s.
Proof.
  intro H. unfold FedInterets.s3_upload, upload_block, bind, try_except. rewrite H.
  reflexivity.
Qed.

(** ** The interest-rate handler, step by step *)

(** The first [try] block: one log line, one request, and an error line
    exactly when it raises an exception one of its clauses catches. *)
Lemma fed_fetch_run W url (s : state) :
  exists r logs,
    FedInterets.fetch W url s
    = (r, mkState (trace s ++ ELog INFO ("Fetching data from " ++ url)
                           :: ERequestsGet url (Some 10%Z) :: logs)
                  (S (requests_made s)) (clock_reads s))
    /\ Forall (fun e => exists msg, e = ELog ERROR msg) logs
    /\ (is_ok r = true -> logs = []).
Proof.
  unfold FedInterets.fetch, bind, try_except, log, emit, get, raise_for_status,
    response_json, lift, ret, raise.
  cbn [fst snd trace requests_made clock_reads].
  destruct (requests_get W (requests_made s) url) as [e|code body];
    cbn [fst snd trace requests_made clock_reads].
  - destruct (is_RequestException e); [|destruct (is_ValueError_or_TypeError e)];
      cbn [fst snd trace requests_made clock_reads]; rewrite <- ?app_assoc; cbn [app];
      do 2 eexists; (split; [reflexivity|]); split;
      try discriminate; repeat constructor; eauto.
  - destruct ((400 <=? code)%Z && (code <? 600)%Z);
      cbn [fst snd trace requests_made clock_reads];
      [|destruct body as [data|e]; cbn [fst snd trace requests_made clock_reads];
        [|destruct (is_RequestException e); [|destruct (is_ValueError_or_TypeError e)]]];
      cbn [fst snd trace requests_made clock_reads is_RequestException exn_cls];
      rewrite <- ?app_assoc; cbn [app];
      do 2 eexists; (split; [reflexivity|]); split;
      try discriminate; repeat constructor; eauto.
Qed.

(** The handler once both variables are set. *)
Lemma fed_handler_run W api_key url_template :
  environ W "API_KEY" = Some api_key ->
  environ W "URL" = Some url_template ->
  let url := replace url_template "{API_KEY}" api_key in
  let failed e := ELog ERROR ("Error processing data in lambda_handler: " ++ str_exn e) in
  exists r1 logs,
    Forall (fun e => exists msg, e = ELog ERROR msg) logs /\
    (is_ok r1 = true -> logs = []) /\
    let s1 := mkState (ELog INFO ("Fetching data from " ++ url)
                         :: ERequestsGet url (Some 10%Z) :: logs) 1 0 in
    FedInterets.fetch W url initial = (r1, s1) /\
    FedInterets.lambda_handler W initial
    = match r1 with
      | Raise e => (Raise e, s1)
      | Ok data =>
          match FedInterets.get_observations data with
          | Raise e => (Raise e, after s1 [failed e])
          | Ok observations =>
              if truthy observations then
                match FedInterets.DataFrame_of W observations with
                | Raise e => (Raise e, after s1 [failed e])
                | Ok df =>
                    match FedInterets.s3_upload W df
                            (after s1 [ELog INFO ("Fetched " ++ str_of_nat (len df)
                                                    ++ " records.")]) with
                    | (Ok _, s2) =>
                        (Ok RetNone,
                         after s2 [ELog INFO "Lambda execution completed successfully."])
                    | (Raise e, s2) => (Raise e, after s2 [failed e])
                    end
                end
              else
                (Ok RetNone,
                 after s1 [ELog WARNING "No observations found in API response."])
          end
      end.
Proof.
  intros Hkey Hurl url failed.
  destruct (fed_fetch_run W url initial) as [r1 [logs [Hrun [Hlogs Hok]]]].
  exists r1, logs. split; [exact Hlogs|]. split; [exact Hok|]. cbv zeta.
  split; [exact Hrun|].
  unfold FedInterets.lambda_handler, bind at 1 2 3, environ_get.
  rewrite Hkey, Hurl. cbn [ret]. fold url. rewrite Hrun.
  destruct r1 as [data|e]; [|reflexivity].
  unfold try_except, bind, log, emit, after.
  destruct (FedInterets.get_observations data) as [obs|e]; cbn [lift ret raise];
    [|reflexivity].
  destruct (truthy obs); cbn [negb]; [|reflexivity].
  destruct (FedInterets.DataFrame_of W obs) as [df|e]; cbn [lift ret raise];
    [|reflexivity].
  cbn [fst snd trace requests_made clock_reads].
  destruct (FedInterets.s3_upload W df _) as [[u|e] s2]; reflexivity.
Qed.

(** ** The other two handlers, step by step *)

Lemma emits_same (P : event -> Prop) {A} (m : M A) (s : state) (evs : list event) :
  emits P m -> trace (snd (m s)) = (trace s ++ evs)%list -> Forall P evs.
Proof.
  intros Hm Ht. destruct (Hm s) as [evs' [Ht' Hf]].
  rewrite Ht in Ht'. apply app_inv_head in Ht'. now subst.
Qed.

(** One unit of the macro job: one request, to the unit's URL, and nothing
    of the publisher. *)
Lemma fetch_indicator_calls W base_url country_code name id (s : state) :
  exists evs,
    Macroeconomics.fetch_indicator W base_url country_code name id s
    = (unit_result W base_url country_code (requests_made s) (name, id),
       mkState (trace s ++ evs) (S (requests_made s)) (clock_reads s))
    /\ requested_urls evs = [indicator_url W base_url country_code (name, id)]
    /\ fetch_calls evs
       = [ERequestsGet (indicator_url W base_url country_code (name, id)) (Some 10%Z)]
    /\ publishing evs = []
    /\ warnings evs = [].
Proof.
  unfold unit_result, indicator_url, Macroeconomics.fetch_indicator, bind, try_except,
    log, emit, get.
  cbn [fst snd trace requests_made clock_reads].
  destruct (requests_get W (requests_made s) _) as [e|code body].
  - destruct (is_RequestException e); [|destruct (is_ValueError_or_TypeError e)];
      cbn; rewrite <- ?app_assoc; cbn;
      eexists; (split; [reflexivity|]); repeat split.
  - unfold raise_for_status.
    destruct ((400 <=? code)%Z && (code <? 600)%Z);
      cbn; rewrite <- ?app_assoc; cbn.
    + eexists; (split; [reflexivity|]); repeat split.
    + destruct body as [data|e]; cbn.
      * destruct (Macroeconomics.extract W name id country_code data);
          cbn; rewrite <- ?app_assoc; cbn;
          eexists; (split; [reflexivity|]); repeat split.
      * destruct (is_RequestException e); [|destruct (is_ValueError_or_TypeError e)];
          cbn; rewrite <- ?app_assoc; cbn;
          eexists; (split; [reflexivity|]); repeat split.
Qed.

Lemma requested_urls_app (a b : list event) :
  requested_urls (a ++ b) = (requested_urls a ++ requested_urls b)%list.
Proof. apply flat_map_app. Qed.

Lemma warnings_app (a b : list event) :
  warnings (a ++ b) = (warnings a ++ warnings b)%list.
Proof. apply flat_map_app. Qed.

Lemma publishing_app (a b : list event) :
  publishing (a ++ b) = (publishing a ++ publishing b)%list.
Proof. apply filter_app. Qed.

Lemma fetch_calls_app (a b : list event) :
  fetch_calls (a ++ b) = (fetch_calls a ++ fetch_calls b)%list.
Proof. apply filter_app. Qed.

(** The loop of the macro job, whatever the world: it requests the
    indicators in the order of the mapping and stops after the first one
    that fails; when it ends normally it has requested them all and holds
    one frame per indicator. *)
Lemma for_indicators_calls W base_url country_code :
  forall pairs all_data s,
  exists r evs n,
    Macroeconomics.for_indicators W base_url country_code pairs all_data s
    = (r, mkState (trace s ++ evs) (requests_made s + n) (clock_reads s))
    /\ n <= List.length pairs
    /\ requested_urls evs
       = firstn n (map (indicator_url W base_url country_code) pairs)
    /\ fetch_calls evs
       = map (fun u => ERequestsGet u (Some 10%Z))
             (firstn n (map (indicator_url W base_url country_code) pairs))
    /\ publishing evs = []
    /\ warnings evs = []
    /\ (forall frames, r = Ok frames ->
          n = List.length pairs /\
          List.length frames = List.length all_data + List.length pairs)
    /\ (forall e, r = Raise e ->
          exists item, nth_error pairs (pred n) = Some item /\ 0 < n /\
            unit_result W base_url country_code (requests_made s + pred n) item = Raise e).
Proof.
  induction pairs as [|[name id] rest IH]; intros acc s.
  - exists (Ok acc), [], 0. cbn. rewrite app_nil_r, Nat.add_0_r. destruct s.
    split; [reflexivity|]. split; [lia|]. do 4 (split; [reflexivity|]). split.
    + intros frames H. injection H as <-. lia.
    + discriminate.
  - cbn [Macroeconomics.for_indicators]. unfold bind.
    destruct (fetch_indicator_calls W base_url country_code name id s)
      as [evs [Hrun [Hurls [Hcalls [Hpub Hwarn]]]]].
    rewrite Hrun.
    destruct (unit_result W base_url country_code (requests_made s) (name, id))
      as [df|e] eqn:Hres.
    + set (s1 := mkState (trace s ++ evs) (S (requests_made s)) (clock_reads s)).
      destruct (IH (acc ++ [df])%list s1)
        as [r [evs' [n [Hrun' [Hn [Hurls' [Hcalls' [Hpub' [Hwarn' [Hok Hraise]]]]]]]]]].
      rewrite Hrun'. exists r, (evs ++ evs')%list, (S n).
      cbn [s1 trace requests_made clock_reads].
      rewrite requested_urls_app, fetch_calls_app, publishing_app, warnings_app,
        Hurls, Hurls', Hcalls, Hcalls', Hpub, Hpub', Hwarn, Hwarn'.
      rewrite <- app_assoc. cbn [List.length map firstn app].
      split; [do 2 f_equal; lia|]. split; [lia|]. do 4 (split; [reflexivity|]). split.
      * intros frames Hr. destruct (Hok frames Hr) as [-> Hlen]. split; [reflexivity|].
        rewrite Hlen, length_app. cbn. lia.
      * intros e Hr. destruct (Hraise e Hr) as [item [Hnth [Hpos Hfail]]].
        exists item. destruct n as [|n']; [lia|].
        cbn [pred] in *. cbn [nth_error]. split; [exact Hnth|]. split; [lia|].
        cbn [s1 requests_made] in Hfail. rewrite <- Hfail. f_equal. lia.
    + exists (Raise e), evs, 1. rewrite Hurls, Hcalls, Hpub, Hwarn.
      cbn [List.length map firstn pred nth_error].
      split; [do 2 f_equal; lia|]. split; [lia|]. do 4 (split; [reflexivity|]). split.
      * discriminate.
      * intros e0 Hr. injection Hr as <-. exists (name, id).
        rewrite Nat.add_0_r. split; [reflexivity|]. split; [lia | exact Hres].
Qed.

(** The macro handler once the configuration is read. *)
Lemma macro_handler_run W country_code base_url pairs :
  macro_config W = Some (country_code, base_url, pairs) ->
  pairs <> [] ->
  Macroeconomics.lambda_handler W initial
  = match Macroeconomics.for_indicators W base_url country_code pairs []
            (mkState [ELog INFO "Lambda Execution Started"] 0 0) with
    | (Raise e, s1) => (Raise e, after s1 [macro_failed e])
    | (Ok all_data, s1) =>
        match all_data with
        | [] =>
            (Raise (mkExn ValueError "No data fetched for any indicator"),
             after s1 [ELog WARNING "No data fetched for any indicator";
                       macro_failed (mkExn ValueError "No data fetched for any indicator")])
        | _ :: _ =>
            match concat all_data true with
            | Raise e => (Raise e, after s1 [macro_failed e])
            | Ok combined_df =>
                match Macroeconomics.s3_upload W combined_df s1 with
                | (Ok _, s2) =>
                    (Ok RetNone,
                     after s2 [ELog INFO "Lambda Execution Completed"])
                | (Raise e, s2) => (Raise e, after s2 [macro_failed e])
                end
            end
        end
    end.
Proof.
  intros Hcfg Hne.
  destruct (macro_config_some _ _ _ _ Hcfg) as [text [Hcc [Hb [Ht Hj]]]].
  unfold Macroeconomics.lambda_handler, bind, try_except, environ_get, log, emit,
    after, macro_failed.
  cbn [initial trace requests_made clock_reads app].
  rewrite Hcc, Hb, Ht. cbn [ret]. rewrite Hj. cbn [lift ret].
  assert (Htruthy : truthy (JObj pairs) = true).
  { destruct pairs; [contradiction | reflexivity]. }
  rewrite Htruthy. cbn [negb ret Macroeconomics.items lift].
  destruct (Macroeconomics.for_indicators W base_url country_code pairs [] _)
    as [[all_data|e] s1]; [|reflexivity].
  destruct all_data as [|df l].
  - cbn. rewrite <- app_assoc. reflexivity.
  - destruct (concat (df :: l) true) as [combined|e]; cbn [lift ret raise];
      [|reflexivity].
    destruct (Macroeconomics.s3_upload W combined s1) as [[u|e] s2]; reflexivity.
Qed.

(** One task of the stock job calls yfinance at most four times, in a fixed
    order and always for the same symbol: Ticker, history, info, info; it
    stops at the first call that raises, and reads info a second time only
    when the first read was not empty. *)
Lemma fetch_stock_price_calls W task stock_name (s : state) :
  let symbol := symbol_of stock_name in
  exists evs n,
    Nifty50.fetch_stock_price W task stock_name s
    = (Ok (fetched W (task, stock_name)),
       mkState (trace s ++ evs) (requests_made s) (clock_reads s))
    /\ n < 4
    /\ fetch_calls evs
       = firstn (S n) [EYfTicker symbol;
                       EYfHistory symbol (start_date W) (end_date W) None;
                       EYfInfo symbol; EYfInfo symbol]
    /\ publishing evs = []
    /\ List.length (error_logs evs) <= 1.
Proof.
  unfold symbol_of, fetched, outcome, Nifty50.fetch_stock_price,
    Nifty50.fetch_stock_price_try, Nifty50.Ticker, Nifty50.history, Nifty50.info, bind,
    try_except, log, emit, lift, ret, raise.
  cbn [fst snd trace requests_made clock_reads initial app].
  repeat (case_split; cbn [fst snd trace requests_made clock_reads initial app]);
    try discriminate;
    rewrite <- ?app_assoc; cbn [app];
    eexists; first [ exists 0; split; [reflexivity|]; split; [lia|];
                     split; [reflexivity|]; split; [reflexivity | cbn; lia]
                   | exists 1; split; [reflexivity|]; split; [lia|];
                     split; [reflexivity|]; split; [reflexivity | cbn; lia]
                   | exists 2; split; [reflexivity|]; split; [lia|];
                     split; [reflexivity|]; split; [reflexivity | cbn; lia]
                   | exists 3; split; [reflexivity|]; split; [lia|];
                     split; [reflexivity|]; split; [reflexivity | cbn; lia] ].
Qed.

Lemma tickers_fetch_calls (t : list event) : tickers (fetch_calls t) = tickers t.
Proof.
  unfold tickers, fetch_calls.
  induction t as [|e t IH]; [reflexivity|].
  destruct e; cbn; rewrite ?IH; reflexivity.
Qed.

Lemma tickers_app (a b : list event) : tickers (a ++ b) = (tickers a ++ tickers b)%list.
Proof. apply flat_map_app. Qed.

(** The collection loop: one [Ticker] per completed task, in completion
    order, and nothing of the publisher. *)
Lemma collect_calls W :
  forall completed main_df_list s,
  exists evs,
    Nifty50.collect W completed main_df_list s
    = (Ok (main_df_list ++ nonempty_frames (map (fetched W) completed))%list,
       mkState (trace s ++ evs) (requests_made s) (clock_reads s))
    /\ tickers evs = map (fun task => symbol_of (snd task)) completed
    /\ publishing evs = []
    /\ requested_urls evs = []
    /\ List.length (fetch_calls evs) <= 4 * List.length completed
    /\ List.length (error_logs evs) <= List.length completed.
Proof.
  induction completed as [|[task stock] rest IH]; intros acc s.
  - exists []. cbn. rewrite !app_nil_r. destruct s. repeat split; auto.
  - cbn [Nifty50.collect map nonempty_frames filter]. unfold bind.
    destruct (fetch_stock_price_calls W task stock s)
      as [evs [n [Hrun [Hn [Hcalls [Hpub Herr]]]]]].
    rewrite Hrun. fold (nonempty_frames (map (fetched W) rest)).
    set (s1 := mkState (trace s ++ evs) (requests_made s) (clock_reads s)).
    assert (Htick : tickers evs = [symbol_of stock]).
    { rewrite <- tickers_fetch_calls, Hcalls.
      destruct n as [|[|[|[|]]]]; try lia; reflexivity. }
    assert (Hurls : requested_urls evs = []).
    { assert (H : requested_urls (fetch_calls evs) = []).
      { rewrite Hcalls. destruct n as [|[|[|[|]]]]; try lia; reflexivity. }
      clear - H. induction evs as [|e t IH]; [reflexivity|].
      destruct e; cbn in *; try discriminate; auto. }
    assert (Hlen : List.length (fetch_calls evs) <= 4).
    { rewrite Hcalls, length_firstn. cbn. lia. }
    assert (Hstep : forall acc',
      exists evs0,
        Nifty50.collect W rest acc' s1
        = (Ok (acc' ++ nonempty_frames (map (fetched W) rest))%list,
           mkState (trace s ++ evs0) (requests_made s) (clock_reads s))
        /\ tickers evs0 = symbol_of stock :: map (fun task => symbol_of (snd task)) rest
        /\ publishing evs0 = []
        /\ requested_urls evs0 = []
        /\ List.length (fetch_calls evs0) <= 4 * S (List.length rest)
        /\ List.length (error_logs evs0) <= S (List.length rest)).
    { intro acc'.
      destruct (IH acc' s1) as [evs' [Hrun' [Htick' [Hpub' [Hurls' [Hlen' Herr']]]]]].
      exists (evs ++ evs')%list. rewrite Hrun'. cbn [s1 trace requests_made clock_reads].
      rewrite <- app_assoc, tickers_app, publishing_app, requested_urls_app,
        fetch_calls_app, Htick, Htick', Hpub, Hpub', Hurls, Hurls', length_app.
      unfold error_logs in *. rewrite flat_map_app, length_app.
      repeat split; auto; lia. }
    cbn [List.length].
    destruct (negb (empty (fetched W (task, stock)))).
    + destruct (Hstep (acc ++ [fetched W (task, stock)])%list) as [evs0 [Hrun0 Hrest]].
      exists evs0. rewrite Hrun0, <- app_assoc. split; [reflexivity | exact Hrest].
    + destruct (Hstep acc) as [evs0 [Hrun0 Hrest]].
      exists evs0. rewrite Hrun0. split; [reflexivity | exact Hrest].
Qed.

(** The stock handler once the list of symbols is read. *)
Lemma stock_handler_run W symbols :
  stock_names_file W = Ok symbols ->
  let completed := as_completed W (Nifty50.submit_all symbols) in
  exists evs,
    tickers evs = map (fun task => symbol_of (snd task)) completed /\
    publishing evs = [] /\
    requested_urls evs = [] /\
    List.length (fetch_calls evs) <= 4 * List.length completed /\
    List.length (error_logs evs) <= List.length completed /\
    let s1 := mkState (ELog INFO "Lambda execution  started" :: evs) 0 0 in
    Nifty50.lambda_handler W initial
    = match nonempty_frames (map (fetched W) completed) with
      | [] => (Ok (RetDict [("message", "No data retrieved")]), s1)
      | df :: l =>
          match concat (df :: l) false with
          | Raise e => (Raise e, after s1 [stock_failed e])
          | Ok merged =>
              match reset_index merged with
              | Raise e => (Raise e, after s1 [stock_failed e])
              | Ok reset =>
                  match Nifty50.s3_upload W
                          (set_columns reset (map normalize_label (columns reset))) s1 with
                  | (Ok _, s2) => (Ok RetNone, s2)
                  | (Raise e, s2) => (Raise e, after s2 [stock_failed e])
                  end
              end
          end
      end.
Proof.
  intros Hfile completed.
  set (s0 := mkState [ELog INFO "Lambda execution  started"] 0 0).
  destruct (collect_calls W completed [] s0)
    as [evs [Hrun [Htick [Hpub [Hurls [Hlen Herr]]]]]].
  exists evs. do 5 (split; [assumption|]). cbv zeta.
  unfold Nifty50.lambda_handler, bind, try_except, log, emit, after, stock_failed.
  cbn [initial trace requests_made clock_reads app]. rewrite Hfile. cbn [lift ret].
  fold s0. fold completed. rewrite Hrun. cbn [app s0 trace requests_made clock_reads].
  destruct (nonempty_frames (map (fetched W) completed)) as [|df l]; [reflexivity|].
  destruct (concat (df :: l) false) as [merged|e]; cbn [lift ret raise]; [|reflexivity].
  destruct (reset_index merged) as [reset|e]; cbn [lift ret raise]; [|reflexivity].
  destruct (Nifty50.s3_upload W _ _) as [[u|e] s2]; reflexivity.
Qed.

(** ** Entering a publisher *)

Lemma upload_block_outcome (j : job) W df uploaded failed (s : state) :
  (j = InterestRates -> empty df = false) ->
  exists post r cr,
    upload_block W df (job_prefix j) (job_filename j) uploaded failed s
    = (r, mkState (trace s ++ post) (requests_made s) cr)
    /\ publisher_outcome j W df (clock_reads s) post r.
Proof.
  intro Hguard. rewrite upload_block_run. cbv zeta.
  destruct (boto3_client W) as [e|] eqn:Hclient.
  - do 3 eexists. split; [reflexivity|]. split; [reflexivity|].
    right. left. exists e. repeat split; auto.
  - destruct (upload_fileobj W _ _ _) as [e|] eqn:Hstore.
    + do 3 eexists. split; [reflexivity|]. split; [reflexivity|].
      right. right. unfold job_write. rewrite Hstore. repeat split; auto.
    + do 3 eexists. split; [reflexivity|]. split; [reflexivity|].
      right. right. unfold job_write. rewrite Hstore. repeat split; auto.
Qed.

(** Every publisher starts by being entered; what follows is one of the
    three outcomes. *)
Lemma publisher_run (j : job) W df (s : state) :
  exists post r cr,
    publisher j W df s
    = (r, mkState (trace s ++ EInvoke_s3_upload df :: post) (requests_made s) cr)
    /\ publisher_outcome j W df (clock_reads s) post r.
Proof.
  assert (Hgen : forall uploaded failed,
             (j = InterestRates -> empty df = false) ->
             exists post r cr,
               (emit (EInvoke_s3_upload df) ;;
                upload_block W df (job_prefix j) (job_filename j) uploaded failed) s
               = (r, mkState (trace s ++ EInvoke_s3_upload df :: post)
                             (requests_made s) cr)
               /\ publisher_outcome j W df (clock_reads s) post r).
  { intros uploaded failed Hguard. rewrite bind_emit.
    set (s1 := mkState (trace s ++ [EInvoke_s3_upload df]) (requests_made s)
                       (clock_reads s)).
    destruct (upload_block_outcome j W df uploaded failed s1 Hguard)
      as [post [r [cr [Hrun Hout]]]].
    exists post, r, cr. rewrite Hrun. cbn [s1 trace requests_made clock_reads] in *.
    rewrite <- app_assoc. split; [reflexivity | exact Hout]. }
  destruct j; cbn [publisher].
  - destruct (empty df) eqn:Hempty.
    + rewrite (fed_s3_upload_empty W df s Hempty).
      exists [ELog WARNING "No data to upload. DataFrame is empty."], (Ok tt), (clock_reads s).
      split; [reflexivity|]. split; [reflexivity|]. left. repeat split; auto.
    + rewrite (fed_s3_upload_block W df s Hempty). apply Hgen. auto.
  - rewrite macro_s3_upload_block. apply Hgen. discriminate.
  - rewrite stock_s3_upload_block. apply Hgen. discriminate.
Qed.

Lemma publishing_error_logs (logs : list event) :
  Forall (fun e => exists msg, e = ELog ERROR msg) logs ->
  publishing logs = [] /\ fetch_calls logs = [] /\ warnings logs = []
  /\ requested_urls logs = [].
Proof.
  induction 1 as [|e l [msg ->] _ [IH1 [IH2 [IH3 IH4]]]]; [repeat split|].
  cbn. auto.
Qed.

(** A publisher outcome is not changed by a log line after it. *)
Lemma publisher_outcome_log j W df n post r lvl msg :
  lvl <> WARNING ->
  publisher_outcome j W df n post r ->
  publisher_outcome j W df n (post ++ [ELog lvl msg]) r.
Proof.
  intro Hlvl. unfold publisher_outcome.
  rewrite fetch_calls_app, publishing_app, warnings_app.
  replace (warnings [ELog lvl msg]) with (@nil string)
    by (destruct lvl; [reflexivity | contradiction | reflexivity]).
  cbn [fetch_calls publishing filter is_fetch_call is_publishing].
  rewrite !app_nil_r. auto.
Qed.

(** The macro handler when the configuration gives no indicator: it raises
    before any request, after the first log line. *)
Lemma macro_bad_config W :
  macro_units W = [] ->
  exists e,
    Macroeconomics.lambda_handler W initial
    = (Raise e, mkState [ELog INFO "Lambda Execution Started"; macro_failed e] 0 0).
Proof.
  unfold macro_units, macro_config, macro_failed.
  unfold Macroeconomics.lambda_handler, bind, try_except, environ_get, log, emit.
  cbn [initial trace requests_made clock_reads app].
  destruct (environ W "COUNTRY_CODE") as [cc|]; [|intros _; eexists; reflexivity].
  destruct (environ W "BASE_URL") as [base|]; [|intros _; eexists; reflexivity].
  destruct (environ W "INDICATORS") as [text|]; [|intros _; eexists; reflexivity].
  cbn [ret]. destruct (json_loads W text) as [[a|l|kv]|e]; cbn [lift ret raise].
  - intros _. destruct (truthy (JAtom a)); eexists; reflexivity.
  - intros _. destruct (truthy (JArr l)); eexists; reflexivity.
  - destruct kv as [|p rest]; [intros _; eexists; reflexivity|].
    cbn. discriminate.
  - intros _. eexists; reflexivity.
Qed.

(** ** Every handler: fetch first, then at most one entry of the publisher *)

Lemma handler_publishing (j : job) (W : World) :
  exists pre,
    publishing pre = [] /\
    (events (handler j W) = pre \/
     exists df post r,
       events (handler j W) = (pre ++ EInvoke_s3_upload df :: post)%list /\
       publisher_outcome j W df 0 post r /\
       outcome (handler j W)
       = match r with Ok _ => Ok RetNone | Raise e => Raise e end).
Proof.
  unfold events, outcome. destruct j; cbn [handler].
  - (* interest rates *)
    destruct (environ W "API_KEY") as [api_key|] eqn:Hkey.
    2:{ exists []. split; [reflexivity|]. left.
        unfold FedInterets.lambda_handler, bind, environ_get. now rewrite Hkey. }
    destruct (environ W "URL") as [url_template|] eqn:Hurl.
    2:{ exists []. split; [reflexivity|]. left.
        unfold FedInterets.lambda_handler, bind, environ_get. now rewrite Hkey, Hurl. }
    destruct (fed_handler_run W api_key url_template Hkey Hurl)
      as [r1 [logs [Hlogs [_ [_ Hrun]]]]].
    cbv zeta in Hrun. rewrite Hrun. clear Hrun.
    destruct (publishing_error_logs logs Hlogs) as [Hpub _].
    set (s1 := mkState _ 1 0).
    assert (Hs1 : publishing (trace s1) = []) by exact Hpub.
    destruct r1 as [data|e]; [|exists (trace s1); auto].
    destruct (FedInterets.get_observations data) as [obs|e].
    2:{ eexists. split; [|left; reflexivity]. cbn [snd after trace].
        now rewrite publishing_app, Hs1. }
    destruct (truthy obs).
    2:{ eexists. split; [|left; reflexivity]. cbn [snd after trace].
        now rewrite publishing_app, Hs1. }
    destruct (FedInterets.DataFrame_of W obs) as [df|e].
    2:{ eexists. split; [|left; reflexivity]. cbn [snd after trace].
        now rewrite publishing_app, Hs1. }
    set (s1' := after s1 _).
    destruct (publisher_run InterestRates W df s1') as [post [r [cr [Hrun Hout]]]].
    cbn [publisher] in Hrun. rewrite Hrun.
    exists (trace s1'). split; [cbn [s1' after trace]; now rewrite publishing_app, Hs1|].
    right. destruct r as [u|e].
    + exists df, (post ++ [ELog INFO "Lambda execution completed successfully."])%list,
        (Ok u).
      cbn [fst snd after trace]. rewrite <- app_assoc. split; [reflexivity|].
      split; [|reflexivity]. apply publisher_outcome_log; [discriminate | assumption].
    + eexists df, (post ++ [_])%list, (Raise e).
      cbn [fst snd after trace]. rewrite <- app_assoc. split; [reflexivity|].
      split; [|reflexivity]. apply publisher_outcome_log; [discriminate | assumption].
  - (* macro indicators *)
    destruct (macro_units W) as [|u0 us] eqn:Hunits.
    { destruct (macro_bad_config W Hunits) as [e Hrun]. rewrite Hrun.
      eexists. split; [|left; reflexivity]. reflexivity. }
    unfold macro_units in Hunits.
    destruct (macro_config W) as [[[cc base] pairs]|] eqn:Hcfg; [|discriminate Hunits].
    assert (Hne : pairs <> []) by (intros ->; discriminate Hunits).
    rewrite (macro_handler_run W cc base pairs Hcfg Hne).
    set (s0 := mkState [ELog INFO "Lambda Execution Started"] 0 0).
    destruct (for_indicators_calls W base cc pairs [] s0)
      as [r [evs [n [Hrun [Hn [_ [_ [Hpub [_ [Hok _]]]]]]]]]].
    rewrite Hrun.
    set (s1 := mkState (trace s0 ++ evs) (requests_made s0 + n) (clock_reads s0)).
    assert (Hs1 : publishing (trace s1) = []) by exact Hpub.
    destruct r as [all_data|e].
    2:{ eexists. split; [|left; reflexivity]. cbn [snd after trace].
        now rewrite publishing_app, Hs1. }
    destruct all_data as [|df l].
    { eexists. split; [|left; reflexivity]. cbn [snd after trace].
      now rewrite publishing_app, Hs1. }
    destruct (concat (df :: l) true) as [combined|e].
    2:{ eexists. split; [|left; reflexivity]. cbn [snd after trace].
        now rewrite publishing_app, Hs1. }
    destruct (publisher_run MacroIndicators W combined s1) as [post [r [cr [Hrun' Hout]]]].
    cbn [publisher] in Hrun'. rewrite Hrun'.
    exists (trace s1). split; [exact Hs1|].
    right. destruct r as [u|e].
    + exists combined, (post ++ [ELog INFO "Lambda Execution Completed"])%list, (Ok u).
      cbn [fst snd after trace]. rewrite <- app_assoc. split; [reflexivity|].
      split; [|reflexivity]. apply publisher_outcome_log; [discriminate | assumption].
    + exists combined, (post ++ [macro_failed e])%list, (Raise e).
      cbn [fst snd after trace]. rewrite <- app_assoc. split; [reflexivity|].
      split; [|reflexivity]. apply publisher_outcome_log; [discriminate | assumption].
  - (* stock history *)
    destruct (stock_names_file W) as [symbols|e] eqn:Hfile.
    2:{ unfold Nifty50.lambda_handler, bind, try_except, log, emit.
        cbn [initial trace requests_made clock_reads app]. rewrite Hfile.
        eexists. split; [|left; reflexivity]. reflexivity. }
    destruct (stock_handler_run W symbols Hfile) as [evs [_ [Hpub [_ [_ [_ Hrun]]]]]].
    cbv zeta in Hrun. rewrite Hrun. clear Hrun.
    set (s1 := mkState (ELog INFO "Lambda execution  started" :: evs) 0 0).
    assert (Hs1 : publishing (trace s1) = []) by exact Hpub.
    destruct (nonempty_frames _) as [|df l]; [exists (trace s1); auto|].
    destruct (concat (df :: l) false) as [merged|e].
    2:{ eexists. split; [|left; reflexivity]. cbn [snd after trace].
        now rewrite publishing_app, Hs1. }
    destruct (reset_index merged) as [reset|e].
    2:{ eexists. split; [|left; reflexivity]. cbn [snd after trace].
        now rewrite publishing_app, Hs1. }
    set (main_df := set_columns reset _).
    destruct (publisher_run StockHistory W main_df s1) as [post [r [cr [Hrun' Hout]]]].
    cbn [publisher] in Hrun'. rewrite Hrun'.
    exists (trace s1). split; [exact Hs1|].
    right. destruct r as [u|e].
    + exists main_df, post, (Ok u). auto.
    + exists main_df, (post ++ [stock_failed e])%list, (Raise e).
      cbn [fst snd after trace]. rewrite <- app_assoc. split; [reflexivity|].
      split; [|reflexivity]. apply publisher_outcome_log; [discriminate | assumption].
Qed.

Lemma storage_writes_publishing (t : list event) :
  storage_writes (publishing t) = storage_writes t.
Proof.
  unfold storage_writes, publishing.
  induction t as [|e t IH]; [reflexivity|].
  destruct e; cbn; rewrite ?IH; reflexivity.
Qed.

Lemma storage_writes_app2 (a b : list event) :
  storage_writes (a ++ b) = (storage_writes a ++ storage_writes b)%list.
Proof. apply filter_app. Qed.

Lemma storage_writes_none (t : list event) : publishing t = [] -> storage_writes t = [].
Proof. intro H. now rewrite <- storage_writes_publishing, H. Qed.

Lemma in_publishing (e : event) (t : list event) :
  is_publishing e = true -> In e t -> In e (publishing t).
Proof. intros He Hin. apply filter_In. auto. Qed.

Lemma nonempty_body (df : DataFrame) :
  empty df = false -> header (to_csv df) <> [] /\ records (to_csv df) <> [].
Proof.
  unfold empty, len, to_csv. cbn [header records].
  destruct (columns df), (rows df); cbn; try discriminate. intros _. split; discriminate.
Qed.

(** ** One write at most *)

(** X1.  Whatever the world, a handler writes to the store at most once per
    invocation.  The write is the CSV body of the very frame [s3_upload] was
    entered with, goes to the bucket nifty50-raw-layer with content type
    text/csv, under the job's own prefix and file name and the date read
    from the first three readings of the clock; in the interest-rate job
    that body always has a header and at least one record. *)
Theorem at_most_one_write :
  forall (j : job) (W : World),
    storage_writes (events (handler j W)) = [] \/
    exists df,
      storage_writes (events (handler j W))
      = [EUploadFileobj (to_csv df) "nifty50-raw-layer"
           (key_at W (job_prefix j) (job_filename j) 0) "text/csv"] /\
      In (EInvoke_s3_upload df) (events (handler j W)) /\
      (j = InterestRates -> header (to_csv df) <> [] /\ records (to_csv df) <> []).
Proof.
  intros j W.
  destruct (handler_publishing j W) as [pre [Hpre [Hev|[df [post [r [Hev [Hout _]]]]]]]].
  - left. rewrite Hev. now apply storage_writes_none.
  - rewrite Hev, storage_writes_app2, (storage_writes_none pre Hpre).
    cbn [app storage_writes filter is_storage_write].
    fold (storage_writes post). rewrite <- storage_writes_publishing.
    destruct Hout as [_ [[_ [_ [Hpub _]]]|[[e [_ [Hpub _]]]|[_ [Hpub [_ [_ Hguard]]]]]]];
      rewrite Hpub.
    + left. reflexivity.
    + left. reflexivity.
    + right. exists df. split; [reflexivity|]. split.
      * apply in_or_app. right. left. reflexivity.
      * intro Hj. apply nonempty_body. auto.
Qed.

(** ** A refused publication is raised *)

(** X2.  When a handler has made its write, what it returns is decided by
    the store alone: [None] if the write was accepted, and otherwise the
    very exception the store raised.  When the client cannot be created,
    the handler raises that exception and writes nothing. *)
Theorem publication_failure_is_raised :
  forall (j : job) (W : World),
    (forall body bucket key ct,
        In (EUploadFileobj body bucket key ct) (events (handler j W)) ->
        outcome (handler j W)
        = match upload_fileobj W bucket key body with
          | Some e => Raise e
          | None => Ok RetNone
          end) /\
    (forall e service,
        boto3_client W = Some e ->
        In (EBoto3Client service) (events (handler j W)) ->
        outcome (handler j W) = Raise e /\ storage_writes (events (handler j W)) = []).
Proof.
  intros j W.
  destruct (handler_publishing j W) as [pre [Hpre [Hev|[df [post [r [Hev [Hout Hres]]]]]]]].
  - split.
    + intros body bucket key ct Hin. rewrite Hev in Hin.
      apply (in_publishing (EUploadFileobj body bucket key ct) _ eq_refl) in Hin. rewrite Hpre in Hin. destruct Hin.
    + intros e service _ Hin. rewrite Hev in Hin.
      apply (in_publishing (EBoto3Client service) _ eq_refl) in Hin. rewrite Hpre in Hin. destruct Hin.
  - assert (Hpubs : publishing (events (handler j W))
                    = EInvoke_s3_upload df :: publishing post).
    { rewrite Hev, publishing_app, Hpre. reflexivity. }
    split.
    + intros body bucket key ct Hin.
      apply (in_publishing (EUploadFileobj body bucket key ct) _ eq_refl) in Hin. rewrite Hpubs in Hin.
      destruct Hin as [Hin|Hin]; [discriminate Hin|].
      destruct Hout as [_ [[_ [_ [Hpub _]]]|[[e [_ [Hpub _]]]|[_ [Hpub [_ [Hr _]]]]]]];
        rewrite Hpub in Hin.
      * destruct Hin.
      * destruct Hin as [Hin|[]]; discriminate Hin.
      * destruct Hin as [Hin|[Hin|[]]]; [discriminate Hin|].
        unfold job_write in Hin. injection Hin as <- <- <- <-.
        rewrite Hres, Hr. now destruct (upload_fileobj W _ _ _).
    + intros e service Hclient Hin.
      apply (in_publishing (EBoto3Client service) _ eq_refl) in Hin. rewrite Hpubs in Hin.
      destruct Hin as [Hin|Hin]; [discriminate Hin|].
      destruct Hout as [_ [[_ [_ [Hpub _]]]|[[e' [He' [Hpub [Hr _]]]]|[Hnone _]]]].
      * rewrite Hpub in Hin. destruct Hin.
      * rewrite Hclient in He'. injection He' as <-. rewrite Hres, Hr.
        split; [reflexivity|].
        rewrite Hev, storage_writes_app2, (storage_writes_none pre Hpre).
        cbn [app storage_writes filter is_storage_write].
        fold (storage_writes post). now rewrite <- storage_writes_publishing, Hpub.
      * rewrite Hclient in Hnone. discriminate Hnone.
Qed.

Lemma publication_failure_is_raised_witness :
  In (EUploadFileobj
        (to_csv (set_columns Examples.a_b_reset
                   (map normalize_label (columns Examples.a_b_reset))))
        "nifty50-raw-layer"
        "stocks_data/history/year=2024/month=12/day=31/nifty50_stock_history_data.csv"
        "text/csv")
     (events (handler StockHistory Scenarios.stock_store_refuses))
  /\ outcome (handler StockHistory Scenarios.stock_store_refuses)
     = Raise Scenarios.access_denied.
Proof.
  assert (Hin : In (EUploadFileobj
                      (to_csv (set_columns Examples.a_b_reset
                                 (map normalize_label (columns Examples.a_b_reset))))
                      "nifty50-raw-layer"
                      "stocks_data/history/year=2024/month=12/day=31/nifty50_stock_history_data.csv"
                      "text/csv")
                   (events (handler StockHistory Scenarios.stock_store_refuses))).
  { vm_compute. find_event. }
  split; [exact Hin|].
  exact (proj1 (publication_failure_is_raised StockHistory Scenarios.stock_store_refuses)
           _ _ _ _ Hin).
Defined.

(** ** Fetching comes first *)

(** X3.  Every run of every handler splits in two: a first part without
    any event of the publisher, and a second part without any call to a data
    provider.  So [s3_upload] is entered only once all fetching is over, and
    nothing is fetched once it is entered. *)
Theorem fetch_then_publish :
  forall (j : job) (W : World),
  exists before after_,
    events (handler j W) = (before ++ after_)%list /\
    publishing before = [] /\
    fetch_calls after_ = [] /\
    List.length (filter is_invocation after_) <= 1.
Proof.
  intros j W.
  destruct (handler_publishing j W) as [pre [Hpre [Hev|[df [post [r [Hev [Hout _]]]]]]]].
  - exists pre, []. rewrite app_nil_r. cbn. auto.
  - exists pre, (EInvoke_s3_upload df :: post). split; [exact Hev|]. split; [exact Hpre|].
    destruct Hout as [Hfetch Hcases]. split; [exact Hfetch|].
    cbn [filter is_invocation List.length].
    assert (Hinv : filter is_invocation post = []).
    { assert (H : filter is_invocation (publishing post) = []).
      { destruct Hcases as [[_ [_ [Hpub _]]]|[[e [_ [Hpub _]]]|[_ [Hpub _]]]];
          rewrite Hpub; reflexivity. }
      clear - H. unfold publishing in H.
      induction post as [|e t IH]; [reflexivity|].
      destruct e; cbn in *; try discriminate; auto. }
    rewrite Hinv. cbn. lia.
Qed.

(** ** The stock batch as a whole *)

Lemma fetch_calls_none_tickers (t : list event) : fetch_calls t = [] -> tickers t = [].
Proof. intro H. now rewrite <- tickers_fetch_calls, H. Qed.

Lemma symbols_of_submitted (symbols : list string) :
  map (fun task : nat * string => symbol_of (snd task)) (Nifty50.submit_all symbols)
  = map symbol_of symbols.
Proof.
  unfold Nifty50.submit_all. rewrite <- (map_map snd symbol_of).
  rewrite map_snd_combine; [reflexivity | apply length_seq].
Qed.

(** The events of the stock handler after the collection loop carry no
    [Ticker]. *)
Lemma stock_handler_tickers W symbols :
  stock_names_file W = Ok symbols ->
  tickers (events (Nifty50.lambda_handler W))
  = map (fun task => symbol_of (snd task)) (as_completed W (Nifty50.submit_all symbols)).
Proof.
  intro Hfile.
  destruct (stock_handler_run W symbols Hfile) as [evs [Htick [_ [_ [_ [_ Hrun]]]]]].
  cbv zeta in Hrun. unfold events. rewrite Hrun. clear Hrun.
  set (s1 := mkState (ELog INFO "Lambda execution  started" :: evs) 0 0).
  assert (Hs1 : tickers (trace s1) = tickers evs) by reflexivity.
  rewrite <- Htick, <- Hs1.
  destruct (nonempty_frames _) as [|df l]; [reflexivity|].
  destruct (concat (df :: l) false) as [merged|e];
    [|cbn [snd after trace]; rewrite tickers_app; cbn; now rewrite app_nil_r].
  destruct (reset_index merged) as [reset|e];
    [|cbn [snd after trace]; rewrite tickers_app; cbn; now rewrite app_nil_r].
  set (main_df := set_columns reset _).
  destruct (publisher_run StockHistory W main_df s1) as [post [r [cr [Hrun [Hfetch _]]]]].
  cbn [publisher] in Hrun. rewrite Hrun.
  assert (Hpost : tickers (trace s1 ++ EInvoke_s3_upload main_df :: post) = tickers (trace s1)).
  { rewrite tickers_app. cbn [tickers flat_map app].
    fold (tickers post). rewrite (fetch_calls_none_tickers post Hfetch).
    now rewrite app_nil_r. }
  destruct r as [u|e]; cbn [snd after trace].
  - exact Hpost.
  - rewrite tickers_app, Hpost. cbn. now rewrite app_nil_r.
Qed.

(** X4.  In the stock-history job, with a scheduler that hands back every
    task once, a [Ticker] is made exactly once for each symbol of the list,
    for the symbol upper-cased and suffixed with ".NS", whatever the other
    fetches do. *)
Theorem every_symbol_fetched_once :
  forall (W : World) (symbols : list string),
    fair_schedule W ->
    stock_names_file W = Ok symbols ->
    Permutation (tickers (events (handler StockHistory W)))
                (map (fun stock_name => upper stock_name ++ ".NS") symbols).
Proof.
  intros W symbols Hfair Hfile. cbn [handler].
  rewrite (stock_handler_tickers W symbols Hfile).
  change (map (fun stock_name => upper stock_name ++ ".NS") symbols)
    with (map symbol_of symbols).
  rewrite <- (symbols_of_submitted symbols).
  apply Permutation_map, Hfair.
Qed.

Lemma every_symbol_fetched_once_witness :
  Permutation
    (tickers (events (handler StockHistory Examples.stock_a_fails_b_two_rows)))
    ["A.NS"; "B.NS"].
Proof.
  apply (every_symbol_fetched_once Examples.stock_a_fails_b_two_rows ["A"; "B"]).
  - intro tasks. apply Permutation_sym, Permutation_rev.
  - reflexivity.
Defined.

(** X5.  The stock handler is not brought down by its fetches.  Once the
    list of symbols is read, it raises only what the aggregation raises
    ([pd.concat] or [reset_index]) or what the publication raises (the
    client or the store); no exception of a fetch reaches its caller. *)
Theorem stock_handler_raises_only_after_fetching :
  forall (W : World) (symbols : list string) (e : exn),
    stock_names_file W = Ok symbols ->
    outcome (handler StockHistory W) = Raise e ->
    let frames :=
      nonempty_frames (map (fetched W) (as_completed W (Nifty50.submit_all symbols))) in
    frames <> [] /\
    (concat frames false = Raise e \/
     (exists merged, concat frames false = Ok merged /\ reset_index merged = Raise e) \/
     boto3_client W = Some e \/
     (exists body key, upload_fileobj W "nifty50-raw-layer" key body = Some e)).
Proof.
  intros W symbols e Hfile Hraise frames.
  destruct (stock_handler_run W symbols Hfile) as [evs [_ [_ [_ [_ [_ Hrun]]]]]].
  cbv zeta in Hrun. unfold outcome in Hraise. cbn [handler] in Hraise.
  rewrite Hrun in Hraise. clear Hrun. fold frames in Hraise.
  destruct frames as [|df l]; [discriminate Hraise|].
  split; [discriminate|].
  destruct (concat (df :: l) false) as [merged|e0].
  2:{ left. cbn in Hraise. now injection Hraise as ->. }
  destruct (reset_index merged) as [reset|e0] eqn:Hreset.
  2:{ right. left. exists merged. cbn in Hraise. injection Hraise as ->. auto. }
  set (main_df := set_columns reset _) in Hraise.
  set (s1 := mkState _ 0 0) in Hraise.
  destruct (publisher_run StockHistory W main_df s1) as [post [r [cr [Hrun [_ Hcases]]]]].
  cbn [publisher] in Hrun. rewrite Hrun in Hraise.
  destruct r as [u|e0]; [discriminate Hraise|].
  cbn in Hraise. injection Hraise as ->.
  destruct Hcases as [[Hj _]|[[e' [He' [_ [Hr _]]]]|[_ [_ [_ [Hr _]]]]]].
  - discriminate Hj.
  - injection Hr as ->. right. right. left. exact He'.
  - right. right. right. exists (to_csv main_df), (key_at W "stocks_data/history"
      "nifty50_stock_history_data.csv" 0).
    cbn [job_prefix job_filename s1 clock_reads] in Hr.
    destruct (upload_fileobj W _ _ _) as [e'|]; [|discriminate Hr].
    now injection Hr as ->.
Qed.

Lemma stock_handler_raises_only_after_fetching_witness :
  outcome (handler StockHistory Scenarios.stock_store_refuses)
  = Raise Scenarios.access_denied
  /\ exists body key,
       upload_fileobj Scenarios.stock_store_refuses "nifty50-raw-layer" key body
       = Some Scenarios.access_denied.
Proof.
  assert (Hfile : stock_names_file Scenarios.stock_store_refuses = Ok ["A"; "B"])
    by reflexivity.
  assert (Hraise : outcome (handler StockHistory Scenarios.stock_store_refuses)
                   = Raise Scenarios.access_denied) by (vm_compute; reflexivity).
  split; [exact Hraise|].
  destruct (stock_handler_raises_only_after_fetching Scenarios.stock_store_refuses
              ["A"; "B"] Scenarios.access_denied Hfile Hraise)
    as [_ [H|[[merged [_ H]]|[H|H]]]].
  - vm_compute in H. discriminate H.
  - exists (mkCsv [] []), EmptyString. reflexivity.
  - discriminate H.
  - exact H.
Defined.

(** ** The macro batch as a whole *)

Lemma fetch_calls_none_urls (t : list event) : fetch_calls t = [] -> requested_urls t = [].
Proof.
  unfold fetch_calls, requested_urls. induction t as [|e t IH]; [reflexivity|].
  destruct e; cbn; try discriminate; auto.
Qed.

(** The macro handler once the configuration is read and names an
    indicator: what the loop did, and what follows the loop. *)
Lemma macro_handler_after_loop W country_code base_url pairs :
  macro_config W = Some (country_code, base_url, pairs) ->
  pairs <> [] ->
  exists r evs n rest,
    Macroeconomics.for_indicators W base_url country_code pairs []
      (mkState [ELog INFO "Lambda Execution Started"] 0 0)
    = (r, mkState (ELog INFO "Lambda Execution Started" :: evs) n 0) /\
    n <= List.length pairs /\
    requested_urls evs = firstn n (map (indicator_url W base_url country_code) pairs) /\
    warnings evs = [] /\
    (forall frames, r = Ok frames -> n = List.length pairs /\ List.length frames = n) /\
    events (Macroeconomics.lambda_handler W)
    = (ELog INFO "Lambda Execution Started" :: evs ++ rest)%list /\
    requests_made (snd (Macroeconomics.lambda_handler W initial)) = n /\
    fetch_calls rest = [] /\
    warnings rest = [] /\
    (is_ok (outcome (Macroeconomics.lambda_handler W)) = true -> is_ok r = true).
Proof.
  intros Hcfg Hne.
  set (s0 := mkState [ELog INFO "Lambda Execution Started"] 0 0).
  destruct (for_indicators_calls W base_url country_code pairs [] s0)
    as [r [evs [n [Hrun [Hn [Hurls [_ [_ [Hwarn [Hok _]]]]]]]]]].
  cbn [s0 trace requests_made clock_reads app Nat.add] in Hrun.
  unfold events, outcome. rewrite (macro_handler_run W _ _ _ Hcfg Hne). fold s0.
  rewrite Hrun.
  set (s1 := mkState (ELog INFO "Lambda Execution Started" :: evs) n 0).
  destruct r as [all_data|e]; cbv beta iota.
  - destruct (Hok all_data eq_refl) as [Hnlen Hlen]. cbn [List.length] in Hlen.
    destruct all_data as [|df l].
    { cbn in Hlen. destruct pairs; [contradiction | discriminate Hlen]. }
    destruct (concat (df :: l) true) as [combined|e]; cbv beta iota.
    + destruct (publisher_run MacroIndicators W combined s1)
        as [post [r [cr [Hrun' [Hfetch Hcases]]]]].
      cbn [publisher] in Hrun'. rewrite Hrun'.
      assert (Hw : warnings post = []).
      { destruct Hcases as [[Hj _]|[[e [_ [_ [_ Hw]]]]|[_ [_ [Hw _]]]]];
          [discriminate Hj | exact Hw | exact Hw]. }
      assert (Htail : forall lvl msg, lvl <> WARNING ->
                fetch_calls (EInvoke_s3_upload combined :: post ++ [ELog lvl msg]) = []
                /\ warnings (EInvoke_s3_upload combined :: post ++ [ELog lvl msg]) = []).
      { intros lvl msg Hlvl.
        change (EInvoke_s3_upload combined :: post ++ [ELog lvl msg])%list
          with ([EInvoke_s3_upload combined] ++ post ++ [ELog lvl msg])%list.
        rewrite !fetch_calls_app, !warnings_app, Hfetch, Hw.
        split; [reflexivity|].
        destruct lvl; [reflexivity | now contradiction Hlvl | reflexivity]. }
      destruct r as [u|e].
      * exists (Ok (df :: l)), evs, n,
          (EInvoke_s3_upload combined :: post ++ [ELog INFO "Lambda Execution Completed"])%list.
        cbn [fst snd after trace requests_made s1].
        destruct (Htail INFO "Lambda Execution Completed") as [Hf1 Hw1]; [discriminate|].
        split; [reflexivity|]. split; [exact Hn|]. split; [exact Hurls|].
        split; [exact Hwarn|]. split.
        { intros frames Hf. injection Hf as <-. cbn [List.length] in *. lia. }
        split; [now rewrite <- app_assoc|]. split; [reflexivity|].
        split; [exact Hf1|]. split; [exact Hw1 | reflexivity].
      * exists (Ok (df :: l)), evs, n,
          (EInvoke_s3_upload combined :: post ++ [macro_failed e])%list.
        cbn [fst snd after trace requests_made s1].
        destruct (Htail ERROR ("Lambda Execution Failed with error --> " ++ repr_exn e))
          as [Hf1 Hw1]; [discriminate|].
        split; [reflexivity|]. split; [exact Hn|]. split; [exact Hurls|].
        split; [exact Hwarn|]. split.
        { intros frames Hf. injection Hf as <-. cbn [List.length] in *. lia. }
        split; [now rewrite <- app_assoc|]. split; [reflexivity|].
        split; [exact Hf1|]. split; [exact Hw1 | reflexivity].
    + exists (Ok (df :: l)), evs, n, [macro_failed e].
      cbn [fst snd after trace requests_made s1].
      split; [reflexivity|]. split; [exact Hn|]. split; [exact Hurls|].
      split; [exact Hwarn|]. split.
      { intros frames Hf. injection Hf as <-. cbn [List.length] in *. lia. }
      repeat split; reflexivity.
  - exists (Raise e), evs, n, [macro_failed e].
    cbn [fst snd after trace requests_made s1].
    split; [reflexivity|]. split; [exact Hn|]. split; [exact Hurls|].
    split; [exact Hwarn|]. split; [discriminate|].
    split; [reflexivity|]. split; [reflexivity|]. split; [reflexivity|].
    split; [reflexivity | discriminate].
Qed.

(** X6.  The macro handler requests the indicators in the order of the
    [INDICATORS] mapping, one request each, at
    [BASE_URL + indicator_id + "/" + COUNTRY_CODE], and stops at the first
    one that fails: the URLs it has requested are a prefix of that list, and
    when it returns normally it has requested them all.  Without a usable
    configuration it requests nothing. *)
Theorem macro_requests_in_order :
  forall (W : World),
    match macro_config W with
    | Some (country_code, base_url, pairs) =>
        exists n,
          n <= List.length pairs /\
          requested_urls (events (handler MacroIndicators W))
          = firstn n (map (fun item => base_url ++ Macroeconomics.format W (snd item)
                                                ++ "/" ++ country_code) pairs) /\
          requests_made (snd (handler MacroIndicators W initial)) = n /\
          (is_ok (outcome (handler MacroIndicators W)) = true -> n = List.length pairs)
    | None =>
        requested_urls (events (handler MacroIndicators W)) = [] /\
        is_ok (outcome (handler MacroIndicators W)) = false
    end.
Proof.
  intro W. cbn [handler].
  destruct (macro_config W) as [[[cc base] pairs]|] eqn:Hcfg.
  - destruct pairs as [|p rest].
    + destruct (macro_bad_config W) as [e Hrun].
      { unfold macro_units. now rewrite Hcfg. }
      exists 0. unfold events, outcome. rewrite Hrun. cbn. repeat split; auto.
    + destruct (macro_handler_after_loop W cc base (p :: rest) Hcfg)
        as [r [evs [n [tail [_ [Hn [Hurls [_ [Hok [Hev [Hreq [Hfetch [_ Hres]]]]]]]]]]]]];
        [discriminate|].
      exists n. split; [exact Hn|]. split; [|split; [exact Hreq|]].
      * rewrite Hev. cbn [requested_urls flat_map app].
        fold (requested_urls (evs ++ tail)).
        rewrite requested_urls_app, Hurls, (fetch_calls_none_urls tail Hfetch).
        now rewrite app_nil_r.
      * intro Hsucc. specialize (Hres Hsucc). destruct r as [frames|e]; [|discriminate Hres].
        now destruct (Hok frames eq_refl).
  - destruct (macro_bad_config W) as [e Hrun].
    { unfold macro_units. now rewrite Hcfg. }
    unfold events, outcome. rewrite Hrun. cbn. auto.
Qed.

(** X7.  The macro handler never logs a warning.  Its branch for an empty
    [all_data] ("No data fetched for any indicator") cannot be reached: the
    mapping is checked to be non-empty before the loop, and every turn of
    the loop either appends a frame or raises. *)
Theorem macro_never_warns :
  forall (W : World), warnings (events (handler MacroIndicators W)) = [].
Proof.
  intro W. cbn [handler].
  destruct (macro_units W) as [|u0 us] eqn:Hunits.
  - destruct (macro_bad_config W Hunits) as [e Hrun].
    unfold events. rewrite Hrun. reflexivity.
  - unfold macro_units in Hunits.
    destruct (macro_config W) as [[[cc base] pairs]|] eqn:Hcfg; [|discriminate Hunits].
    destruct (macro_handler_after_loop W cc base pairs Hcfg)
      as [r [evs [n [tail [_ [_ [_ [Hwarn [_ [Hev [_ [_ [Hwt _]]]]]]]]]]]]].
    { intros ->. discriminate Hunits. }
    rewrite Hev. cbn [warnings flat_map app]. fold (warnings (evs ++ tail)).
    now rewrite warnings_app, Hwarn, Hwt.
Qed.

(** ** The reply for one indicator *)

(** X8.  [extract] hands back a frame only for a reply of the expected
    shape: a JSON object whose ["values"] is an object that maps the
    indicator id, a string, to an object that maps the country code to an
    object of data points.  When the data points are all strings or floats,
    which pandas stores as they are decoded, the frame has the three columns
    indicator_name, year, value and one row per data point, in the order of
    the reply, each tagged with the indicator's name. *)
Theorem extract_only_well_shaped :
  forall (W : World) (indicator_name : string) (indicator_id : json)
         (country_code : string) (data : json) (df : DataFrame),
    Macroeconomics.extract W indicator_name indicator_id country_code data = Ok df ->
    exists top values id by_country points,
      data = JObj top /\
      dict_lookup top "values" = Some (JObj values) /\
      indicator_id = JStr id /\
      dict_lookup values id = Some (JObj by_country) /\
      dict_lookup by_country country_code = Some (JObj points) /\
      (forallb kept_as_decoded (map snd points) = true ->
       df = points_frame indicator_name points /\
       records (to_csv df)
       = map (fun kv => [JStr indicator_name; JStr (fst kv); snd kv]) points).
Proof.
  intros W name id cc data df H. unfold Macroeconomics.extract in H.
  destruct data as [a|l|top]; try discriminate H.
  unfold dict_get in H.
  destruct (dict_lookup top "values") as [[a|l|values]|] eqn:Hvalues; try discriminate H.
  destruct id as [[| | | | |sid]|l|kv]; cbn [dict_contains dict_getitem] in H;
    try discriminate H.
  destruct (dict_lookup values sid) as [by_country|] eqn:Hid; [|discriminate H].
  destruct by_country as [[| | | | |s]|l|bc]; cbn [str_in getitem_str] in H;
    try discriminate H.
  - destruct (contains s cc); discriminate H.
  - destruct (existsb _ l); discriminate H.
  - destruct (dict_lookup bc cc) as [[a|l|points]|] eqn:Hcc; try discriminate H.
    exists top, values, sid, bc, points.
    do 5 (split; [first [reflexivity | assumption]|]). intro Hatoms.
    unfold Macroeconomics.indicator_frame in H. rewrite Hatoms in H.
    injection H as <-. split; [reflexivity|].
    unfold to_csv, points_frame. cbn [records rows].
    apply cells_with_range_index.
Qed.

Lemma extract_only_well_shaped_witness :
  exists top values id by_country points,
    JObj [("values", JObj [("NGDPD", JObj [("IN", JObj Examples.gdp_values)])])] = JObj top /\
    dict_lookup top "values" = Some (JObj values) /\
    JStr "NGDPD" = JStr id /\
    dict_lookup values id = Some (JObj by_country) /\
    dict_lookup by_country "IN" = Some (JObj points) /\
    (forallb kept_as_decoded (map snd points) = true ->
     points_frame "gdp" Examples.gdp_values = points_frame "gdp" points /\
     records (to_csv (points_frame "gdp" Examples.gdp_values))
     = map (fun kv => [JStr "gdp"; JStr (fst kv); snd kv]) points).
Proof.
  apply (extract_only_well_shaped Examples.macro_second_fails "gdp" (JStr "NGDPD") "IN").
  vm_compute. reflexivity.
Defined.

(** X9.  A reply that is a JSON object but lacks the data asked for makes
    the unit fail with [KeyError("Missing or malformed data for <name>")]:
    when ["values"] is absent or not an object, when it has no entry for the
    indicator id, and when that entry is an object without the country
    code. *)
Theorem malformed_reply_is_key_error :
  forall (W : World) (indicator_name id country_code : string)
         (top : list (string * json)),
    (forall values, dict_lookup top "values" <> Some (JObj values)) \/
    (exists values,
        dict_lookup top "values" = Some (JObj values) /\
        (dict_lookup values id = None \/
         exists by_country,
           dict_lookup values id = Some (JObj by_country) /\
           dict_lookup by_country country_code = None)) ->
    Macroeconomics.extract W indicator_name (JStr id) country_code (JObj top)
    = Raise (mkExn KeyError ("Missing or malformed data for " ++ indicator_name)).
Proof.
  intros W name id cc top H. unfold Macroeconomics.extract, dict_get.
  destruct H as [Hno|[values [Hvalues [Hid|[bc [Hid Hcc]]]]]].
  - destruct (dict_lookup top "values") as [[a|l|values]|]; try reflexivity.
    now destruct (Hno values).
  - rewrite Hvalues. cbn [dict_contains JStr]. now rewrite Hid.
  - rewrite Hvalues. cbn [dict_contains dict_getitem JStr]. rewrite Hid.
    cbn [str_in]. now rewrite Hcc.
Qed.

Lemma malformed_reply_is_key_error_witness :
  Macroeconomics.extract Scenarios.macro_other_country "gdp" (JStr "NGDPD") "IN"
    (JObj [("values", JObj [("NGDPD", JObj [("US", JObj Examples.gdp_values)])])])
  = Raise (mkExn KeyError "Missing or malformed data for gdp").
Proof.
  apply (malformed_reply_is_key_error Scenarios.macro_other_country "gdp" "NGDPD" "IN").
  right. exists [("NGDPD", JObj [("US", JObj Examples.gdp_values)])].
  split; [reflexivity|]. right.
  exists [("US", JObj Examples.gdp_values)]. split; reflexivity.
Defined.

(** ** A macro batch in which every indicator is answered *)







(** ** Missing configuration *)

(** X11.  The interest-rate handler reads [API_KEY], then [URL]; when one
    is missing it raises [KeyError] for that name at once: nothing is
    logged, no request is made, nothing is published. *)
Theorem fed_missing_variable :
  forall (W : World),
    (environ W "API_KEY" = None ->
     FedInterets.lambda_handler W initial = (Raise (mkExn KeyError "API_KEY"), initial)) /\
    (environ W "API_KEY" <> None -> environ W "URL" = None ->
     FedInterets.lambda_handler W initial = (Raise (mkExn KeyError "URL"), initial)).
Proof.
  intro W. unfold FedInterets.lambda_handler, bind, environ_get. split.
  - intros ->. reflexivity.
  - intros Hkey ->. destruct (environ W "API_KEY"); [reflexivity | contradiction].
Qed.

Lemma fed_missing_variable_witness :
  FedInterets.lambda_handler Examples.stock_all_fail initial
  = (Raise (mkExn KeyError "API_KEY"), initial).
Proof.
  apply (proj1 (fed_missing_variable Examples.stock_all_fail)). reflexivity.
Defined.

(** X12.  The macro handler reads [COUNTRY_CODE], [BASE_URL] and
    [INDICATORS] in that order before any request; when one is missing it
    raises [KeyError] for that name, and an [INDICATORS] that decodes to an
    empty value raises [ValueError].  In each case the run consists of the
    start line and one error line: no request, no publication. *)
Theorem macro_missing_variable :
  forall (W : World),
    let aborted e :=
      Macroeconomics.lambda_handler W initial
      = (Raise e,
         mkState [ELog INFO "Lambda Execution Started";
                  ELog ERROR ("Lambda Execution Failed with error --> " ++ repr_exn e)]
                 0 0) in
    (environ W "COUNTRY_CODE" = None -> aborted (mkExn KeyError "COUNTRY_CODE")) /\
    (environ W "COUNTRY_CODE" <> None -> environ W "BASE_URL" = None ->
     aborted (mkExn KeyError "BASE_URL")) /\
    (environ W "COUNTRY_CODE" <> None -> environ W "BASE_URL" <> None ->
     environ W "INDICATORS" = None -> aborted (mkExn KeyError "INDICATORS")) /\
    (forall text indicators,
        environ W "COUNTRY_CODE" <> None -> environ W "BASE_URL" <> None ->
        environ W "INDICATORS" = Some text ->
        json_loads W text = Ok indicators -> truthy indicators = false ->
        aborted (mkExn ValueError "INDICATORS is empty in environment variables")).
Proof.
  intro W. cbv zeta.
  unfold Macroeconomics.lambda_handler, bind, try_except, environ_get, log, emit.
  cbn [initial trace requests_made clock_reads app].
  split; [|split; [|split]].
  - intros ->. reflexivity.
  - intros Hcc ->. destruct (environ W "COUNTRY_CODE"); [reflexivity | contradiction].
  - intros Hcc Hb ->.
    destruct (environ W "COUNTRY_CODE"); [|contradiction].
    destruct (environ W "BASE_URL"); [reflexivity | contradiction].
  - intros text indicators Hcc Hb -> Hj Hfalsy.
    destruct (environ W "COUNTRY_CODE"); [|contradiction].
    destruct (environ W "BASE_URL"); [|contradiction].
    cbn [ret]. rewrite Hj. cbn [lift ret]. rewrite Hfalsy. reflexivity.
Qed.

Lemma macro_missing_variable_witness :
  Macroeconomics.lambda_handler Examples.macro_no_indicators initial
  = (Raise (mkExn ValueError "INDICATORS is empty in environment variables"),
     mkState [ELog INFO "Lambda Execution Started";
              ELog ERROR ("Lambda Execution Failed with error --> "
                            ++ repr_exn (mkExn ValueError
                                           "INDICATORS is empty in environment variables"))]
             0 0).
Proof.
  apply (proj2 (proj2 (proj2 (macro_missing_variable Examples.macro_no_indicators))))
    with (text := "{}") (indicators := JObj []).
  - discriminate.
  - discriminate.
  - reflexivity.
  - reflexivity.
  - reflexivity.
Defined.

(** ** The interest-rate job *)

(** X13.  With both variables set, the interest-rate handler makes exactly
    one request, whatever happens before or after it: a GET with a time-out
    of 10 to [url_template.replace("{API_KEY}", api_key)]. *)
Theorem fed_one_request :
  forall (W : World) (api_key url_template : string),
    environ W "API_KEY" = Some api_key ->
    environ W "URL" = Some url_template ->
    fetch_calls (events (handler InterestRates W))
    = [ERequestsGet (replace url_template "{API_KEY}" api_key) (Some 10%Z)] /\
    requests_made (snd (handler InterestRates W initial)) = 1.
Proof.
  intros W api_key url_template Hkey Hurl. cbn [handler].
  destruct (fed_handler_run W api_key url_template Hkey Hurl)
    as [r1 [logs [Hlogs [_ [_ Hrun]]]]].
  cbv zeta in Hrun. unfold events. rewrite Hrun. clear Hrun.
  destruct (publishing_error_logs logs Hlogs) as [_ [Hfl _]].
  set (url := replace url_template "{API_KEY}" api_key).
  set (s1 := mkState _ 1 0).
  assert (Hs1 : fetch_calls (trace s1) = [ERequestsGet url (Some 10%Z)]).
  { cbn [s1 trace fetch_calls filter is_fetch_call]. fold (fetch_calls logs).
    now rewrite Hfl. }
  assert (Hafter : forall evs, fetch_calls evs = [] ->
                     fetch_calls (trace (after s1 evs)) = [ERequestsGet url (Some 10%Z)]
                     /\ requests_made (after s1 evs) = 1).
  { intros evs Hevs. cbn [after trace requests_made]. rewrite fetch_calls_app, Hs1, Hevs.
    auto. }
  destruct r1 as [data|e]; [|auto].
  destruct (FedInterets.get_observations data) as [obs|e]; [|now apply Hafter].
  destruct (truthy obs); [|now apply Hafter].
  destruct (FedInterets.DataFrame_of W obs) as [df|e]; [|now apply Hafter].
  set (s1' := after s1 _).
  destruct (publisher_run InterestRates W df s1') as [post [r [cr [Hrun [Hfetch _]]]]].
  cbn [publisher] in Hrun. rewrite Hrun.
  assert (Hs2 : fetch_calls (trace s1' ++ EInvoke_s3_upload df :: post)
                = [ERequestsGet url (Some 10%Z)]).
  { rewrite fetch_calls_app. cbn [fetch_calls filter is_fetch_call].
    fold (fetch_calls post) (fetch_calls (trace s1')). rewrite Hfetch.
    destruct (Hafter [ELog INFO ("Fetched " ++ str_of_nat (len df) ++ " records.")])
      as [H _]; [reflexivity|].
    fold s1' in H. now rewrite H. }
  destruct r as [u|e]; cbn [snd after trace requests_made];
    rewrite fetch_calls_app, Hs2; auto.
Qed.

Lemma fed_one_request_witness :
  fetch_calls (events (handler InterestRates Examples.fed_no_observations))
  = [ERequestsGet
       "https://api.stlouisfed.org/fred/series/observations?series_id=FEDFUNDS&api_key=k3y&file_type=json"
       (Some 10%Z)].
Proof.
  apply (fed_one_request Examples.fed_no_observations "k3y"
           "https://api.stlouisfed.org/fred/series/observations?series_id=FEDFUNDS&api_key={API_KEY}&file_type=json");
    reflexivity.
Defined.

(** ** Cells of a frame built from records *)

Lemma mem_In (x : string) (l : list string) : mem x l = true <-> In x l.
Proof.
  induction l as [|y t IH]; cbn; [split; [discriminate | contradiction]|].
  rewrite orb_true_iff, IH, String.eqb_eq. split; intros [H|H]; auto.
Qed.

Lemma position_nth (k : string) (cols : list string) (i : nat) :
  position k cols = Some i -> nth_error cols i = Some k.
Proof.
  revert i. induction cols as [|c t IH]; intros i H; [discriminate H|].
  cbn in H. destruct (k =? c) eqn:E.
  - injection H as <-. apply String.eqb_eq in E. now subst.
  - destruct (position k t) as [j|]; [|discriminate H].
    injection H as <-. cbn. now apply IH.
Qed.

Lemma position_In (k : string) (cols : list string) :
  In k cols -> exists i, position k cols = Some i.
Proof.
  induction cols as [|c t IH]; [contradiction|].
  intro H. cbn. destruct (k =? c) eqn:E; [now exists 0|].
  destruct H as [->|H]; [now rewrite String.eqb_refl in E|].
  destruct (IH H) as [i ->]. now exists (S i).
Qed.

(** Under a label of the frame, a row made by mapping over the labels holds
    the image of that label. *)
Lemma cell_map (f : string -> json) (cols : list string) (k : string) :
  In k cols -> cell cols (map f cols) k = Some (f k).
Proof.
  intro H. unfold cell. destruct (position_In k cols H) as [i Hi]. rewrite Hi.
  rewrite nth_error_map, (position_nth k cols i Hi). reflexivity.
Qed.

Lemma In_dedup (k : string) (l seen : list string) :
  In k l -> mem k seen = false -> In k (dedup seen l).
Proof.
  revert seen. induction l as [|x t IH]; intros seen Hin Hseen; [contradiction|].
  cbn. destruct (mem x seen) eqn:Hx.
  - destruct Hin as [->|Hin]; [congruence | now apply IH].
  - destruct (String.eqb_spec k x) as [->|Hne]; [now left|].
    right. destruct Hin as [->|Hin]; [contradiction|].
    apply IH; [exact Hin|]. cbn. rewrite Hseen.
    destruct (String.eqb_spec k x); [contradiction | reflexivity].
Qed.

Lemma dict_lookup_In (kv : list (string * json)) (k : string) (v : json) :
  dict_lookup kv k = Some v -> In k (map fst kv).
Proof.
  induction kv as [|[k' v'] t IH]; [discriminate|].
  cbn. destruct (String.eqb_spec k k') as [->|Hne]; auto.
Qed.

Lemma records_of_records (records : list json) :
  let cols := dedup [] (List.concat (map record_keys records)) in
  map snd (rows (DataFrame_of_records records)) = map (record_row cols) records.
Proof. cbv zeta. unfold DataFrame_of_records. cbn [rows]. apply cells_with_range_index. Qed.

(** The frame made from a list of dicts: one row per dict, as many cells
    as labels in every row, each value under its key, NaN where the key is
    absent. *)
Lemma DataFrame_of_records_cells (l : list json) :
  forallb is_dict l = true ->
  let body := to_csv (DataFrame_of_records l) in
  List.length (records body) = List.length l /\
  csv_rectangular body /\
  forall i kv,
    nth_error l i = Some (JObj kv) ->
    exists row,
      nth_error (records body) i = Some row /\
      (forall k v, dict_lookup kv k = Some v -> cell (header body) row k = Some v) /\
      (forall k, In k (header body) -> dict_lookup kv k = None ->
                 cell (header body) row k = Some NaN).
Proof.
  intros Hdicts. cbv zeta. unfold to_csv, csv_rectangular. cbn [header records].
  rewrite records_of_records. cbn [columns DataFrame_of_records].
  set (cols := dedup [] (List.concat (map record_keys l))).
  split; [apply length_map|]. split.
  - apply Forall_forall. intros r Hr. apply in_map_iff in Hr. destruct Hr as [j [<- Hj]].
    rewrite forallb_forall in Hdicts. specialize (Hdicts j Hj).
    destruct j as [a|x|kv]; try discriminate Hdicts. cbn. apply length_map.
  - intros i kv Hnth. exists (record_row cols (JObj kv)).
    split; [now rewrite nth_error_map, Hnth|]. cbn [record_row]. split.
    + intros k v Hk.
      rewrite (cell_map (fun c => match dict_lookup kv c with Some v => v | None => NaN end)).
      * now rewrite Hk.
      * apply In_dedup; [|reflexivity]. apply in_concat.
        exists (map fst kv). split; [|now apply dict_lookup_In with v].
        apply in_map_iff. exists (JObj kv). split; [reflexivity|].
        now apply nth_error_In with i.
    + intros k Hin Hk.
      rewrite (cell_map (fun c => match dict_lookup kv c with Some v => v | None => NaN end))
        by exact Hin.
      now rewrite Hk.
Qed.

(** X14.  When the response carries a non-empty list of observation
    objects whose values are strings or floats (which pandas stores as they
    are decoded) and the store accepts the write, the interest-rate handler
    returns [None] and writes exactly one CSV: one record per observation,
    in order, every record as long as the header, each value under the
    column of its key and NaN under the keys an observation lacks. *)
Theorem fed_publishes_observations :
  forall (W : World) (api_key url_template : string) (data : json) (l : list json),
    environ W "API_KEY" = Some api_key ->
    environ W "URL" = Some url_template ->
    outcome (FedInterets.fetch W (replace url_template "{API_KEY}" api_key)) = Ok data ->
    FedInterets.get_observations data = Ok (JArr l) ->
    forallb is_dict l = true ->
    forallb kept_as_decoded (flat_map record_values l) = true ->
    empty (DataFrame_of_records l) = false ->
    boto3_client W = None ->
    (forall key body, upload_fileobj W "nifty50-raw-layer" key body = None) ->
    let body := to_csv (DataFrame_of_records l) in
    outcome (handler InterestRates W) = Ok RetNone /\
    storage_writes (events (handler InterestRates W))
    = [EUploadFileobj body "nifty50-raw-layer"
         (key_at W "us_fed_rates" "us_fed_rates.csv" 0) "text/csv"] /\
    List.length (records body) = List.length l /\
    csv_rectangular body /\
    forall i kv,
      nth_error l i = Some (JObj kv) ->
      exists row,
        nth_error (records body) i = Some row /\
        (forall k v, dict_lookup kv k = Some v -> cell (header body) row k = Some v) /\
        (forall k, In k (header body) -> dict_lookup kv k = None ->
                   cell (header body) row k = Some NaN).
Proof.
  intros W api_key url_template data l Hkey Hurl Hfetch Hobs Hdicts Hkept Hempty Hclient
    Hstore body.
  destruct (DataFrame_of_records_cells l Hdicts) as [Hlen [Hrect Hcells]].
  split; [|split; [|split; [exact Hlen | split; [exact Hrect | exact Hcells]]]].
  - cbn [handler]. destruct (fed_handler_run W api_key url_template Hkey Hurl)
      as [r1 [logs [_ [_ [Hf Hrun]]]]].
    cbv zeta in Hf, Hrun. unfold outcome in *. rewrite Hrun. rewrite Hf in Hfetch.
    cbn [fst] in Hfetch. subst r1. rewrite Hobs.
    assert (Htruthy : truthy (JArr l) = true).
    { destruct l; [discriminate Hempty | reflexivity]. }
    rewrite Htruthy. unfold FedInterets.DataFrame_of. rewrite Hdicts, Hkept.
    cbn [andb].
    rewrite (fed_s3_upload_block W _ _ Hempty), bind_emit, upload_block_run.
    cbv zeta. rewrite Hclient, Hstore. reflexivity.
  - cbn [handler]. destruct (fed_handler_run W api_key url_template Hkey Hurl)
      as [r1 [logs [_ [Hok [Hf Hrun]]]]].
    cbv zeta in Hf, Hrun. unfold events, outcome in *. rewrite Hrun. rewrite Hf in Hfetch.
    cbn [fst] in Hfetch. subst r1. rewrite (Hok eq_refl). rewrite Hobs.
    assert (Htruthy : truthy (JArr l) = true).
    { destruct l; [discriminate Hempty | reflexivity]. }
    rewrite Htruthy. unfold FedInterets.DataFrame_of. rewrite Hdicts, Hkept.
    cbn [andb].
    rewrite (fed_s3_upload_block W _ _ Hempty), bind_emit, upload_block_run.
    cbv zeta. rewrite Hclient, Hstore. reflexivity.
Qed.

Lemma fed_publishes_observations_witness :
  outcome (handler InterestRates Scenarios.fed_two_observations) = Ok RetNone
  /\ exists row,
       nth_error (records (to_csv (DataFrame_of_records
                    [JObj [("date", JStr "2024-11-01"); ("value", JStr "4.64")];
                     JObj [("date", JStr "2024-12-01"); ("value", JStr "4.48");
                           ("realtime_start", JStr "2024-12-31")]]))) 0 = Some row
       /\ cell ["date"; "value"; "realtime_start"] row "realtime_start" = Some NaN.
Proof.
  destruct (fed_publishes_observations Scenarios.fed_two_observations "k3y"
              "https://api.stlouisfed.org/fred/series/observations?series_id=FEDFUNDS&api_key={API_KEY}&file_type=json"
              (JObj [("observations",
                      JArr [JObj [("date", JStr "2024-11-01"); ("value", JStr "4.64")];
                            JObj [("date", JStr "2024-12-01"); ("value", JStr "4.48");
                                  ("realtime_start", JStr "2024-12-31")]])])
              [JObj [("date", JStr "2024-11-01"); ("value", JStr "4.64")];
               JObj [("date", JStr "2024-12-01"); ("value", JStr "4.48");
                     ("realtime_start", JStr "2024-12-31")]])
    as [Hout [_ [_ [_ Hcells]]]]; try reflexivity.
  split; [exact Hout|].
  destruct (Hcells 0 [("date", JStr "2024-11-01"); ("value", JStr "4.64")] eq_refl)
    as [row [Hrow [_ Hnan]]].
  exists row. split; [exact Hrow|].
  apply (Hnan "realtime_start"); [|reflexivity].
  vm_compute. right; right; left. reflexivity.
Defined.

(** ** Column assignment, row by row *)

Lemma set_where_length (k : string) (v : json) (cols : list string) (cells : list json) :
  List.length (set_where k v cols cells) = List.length cells.
Proof.
  revert cells. induction cols as [|c t IH]; intros [|x cells]; cbn; auto.
Qed.

Lemma set_where_nth (k : string) (v : json) :
  forall (cols : list string) (cells : list json) (i : nat) (c : string),
    List.length cells = List.length cols ->
    nth_error cols i = Some c ->
    nth_error (set_where k v cols cells) i
    = if k =? c then Some v else nth_error cells i.
Proof.
  induction cols as [|c0 t IH]; intros [|x cells] i c Hlen Hnth;
    try (destruct i; discriminate).
  destruct i as [|i]; cbn in *.
  - injection Hnth as ->. now destruct (k =? c).
  - apply IH; [now injection Hlen | exact Hnth].
Qed.

Lemma position_app_absent (k : string) (cols : list string) :
  mem k cols = false -> position k (cols ++ [k]) = Some (List.length cols).
Proof.
  induction cols as [|c t IH]; cbn; [now rewrite String.eqb_refl|].
  intro H. apply orb_false_iff in H. destruct H as [H1 H2].
  rewrite H1, (IH H2). reflexivity.
Qed.

Lemma position_app_other (k k' : string) (cols : list string) :
  k' <> k -> position k' (cols ++ [k]) = position k' cols.
Proof.
  intro Hne. induction cols as [|c t IH]; cbn.
  - destruct (String.eqb_spec k' k); [contradiction | reflexivity].
  - now rewrite IH.
Qed.

Lemma position_bound (k : string) (cols : list string) (i : nat) :
  position k cols = Some i -> i < List.length cols.
Proof.
  intro H. apply position_nth in H. apply nth_error_Some. congruence.
Qed.

(** [df[key] = v] works row by row: the index label stays, the row stays as
    long as the header, the cell under [key] is [v] and every other cell is
    untouched. *)
Lemma setitem_rows (df : DataFrame) (key : string) (v : scalar) :
  exists G,
    rows (setitem df key v) = map G (rows df) /\
    forall r,
      List.length (snd r) = List.length (columns df) ->
      fst (G r) = fst r /\
      List.length (snd (G r)) = List.length (columns (setitem df key v)) /\
      cell (columns (setitem df key v)) (snd (G r)) key = Some (JAtom v) /\
      forall k', k' <> key ->
        cell (columns (setitem df key v)) (snd (G r)) k' = cell (columns df) (snd r) k'.
Proof.
  unfold setitem. destruct (mem key (columns df)) eqn:Hmem.
  - exists (fun r => (fst r, set_where key (JAtom v) (columns df) (snd r))).
    split; [reflexivity|]. intros r Hlen. cbn [fst snd columns].
    split; [reflexivity|]. split; [now rewrite set_where_length|]. split.
    + unfold cell. apply mem_In in Hmem. destruct (position_In _ _ Hmem) as [i Hi].
      rewrite Hi, (set_where_nth _ _ _ _ i key Hlen (position_nth _ _ _ Hi)).
      now rewrite String.eqb_refl.
    + intros k' Hne. unfold cell. destruct (position k' (columns df)) as [i|] eqn:Hi;
        [|reflexivity].
      rewrite (set_where_nth _ _ _ _ i k' Hlen (position_nth _ _ _ Hi)).
      destruct (String.eqb_spec key k'); [congruence | reflexivity].
  - exists (fun r => (fst r, (snd r ++ [JAtom v])%list)).
    split; [reflexivity|]. intros r Hlen. cbn [fst snd columns].
    split; [reflexivity|]. split; [rewrite !length_app; cbn; lia|]. split.
    + unfold cell. rewrite (position_app_absent _ _ Hmem), <- Hlen.
      rewrite nth_error_app2, Nat.sub_diag by lia. reflexivity.
    + intros k' Hne. unfold cell. rewrite (position_app_other _ _ _ Hne).
      destruct (position k' (columns df)) as [i|] eqn:Hi; [|reflexivity].
      apply nth_error_app1. rewrite Hlen. now apply position_bound with k'.
Qed.

(** The loop over the metadata, when every value is a scalar and no label
    occurs twice: every label of the metadata ends up holding its value on
    every row, and nothing else changes. *)
Lemma assign_all_rows (W : World) :
  forall (md : list (string * json)) (data : DataFrame),
    Forall (fun kv => is_atom (snd kv) = true) md ->
    NoDup (map fst md) ->
    exists result G,
      Nifty50.assign_all W data md = Ok result /\
      rows result = map G (rows data) /\
      forall r,
        List.length (snd r) = List.length (columns data) ->
        fst (G r) = fst r /\
        List.length (snd (G r)) = List.length (columns result) /\
        (forall k v, In (k, v) md -> cell (columns result) (snd (G r)) k = Some v) /\
        (forall k', ~ In k' (map fst md) ->
           cell (columns result) (snd (G r)) k' = cell (columns data) (snd r) k').
Proof.
  induction md as [|[key value] rest IH]; intros data Hatoms Hnodup.
  - exists data, (fun r => r). split; [reflexivity|]. split; [now rewrite map_id|].
    intros r Hlen. repeat split; auto. intros k v [].
  - inversion Hatoms as [|? ? Hatom Hrest]; subst. cbn [snd] in Hatom.
    inversion Hnodup as [|? ? Hnotin Hnodup']; subst.
    destruct value as [v|l|kv]; try discriminate Hatom.
    cbn [Nifty50.assign_all Nifty50.assign].
    destruct (setitem_rows data key v) as [G1 [Hrows1 HG1]].
    destruct (IH (setitem data key v) Hrest Hnodup') as [result [G2 [Hrun [Hrows2 HG2]]]].
    exists result, (fun r => G2 (G1 r)). split; [exact Hrun|].
    split; [now rewrite Hrows2, Hrows1, map_map|].
    intros r Hlen. destruct (HG1 r Hlen) as [Hf1 [Hl1 [Hc1 Ho1]]].
    destruct (HG2 (G1 r) Hl1) as [Hf2 [Hl2 [Hc2 Ho2]]].
    split; [congruence|]. split; [exact Hl2|]. split.
    + intros k v0 [Heq|Hin].
      * injection Heq as <- <-. rewrite (Ho2 key Hnotin). exact Hc1.
      * now apply Hc2.
    + intros k' Hnot. cbn [map fst] in Hnot.
      rewrite Ho2 by (intro; apply Hnot; now right).
      apply Ho1. intros ->. apply Hnot. now left.
Qed.

Lemma metadata_labels_distinct :
  NoDup ("stock_name" :: map fst Nifty50.metadata_keys).
Proof.
  cbn. repeat (constructor; [cbn; intuition discriminate|]). constructor.
Qed.

(** ** The fundamentals on every row *)

(** X15.  When a stock has a price history and fundamentals (scalars),
    [fetch_stock_price] hands back the history with the fundamentals
    broadcast: the same rows under the same index labels, the stock's name
    and each of the sixteen fundamentals in a column of its own with the same
    value on every row, a fundamental Yahoo does not report being [None];
    the columns of the history are untouched. *)
Theorem metadata_broadcast :
  forall (W : World) (task : nat) (stock_name : string) (data : DataFrame)
         (first : json) (info : list (string * json)),
    let symbol := upper stock_name ++ ".NS" in
    yf_Ticker W task symbol = None ->
    yf_history W task symbol (start_date W) (end_date W) = Ok data ->
    yf_info W task symbol 0 = Ok first ->
    truthy first = true ->
    yf_info W task symbol 1 = Ok (JObj info) ->
    info <> [] ->
    empty data = false ->
    rectangular data ->
    (forall label key, In (label, key) Nifty50.metadata_keys ->
                       is_atom (dict_get info key) = true) ->
    let df := fetched W (task, stock_name) in
    map fst (rows df) = map fst (rows data) /\
    rectangular df /\
    forall i r,
      nth_error (rows data) i = Some r ->
      exists r',
        nth_error (rows df) i = Some r' /\
        cell (columns df) (snd r') "stock_name" = Some (JStr stock_name) /\
        (forall label key,
            In (label, key) Nifty50.metadata_keys ->
            cell (columns df) (snd r') label = Some (dict_get info key)) /\
        (forall label,
            label <> "stock_name" -> ~ In label (map fst Nifty50.metadata_keys) ->
            cell (columns df) (snd r') label = cell (columns data) (snd r) label).
Proof.
  intros W task stock_name data first info symbol HT HH HI Hfirst HI2 Hinfo Hempty Hrect
    Hatoms df.
  set (md := ("stock_name", JStr stock_name)
               :: map (fun kk => (fst kk, dict_get info (snd kk))) Nifty50.metadata_keys).
  assert (Hmd_atoms : Forall (fun kv => is_atom (snd kv) = true) md).
  { constructor; [reflexivity|]. apply Forall_forall. intros kv Hkv.
    apply in_map_iff in Hkv. destruct Hkv as [[label key] [<- Hin]]. cbn [fst snd].
    now apply Hatoms with label. }
  assert (Hmd_keys : map fst md = "stock_name" :: map fst Nifty50.metadata_keys).
  { subst md. cbn [map fst]. now rewrite map_map. }
  assert (Hmd_nodup : NoDup (map fst md)).
  { rewrite Hmd_keys. exact metadata_labels_distinct. }
  destruct (assign_all_rows W md data Hmd_atoms Hmd_nodup) as [result [G [Hrun [Hrows HG]]]].
  assert (Hdf : df = result).
  { subst df. unfold fetched, outcome, Nifty50.fetch_stock_price,
      Nifty50.fetch_stock_price_try, Nifty50.Ticker, Nifty50.history, Nifty50.info, bind,
      try_except, log, emit, lift, ret, raise.
    cbn [fst snd trace requests_made clock_reads initial app].
    fold symbol. rewrite HT, HH, HI, Hfirst, HI2.
    assert (Htruthy : truthy (JObj info) = true) by (destruct info; [contradiction | reflexivity]).
    rewrite Htruthy. cbn [negb Nifty50.metadata]. rewrite Hempty. cbn [negb].
    fold md. rewrite Hrun. reflexivity. }
  rewrite Hdf. clear Hdf df.
  assert (Hrow : forall r, In r (rows data) ->
                   List.length (snd r) = List.length (columns data)).
  { unfold rectangular in Hrect. rewrite Forall_forall in Hrect. exact Hrect. }
  split; [|split].
  - rewrite Hrows, map_map. apply map_ext_in. intros r Hr. now destruct (HG r (Hrow r Hr)).
  - unfold rectangular. rewrite Hrows. apply Forall_forall. intros r' Hr'.
    apply in_map_iff in Hr'. destruct Hr' as [r [<- Hr]]. now destruct (HG r (Hrow r Hr)).
  - intros i r Hnth. exists (G r).
    destruct (HG r (Hrow r (nth_error_In _ _ Hnth))) as [_ [_ [Hset Hother]]].
    split; [now rewrite Hrows, nth_error_map, Hnth|]. split; [|split].
    + apply Hset. now left.
    + intros label key Hin. apply Hset. right.
      apply in_map_iff. exists (label, key). auto.
    + intros label Hne Hnot. apply Hother. rewrite Hmd_keys. intros [H|H]; auto.
Qed.

Lemma two_days_rectangular : rectangular Examples.two_days.
Proof. repeat constructor. Defined.

Lemma metadata_broadcast_witness :
  exists r',
    nth_error (rows (fetched Examples.stock_a_fails_b_two_rows (1, "B"))) 0 = Some r'
    /\ cell (columns (fetched Examples.stock_a_fails_b_two_rows (1, "B"))) (snd r') "roce"
       = Some (JAtom SNone).
Proof.
  destruct (metadata_broadcast Examples.stock_a_fails_b_two_rows 1 "B" Examples.two_days
              Examples.some_info
              [("marketCap", JAtom (SInt 14800000000000)); ("beta", JAtom (SFloat 52 (-2)));
               ("trailingPE", JAtom (SFloat 3012 (-2)))])
    as [_ [_ Hrows]]; try reflexivity.
  - discriminate.
  - exact two_days_rectangular.
  - intros label key Hin. cbn in Hin.
    repeat (destruct Hin as [Hin|Hin]; [injection Hin as <- <-; reflexivity|]).
    destruct Hin.
  - destruct (Hrows 0 _ eq_refl) as [r' [Hnth [_ [Hmeta _]]]].
    exists r'. split; [exact Hnth|].
    apply (Hmeta "roce" "returnOnCapitalEmployed"). cbn. do 5 right. left. reflexivity.
Defined.

(** ** The calls of one stock task *)

(** X16.  One run of [fetch_stock_price] calls yfinance at most four times,
    always in the order Ticker, history, info, info and always for the
    symbol upper(stock_name) + ".NS": it never reads the fundamentals
    before the history, never reads them more than twice, and stops at the
    first call that raises; it logs at most one error and touches nothing of
    the publisher. *)
Theorem yfinance_calls_in_order :
  forall (W : World) (task : nat) (stock_name : string) (s : state),
    let symbol := upper stock_name ++ ".NS" in
    let run := new_events (Nifty50.fetch_stock_price W task stock_name) s in
    exists n,
      n < 4 /\
      fetch_calls run
      = firstn (S n) [EYfTicker symbol;
                      EYfHistory symbol (start_date W) (end_date W) None;
                      EYfInfo symbol; EYfInfo symbol] /\
      publishing run = [] /\
      List.length (error_logs run) <= 1.
Proof.
  intros W task stock_name s symbol run.
  destruct (fetch_stock_price_calls W task stock_name s)
    as [evs [n [Hrun [Hn [Hcalls [Hpub Herr]]]]]].
  assert (Hevs : run = evs).
  { subst run. apply new_events_app. now rewrite Hrun. }
  rewrite Hevs. exists n. auto.
Qed.

(** ** Labels *)

Lemma normalize_char_idem (c : ascii) :
  let f := fun c => if Ascii.eqb (ascii_lower c) " "%char then "_"%char else ascii_lower c in
  f (f c) = f c.
Proof. destruct c as [[] [] [] [] [] [] [] []]; vm_compute; reflexivity. Qed.

Lemma normal_char_fixed (c : ascii) :
  normal_char c = true ->
  (if Ascii.eqb (ascii_lower c) " "%char then "_"%char else ascii_lower c) = c.
Proof. destruct c as [[] [] [] [] [] [] [] []]; vm_compute; intro H; congruence. Qed.

Lemma normalize_char_ascii (c : ascii) :
  is_ascii c = true ->
  is_ascii (if Ascii.eqb (ascii_lower c) " "%char then "_"%char else ascii_lower c) = true.
Proof. destruct c as [[] [] [] [] [] [] [] []]; vm_compute; intro H; congruence. Qed.

(** X17.  On a label of ASCII text, normalizing (lower case, spaces to
    underscores) gives ASCII text of the same length, is idempotent, and
    leaves alone exactly the labels without an upper-case letter and
    without a space. *)
Theorem normalize_label_idempotent :
  forall (label : string),
    str_forall is_ascii label = true ->
    str_forall is_ascii (normalize_label label) = true /\
    normalize_label (normalize_label label) = normalize_label label /\
    String.length (normalize_label label) = String.length label /\
    (normalize_label label = label <-> normalized label = true).
Proof.
  intros label Hascii. unfold normalize_label, lower, normalized.
  induction label as [|c t IH].
  - repeat split; reflexivity.
  - cbn [str_forall] in Hascii. apply andb_true_iff in Hascii. destruct Hascii as [Hc Ht].
    destruct (IH Ht) as [IH0 [IH1 [IH2 IH3]]].
    cbn [str_map str_forall String.length]. split; [|split; [|split]].
    + rewrite IH0, andb_true_r. now apply normalize_char_ascii.
    + rewrite IH1. f_equal. apply normalize_char_idem.
    + now rewrite IH2.
    + split.
      * intro H. injection H as Hc' Ht'. apply IH3 in Ht'. rewrite Ht', andb_true_r.
        rewrite <- Hc'. apply normal_char_normalize.
      * intro H. apply andb_true_iff in H. destruct H as [Hn Hr].
        apply IH3 in Hr. rewrite Hr. f_equal. now apply normal_char_fixed.
Qed.

Lemma normalize_label_idempotent_witness :
  normalize_label (normalize_label "Stock Splits") = normalize_label "Stock Splits"
  /\ String.length (normalize_label "Stock Splits") = String.length "Stock Splits".
Proof.
  destruct (normalize_label_idempotent "Stock Splits") as [_ [Hidem [Hlen _]]];
    [reflexivity|].
  split; [exact Hidem | exact Hlen].
Defined.

(** ** Dates in the key *)

Lemma holds_from_spec (p : Z -> bool) :
  forall (n : nat) (z : Z),
    holds_from p n z = true ->
    forall x, (z <= x < z + Z.of_nat n)%Z -> p x = true.
Proof.
  induction n as [|k IH]; intros z H x Hx; [lia|].
  cbn [holds_from] in H. destruct (p z) eqn:Hz; [|discriminate H].
  destruct (Z.eq_dec x z) as [->|Hne]; [exact Hz|].
  apply (IH (z + 1)%Z H). lia.
Qed.

Lemma every_era_day_in_range :
  holds_from (fun doe => month_day_in_range (month_day_of_era_day doe))
             (Z.to_nat 146097) 0 = true.
Proof. vm_compute. reflexivity. Qed.

Lemma civil_month_day (days : Z) :
  let z := (days + 719468)%Z in
  (month (civil_from_days days), day (civil_from_days days))
  = month_day_of_era_day (z - z / 146097 * 146097).
Proof. reflexivity. Qed.

(** The month and the day of a civil date are always in range. *)
Lemma civil_from_days_in_range (days : Z) :
  (1 <= month (civil_from_days days) <= 12 /\ 1 <= day (civil_from_days days) <= 31)%Z.
Proof.
  pose proof (civil_month_day days) as H. cbv zeta in H.
  set (z := (days + 719468)%Z) in H.
  assert (Hdoe : (0 <= z - z / 146097 * 146097 < 0 + Z.of_nat (Z.to_nat 146097))%Z).
  { rewrite Z2Nat.id by lia.
    pose proof (Z.mod_pos_bound z 146097 ltac:(lia)) as Hm.
    rewrite Z.mod_eq in Hm by lia. lia. }
  pose proof (holds_from_spec _ _ _ every_era_day_in_range _ Hdoe) as Hok.
  cbv beta in Hok. rewrite <- H in Hok. unfold month_day_in_range in Hok.
  cbn [fst snd] in Hok.
  repeat (apply andb_true_iff in Hok; destruct Hok as [Hok ?]).
  lia.
Qed.

Lemma append_inv_head (p a b : string) : p ++ a = p ++ b -> a = b.
Proof.
  induction p as [|c t IH]; cbn; [auto|]. intro H. injection H as H. auto.
Qed.

Lemma digit_inj (a b : Z) : digit a = digit b -> (a mod 10 = b mod 10)%Z.
Proof.
  unfold digit. intro H. injection H as H.
  pose proof (Z.mod_pos_bound a 10 ltac:(lia)) as Ha.
  pose proof (Z.mod_pos_bound b 10 ltac:(lia)) as Hb.
  apply (f_equal nat_of_ascii) in H.
  rewrite !nat_ascii_embedding in H by lia. lia.
Qed.

Lemma String_inj (c c' : ascii) (s t : string) :
  String c s = String c' t -> c = c' /\ s = t.
Proof. intro H. injection H. auto. Qed.

Lemma digit_app_inj (a b : Z) (s t : string) :
  digit a ++ s = digit b ++ t -> (a mod 10 = b mod 10)%Z /\ s = t.
Proof.
  intro H. apply String_inj in H. destruct H as [Hc Hs]. split; [|exact Hs].
  apply digit_inj. unfold digit. f_equal. exact Hc.
Qed.

Lemma app_digit_assoc (a : Z) (s t : string) : (digit a ++ s) ++ t = digit a ++ (s ++ t).
Proof. reflexivity. Qed.

(** The three date segments of a key determine the date printed. *)
Lemma date_segments_inj (d1 d2 : datetime) (f1 f2 : string) :
  printable d1 -> printable d2 ->
  "/year=" ++ strftime_Y d1 ++ "/month=" ++ strftime_m d1 ++ "/day=" ++ strftime_d d1
     ++ "/" ++ f1
  = "/year=" ++ strftime_Y d2 ++ "/month=" ++ strftime_m d2 ++ "/day=" ++ strftime_d d2
     ++ "/" ++ f2 ->
  d1 = d2.
Proof.
  intros [Hy1 [Hm1 Hd1]] [Hy2 [Hm2 Hd2]] H.
  apply (append_inv_head "/year=") in H.
  unfold strftime_Y, strftime_m, strftime_d in H.
  rewrite !app_digit_assoc in H.
  apply digit_app_inj in H. destruct H as [Ya H].
  apply digit_app_inj in H. destruct H as [Yb H].
  apply digit_app_inj in H. destruct H as [Yc H].
  apply digit_app_inj in H. destruct H as [Yd H].
  apply (append_inv_head "/month=") in H.
  apply digit_app_inj in H. destruct H as [Ma H].
  apply digit_app_inj in H. destruct H as [Mb H].
  apply (append_inv_head "/day=") in H.
  apply digit_app_inj in H. destruct H as [Da H].
  apply digit_app_inj in H. destruct H as [Db _].
  destruct d1 as [y1 m1 dd1], d2 as [y2 m2 dd2]. cbn [year month day] in *.
  f_equal; Z.to_euclidean_division_equations; lia.
Qed.


(** X18.  A key names one date only.  Let two keys be built with the same
    prefix and file name, each while the clock stays on one local calendar
    date (years 0 to 9999): if the keys are equal, the dates are equal.  So
    runs on different days never write to the same object, and an object is
    overwritten only by a run of the same day. *)
Theorem same_key_same_date :
  forall (W1 W2 : World) (prefix filename : string) (s1 s2 : state) (d1 d2 : datetime),
    (forall i, i < 3 ->
       fromtimestamp (time_time W1 (clock_reads s1 + i)) (utc_offset W1) = d1) ->
    (forall i, i < 3 ->
       fromtimestamp (time_time W2 (clock_reads s2 + i)) (utc_offset W2) = d2) ->
    (0 <= year d1 < 10000)%Z ->
    (0 <= year d2 < 10000)%Z ->
    fst (partition_key W1 prefix filename s1) = fst (partition_key W2 prefix filename s2) ->
    d1 = d2.
Proof.
  intros W1 W2 prefix filename s1 s2 d1 d2 H1 H2 Hy1 Hy2 Hkeys.
  assert (Hkey : forall (W : World) s d,
             (forall i, i < 3 ->
                fromtimestamp (time_time W (clock_reads s + i)) (utc_offset W) = d) ->
             fst (partition_key W prefix filename s)
             = Ok (spec_partition_key prefix filename d) /\
             (1 <= month d <= 12 /\ 1 <= day d <= 31)%Z).
  { intros W s d Hsame. split.
    - rewrite partition_key_run. cbn [fst]. unfold key_at, local_date, spec_partition_key.
      pose proof (Hsame 0) as E0. pose proof (Hsame 1) as E1. pose proof (Hsame 2) as E2.
      rewrite Nat.add_0_r in E0.
      replace (clock_reads s + 1) with (S (clock_reads s)) in E1 by lia.
      replace (clock_reads s + 2) with (S (S (clock_reads s))) in E2 by lia.
      rewrite E0, E1, E2 by lia. reflexivity.
    - rewrite <- (Hsame 0) by lia. unfold fromtimestamp. apply civil_from_days_in_range. }
  destruct (Hkey W1 s1 d1 H1) as [K1 [M1 D1]].
  destruct (Hkey W2 s2 d2 H2) as [K2 [M2 D2]].
  rewrite K1, K2 in Hkeys. injection Hkeys as Hkeys. unfold spec_partition_key in Hkeys.
  apply append_inv_head in Hkeys.
  apply (date_segments_inj d1 d2 filename filename); [| |exact Hkeys];
    unfold printable; lia.
Qed.

Lemma same_key_same_date_witness :
  fromtimestamp Examples.new_years_eve Examples.ist = fromtimestamp 1735700000 0.
Proof.
  apply (same_key_same_date Examples.ist_clock
           (Examples.world (fun _ => None) Examples.no_loads Examples.no_http
              (fun _ => 1735700000%Z) 0 Examples.no_names Examples.no_history
              Examples.no_info Examples.in_order)
           "us_fed_rates" "us_fed_rates.csv" initial initial).
  - intros i Hi. reflexivity.
  - intros i Hi. reflexivity.
  - vm_compute. split; [discriminate | reflexivity].
  - vm_compute. split; [discriminate | reflexivity].
  - vm_compute. reflexivity.
Defined.

(** ** Rectangular frames through the aggregation *)

Lemma list_eqb_eq (a b : list string) : list_eqb a b = true -> a = b.
Proof.
  revert b. induction a as [|x a IH]; intros [|y b] H; try discriminate H; [reflexivity|].
  cbn in H. apply andb_true_iff in H. destruct H as [Hx Hab].
  apply String.eqb_eq in Hx. f_equal; auto.
Qed.

Lemma concat_rectangular (frames : list DataFrame) (merged : DataFrame) :
  Forall rectangular frames ->
  concat frames false = Ok merged ->
  rectangular merged.
Proof.
  intros Hall. unfold concat. destruct frames as [|first rest]; [discriminate|].
  remember (first :: rest) as frames eqn:Hfr.
  destruct (forallb _ frames) eqn:Hsame.
  - intro H. injection H as H. subst merged. unfold rectangular. cbn [rows columns].
    apply Forall_forall. intros r Hr. apply in_flat_map in Hr.
    destruct Hr as [df [Hdf Hr]].
    rewrite forallb_forall in Hsame. pose proof (list_eqb_eq _ _ (Hsame df Hdf)) as Hcols.
    rewrite <- Hcols. rewrite Forall_forall in Hall.
    specialize (Hall df Hdf). unfold rectangular in Hall. rewrite Forall_forall in Hall.
    now apply Hall.
  - destruct (existsb _ frames); [discriminate|].
    intro H. injection H as H. subst merged. unfold rectangular. cbn [rows columns].
    apply Forall_forall. intros r Hr. apply in_flat_map in Hr.
    destruct Hr as [df [_ Hr]]. apply in_map_iff in Hr. destruct Hr as [r0 [Hr0 _]].
    subst r. cbn [snd]. unfold relayout. apply length_map.
Qed.

(** X19.  The aggregation of the stock job keeps the table rectangular:
    when every fetched frame has one cell per column in each row, every
    record of the CSV that is written has exactly as many cells as the
    header has labels. *)
Theorem stock_body_rectangular :
  forall (W : World) (symbols : list string) (body : csv) (bucket key ct : string),
    stock_names_file W = Ok symbols ->
    (forall task, In task (as_completed W (Nifty50.submit_all symbols)) ->
                  rectangular (fetched W task)) ->
    In (EUploadFileobj body bucket key ct) (events (handler StockHistory W)) ->
    csv_rectangular body.
Proof.
  intros W symbols body bucket key ct Hfile Hrect Hin. cbn [handler] in Hin.
  destruct (stock_handler_trace W symbols Hfile) as [pre [Hpre Htrace]].
  assert (Hframes : Forall rectangular
                      (nonempty_frames
                         (map (fetched W) (as_completed W (Nifty50.submit_all symbols))))).
  { apply Forall_forall. intros df Hdf. apply filter_In in Hdf. destruct Hdf as [Hdf _].
    apply in_map_iff in Hdf. destruct Hdf as [task [<- Htask]]. now apply Hrect. }
  destruct (nonempty_frames _) as [|df l] eqn:Hne.
  { rewrite Htrace in Hin. now apply fetch_only_not_write in Hin. }
  destruct (concat (df :: l) false) as [merged|e] eqn:Hconcat.
  2:{ destruct Htrace as [msg Ht]. rewrite Ht in Hin.
      apply in_app_or in Hin. destruct Hin as [Hin|[Hin|[]]]; [|discriminate Hin].
      now apply fetch_only_not_write in Hin. }
  destruct (reset_index merged) as [reset|e] eqn:Hreset.
  2:{ destruct Htrace as [msg Ht]. rewrite Ht in Hin.
      apply in_app_or in Hin. destruct Hin as [Hin|[Hin|[]]]; [|discriminate Hin].
      now apply fetch_only_not_write in Hin. }
  destruct Htrace as [post [Ht Hpost]]. rewrite Ht in Hin.
  apply in_app_or in Hin. destruct Hin as [Hin|[Hin|Hin]].
  - now apply fetch_only_not_write in Hin.
  - discriminate Hin.
  - rewrite Forall_forall in Hpost. specialize (Hpost _ Hin). cbn in Hpost. subst body.
    pose proof (concat_rectangular _ _ Hframes Hconcat) as Hmerged.
    unfold csv_rectangular. cbn [to_csv header records].
    rewrite (reset_index_records merged reset _ Hreset).
    cbn [set_columns columns]. rewrite length_map.
    assert (Hcols : columns reset = match index_name merged with
                                    | Some n => n
                                    | None => if mem "index" (columns merged)
                                              then "level_0" else "index"
                                    end :: columns merged).
    { revert Hreset. unfold reset_index. destruct (mem _ (columns merged)); [discriminate|].
      intro H. now injection H as <-. }
    rewrite Hcols. apply Forall_forall. intros r Hr. apply in_map_iff in Hr.
    destruct Hr as [r0 [<- Hr0]]. cbn [List.length]. f_equal.
    unfold rectangular in Hmerged. rewrite Forall_forall in Hmerged. now apply Hmerged.
Qed.

Lemma fetched_a_b_rectangular :
  forall task,
    In task (as_completed Examples.stock_a_fails_b_two_rows (Nifty50.submit_all ["A"; "B"])) ->
    rectangular (fetched Examples.stock_a_fails_b_two_rows task).
Proof.
  intros task [<-|[<-|[]]]; vm_compute; repeat constructor.
Defined.

Lemma stock_body_rectangular_witness :
  csv_rectangular
    (to_csv (set_columns Examples.a_b_reset
               (map normalize_label (columns Examples.a_b_reset)))).
Proof.
  apply (stock_body_rectangular Examples.stock_a_fails_b_two_rows ["A"; "B"] _
           "nifty50-raw-layer"
           "stocks_data/history/year=2024/month=12/day=31/nifty50_stock_history_data.csv"
           "text/csv").
  - reflexivity.
  - exact fetched_a_b_rectangular.
  - vm_compute. find_event.
Defined.
